(** * InkFrame firmware: synchronisation protocol and bitmap transfer

    A shallow embedding of the control logic of [src/main.cpp]: the globals
    of the sketch become one record, every function that touches them
    becomes a computation in a small state-and-output monad, and everything
    the sketch obtains from outside (HTTP replies, the TCP stream, the
    millisecond clock, the button pin) is read from an explicit
    environment.  Serial diagnostics are not modelled. *)

From Stdlib Require Import ZArith List String Bool Lia.
From Stdlib.Strings Require Import Byte.
Import ListNotations.
Open Scope string_scope.
Open Scope list_scope.
Open Scope Z_scope.

(** ** Machine arithmetic of the target (ILP32: [int] and [unsigned long]
       are both 32 bits wide) *)

Module C32.

Definition wrap_int (z : Z) : Z := (z + 2 ^ 31) mod 2 ^ 32 - 2 ^ 31.

Definition wrap_ulong (z : Z) : Z := z mod 2 ^ 32.

(** C's [%] truncates towards zero. *)
Definition c_rem (a b : Z) : Z := Z.rem a b.

End C32.

(** ** Constants and globals *)

Definition DISPLAY_WIDTH : Z := 200.
Definition DISPLAY_HEIGHT : Z := 200.

(** [int expectedSize = DISPLAY_WIDTH * DISPLAY_HEIGHT / 8;] *)
Definition expectedSize : Z := DISPLAY_WIDTH * DISPLAY_HEIGHT / 8.

Inductive DisplayMode := MODE_DASHBOARD | MODE_IMAGE | MODE_SETUP.

Definition DisplayMode_eqb (a b : DisplayMode) : bool :=
  match a, b with
  | MODE_DASHBOARD, MODE_DASHBOARD => true
  | MODE_IMAGE, MODE_IMAGE => true
  | MODE_SETUP, MODE_SETUP => true
  | _, _ => false
  end.

(** The globals of the sketch, the two [static] locals of [loop()], and two
    counters that index the environment (number of HTTP requests made so
    far, number of [millis()] calls so far). *)
Record Device := mkDevice {
  wifiConnected : bool;
  currentMode : DisplayMode;
  currentImageIndex : Z;
  totalImages : Z;
  serverRefreshVersion : Z;
  nextPollSeconds : Z;
  lastPollTime : Z;
  imageBuffer : list byte;
  hasImage : bool;
  lastButtonPress : Z;
  lastButtonState : bool;          (* true = HIGH *)
  net_seq : nat;
  clk : nat
}.

Definition set_currentMode (v : DisplayMode) (d : Device) : Device :=
  mkDevice (wifiConnected d) v (currentImageIndex d) (totalImages d)
    (serverRefreshVersion d) (nextPollSeconds d) (lastPollTime d)
    (imageBuffer d) (hasImage d) (lastButtonPress d) (lastButtonState d)
    (net_seq d) (clk d).

Definition set_currentImageIndex (v : Z) (d : Device) : Device :=
  mkDevice (wifiConnected d) (currentMode d) v (totalImages d)
    (serverRefreshVersion d) (nextPollSeconds d) (lastPollTime d)
    (imageBuffer d) (hasImage d) (lastButtonPress d) (lastButtonState d)
    (net_seq d) (clk d).

Definition set_totalImages (v : Z) (d : Device) : Device :=
  mkDevice (wifiConnected d) (currentMode d) (currentImageIndex d) v
    (serverRefreshVersion d) (nextPollSeconds d) (lastPollTime d)
    (imageBuffer d) (hasImage d) (lastButtonPress d) (lastButtonState d)
    (net_seq d) (clk d).

Definition set_serverRefreshVersion (v : Z) (d : Device) : Device :=
  mkDevice (wifiConnected d) (currentMode d) (currentImageIndex d)
    (totalImages d) v (nextPollSeconds d) (lastPollTime d)
    (imageBuffer d) (hasImage d) (lastButtonPress d) (lastButtonState d)
    (net_seq d) (clk d).

Definition set_nextPollSeconds (v : Z) (d : Device) : Device :=
  mkDevice (wifiConnected d) (currentMode d) (currentImageIndex d)
    (totalImages d) (serverRefreshVersion d) v (lastPollTime d)
    (imageBuffer d) (hasImage d) (lastButtonPress d) (lastButtonState d)
    (net_seq d) (clk d).

Definition set_lastPollTime (v : Z) (d : Device) : Device :=
  mkDevice (wifiConnected d) (currentMode d) (currentImageIndex d)
    (totalImages d) (serverRefreshVersion d) (nextPollSeconds d) v
    (imageBuffer d) (hasImage d) (lastButtonPress d) (lastButtonState d)
    (net_seq d) (clk d).

Definition set_imageBuffer (v : list byte) (d : Device) : Device :=
  mkDevice (wifiConnected d) (currentMode d) (currentImageIndex d)
    (totalImages d) (serverRefreshVersion d) (nextPollSeconds d)
    (lastPollTime d) v (hasImage d) (lastButtonPress d) (lastButtonState d)
    (net_seq d) (clk d).

Definition set_hasImage (v : bool) (d : Device) : Device :=
  mkDevice (wifiConnected d) (currentMode d) (currentImageIndex d)
    (totalImages d) (serverRefreshVersion d) (nextPollSeconds d)
    (lastPollTime d) (imageBuffer d) v (lastButtonPress d) (lastButtonState d)
    (net_seq d) (clk d).

Definition set_lastButtonPress (v : Z) (d : Device) : Device :=
  mkDevice (wifiConnected d) (currentMode d) (currentImageIndex d)
    (totalImages d) (serverRefreshVersion d) (nextPollSeconds d)
    (lastPollTime d) (imageBuffer d) (hasImage d) v (lastButtonState d)
    (net_seq d) (clk d).

Definition set_lastButtonState (v : bool) (d : Device) : Device :=
  mkDevice (wifiConnected d) (currentMode d) (currentImageIndex d)
    (totalImages d) (serverRefreshVersion d) (nextPollSeconds d)
    (lastPollTime d) (imageBuffer d) (hasImage d) (lastButtonPress d) v
    (net_seq d) (clk d).

Definition bump_net (d : Device) : Device :=
  mkDevice (wifiConnected d) (currentMode d) (currentImageIndex d)
    (totalImages d) (serverRefreshVersion d) (nextPollSeconds d)
    (lastPollTime d) (imageBuffer d) (hasImage d) (lastButtonPress d)
    (lastButtonState d) (S (net_seq d)) (clk d).

Definition bump_clk (d : Device) : Device :=
  mkDevice (wifiConnected d) (currentMode d) (currentImageIndex d)
    (totalImages d) (serverRefreshVersion d) (nextPollSeconds d)
    (lastPollTime d) (imageBuffer d) (hasImage d) (lastButtonPress d)
    (lastButtonState d) (net_seq d) (S (clk d)).

(** ** The outside world *)

(** What one call [stream->read(dst, n)] hands over: either the bytes the
    transport has ready (at most [n] of them are taken) or a failure,
    reported as [-1] without touching [dst]. *)
Inductive ReadOutcome :=
| RdData (bs : list byte)
| RdFail.

(** One iteration of the streaming loop as the transport presents it:
    [http.connected()], [millis() - startTime], the two successive values
    of [stream->available()] (a count of buffered bytes), and the outcome
    of the read, if one is made. *)
Record Tick := mkTick {
  tk_connected : bool;
  tk_elapsed : Z;
  tk_available : nat;
  tk_available' : nat;
  tk_read : ReadOutcome
}.

(** The reply to [GET .../bitmap]: status code, [http.getSize()], the
    [X-Image-Total] header already converted by [toInt()] when present,
    and the behaviour of the body stream.  The script is finite because
    each iteration waits a millisecond and the loop stops after 10000 of
    them; past its end the connection is reported closed. *)
Record BitmapResponse := mkBitmapResponse {
  br_code : Z;
  br_size : Z;
  br_total : option Z;
  br_stream : list Tick
}.

(** The JSON document of a poll reply; a missing member takes the
    default written after [|] in the source. *)
Record PollDoc := mkPollDoc {
  pd_r : option bool;
  pd_m : option string;
  pd_v : option Z;
  pd_n : option Z;
  pd_i : option Z;
  pd_t : option Z
}.

(** The reply to [GET .../poll]: status code and the outcome of
    [deserializeJson] ([None] when it reports an error). *)
Record PollReply := mkPollReply {
  pr_code : Z;
  pr_doc : option PollDoc
}.

Record Env := mkEnv {
  millis_at : nat -> Z;
  bitmap_reply : nat -> Z -> string -> BitmapResponse;
  poll_reply : nat -> Z -> string -> Z -> PollReply
}.

(** What the device does to the outside world. *)
Inductive Event :=
| HttpGetBitmap (index : Z) (mode : string)
| HttpGetPoll (v : Z) (m : string) (i : Z)
| HttpPostSetMode (mode : string)
| HttpPostNextImage
| DrawImage (frame : list byte)
| DrawDashboard.

(** ** State-and-output monad *)

Record Res (A : Type) := mkRes {
  value : A;
  final : Device;
  emitted : list Event
}.
Arguments mkRes {A} _ _ _.
Arguments value {A} _.
Arguments final {A} _.
Arguments emitted {A} _.

Definition M (A : Type) : Type := Device -> Res A.

Definition ret {A} (a : A) : M A := fun d => mkRes a d [].

Definition bind {A B} (c : M A) (k : A -> M B) : M B :=
  fun d =>
    let r1 := c d in
    let r2 := k (value r1) (final r1) in
    mkRes (value r2) (final r2) (emitted r1 ++ emitted r2).

Definition gets {A} (f : Device -> A) : M A := fun d => mkRes (f d) d [].

Definition modify (f : Device -> Device) : M unit := fun d => mkRes tt (f d) [].

Definition emit (e : Event) : M unit := fun d => mkRes tt d [e].

(** The same result with [es] emitted before it. *)
Definition prepend {A} (es : list Event) (r : Res A) : Res A :=
  mkRes (value r) (final r) (es ++ emitted r).

Declare Scope m_scope.
Delimit Scope m_scope with m.
Notation "x <- c1 ;; c2" := (bind c1 (fun x => c2))
  (at level 61, c1 at next level, right associativity) : m_scope.
Notation "c1 ;; c2" := (bind c1 (fun _ => c2))
  (at level 61, right associativity) : m_scope.
Open Scope m_scope.

(** ** The streaming loop of [fetchBitmap] *)

(** [memcpy]-style store of [chunk] at [dst + off]. *)
Definition poke (buf : list byte) (off : Z) (chunk : list byte) : list byte :=
  firstn (Z.to_nat off) buf ++ chunk
    ++ skipn (Z.to_nat off + List.length chunk)%nat buf.

(** [int c = stream->read(imageBuffer + bytesRead, toRead);] *)
Definition stream_read (o : ReadOutcome) (buf : list byte) (off toRead : Z)
  : Z * list byte :=
  match o with
  | RdFail => (-1, buf)
  | RdData bs =>
      let chunk := firstn (Z.to_nat toRead) bs in
      (Z.of_nat (List.length chunk), poke buf off chunk)
  end.

(** A record of one call of [stream->read]. *)
Record ReadCall := mkReadCall {
  rc_offset : Z;
  rc_toRead : Z;
  rc_ret : Z
}.

Record StreamResult := mkStreamResult {
  sr_bytesRead : Z;
  sr_buffer : list byte;
  sr_reads : list ReadCall
}.

(** The loop condition, apart from [bytesRead < expectedSize]. *)
Definition tick_live (t : Tick) : bool :=
  tk_connected t && (tk_elapsed t <? 10000).

Fixpoint stream_loop (ticks : list Tick) (bytesRead : Z) (buf : list byte)
  : StreamResult :=
  match ticks with
  | [] => mkStreamResult bytesRead buf []
  | t :: rest =>
      if tk_connected t && (bytesRead <? expectedSize)
         && (tk_elapsed t <? 10000)
      then
        if negb (Nat.eqb (tk_available t) 0) then
          let toRead :=
            Z.min (Z.of_nat (tk_available' t)) (expectedSize - bytesRead) in
          let '(c, buf') := stream_read (tk_read t) buf bytesRead toRead in
          let bytesRead' := if 0 <? c then bytesRead + c else bytesRead in
          let r := stream_loop rest bytesRead' buf' in
          mkStreamResult (sr_bytesRead r) (sr_buffer r)
            (mkReadCall bytesRead toRead c :: sr_reads r)
        else stream_loop rest bytesRead buf
      else mkStreamResult bytesRead buf []
  end.

(** ** Operations of the sketch *)

Section Sketch.

Variable env : Env.

(** [millis()], an [unsigned long]. *)
Definition millis : M Z :=
  k <- gets clk ;;
  modify bump_clk ;;
  ret (C32.wrap_ulong (millis_at env k)).

Definition http_get_bitmap (index : Z) (mode : string) : M BitmapResponse :=
  n <- gets net_seq ;;
  emit (HttpGetBitmap index mode) ;;
  modify bump_net ;;
  ret (bitmap_reply env n index mode).

Definition http_get_poll (v : Z) (m : string) (i : Z) : M PollReply :=
  n <- gets net_seq ;;
  emit (HttpGetPoll v m i) ;;
  modify bump_net ;;
  ret (poll_reply env n v m i).

Definition fetchBitmap (index : Z) (mode : string) : M bool :=
  resp <- http_get_bitmap index mode ;;
  if br_code resp =? 200 then
    let len := br_size resp in
    (match br_total resp with
     | Some t => modify (set_totalImages t)
     | None => ret tt
     end) ;;
    if (len =? expectedSize) || (len =? -1) then
      buf <- gets imageBuffer ;;
      let sr := stream_loop (br_stream resp) 0 buf in
      modify (set_imageBuffer (sr_buffer sr)) ;;
      if sr_bytesRead sr =? expectedSize then
        (modify (set_hasImage true) ;; ret true)
      else ret false
    else ret false
  else if br_code resp =? 404 then
    (modify (set_totalImages 0) ;; ret false)
  else ret false.

Definition fetchImage (index : Z) : M bool := fetchBitmap index "photo".

Definition fetchDashboard : M bool := fetchBitmap 0 "dashboard".

(** [drawImage()] presents the buffer, unless no image was ever received. *)
Definition drawImage : M unit :=
  h <- gets hasImage ;;
  if h then (buf <- gets imageBuffer ;; emit (DrawImage buf)) else ret tt.

Definition drawDashboard : M unit := emit DrawDashboard.

Definition notifyServerModeChange (mode : string) : M unit :=
  emit (HttpPostSetMode mode) ;;
  modify bump_net.

(** [toggleMode()]: the BOOT button cycles Dashboard -> Photos -> Dashboard. *)
Definition toggleMode : M unit :=
  m <- gets currentMode ;;
  if DisplayMode_eqb m MODE_DASHBOARD then
    modify (set_currentMode MODE_IMAGE) ;;
    notifyServerModeChange "photo" ;;
    idx <- gets currentImageIndex ;;
    ok <- fetchImage idx ;;
    if ok then drawImage
    else
      (modify (set_currentMode MODE_DASHBOARD) ;;
       notifyServerModeChange "dashboard" ;;
       ok' <- fetchDashboard ;;
       if ok' then drawImage else drawDashboard)
  else
    modify (set_currentMode MODE_DASHBOARD) ;;
    notifyServerModeChange "dashboard" ;;
    ok <- fetchDashboard ;;
    if ok then drawImage else drawDashboard.

(** [advanceImage()]; [currentImageIndex + 1] is an [int] addition. *)
Definition advanceImage : M unit :=
  t <- gets totalImages ;;
  if t <=? 1 then ret tt
  else
    idx <- gets currentImageIndex ;;
    modify (set_currentImageIndex (C32.c_rem (C32.wrap_int (idx + 1)) t)) ;;
    emit HttpPostNextImage ;;
    modify bump_net ;;
    idx' <- gets currentImageIndex ;;
    ok <- fetchImage idx' ;;
    if ok then drawImage else ret tt.

(** [doc[key] | fallback] *)
Definition or_default {A} (o : option A) (fallback : A) : A :=
  match o with Some a => a | None => fallback end.

(** [pollServerForInstructions()] *)
Definition pollServerForInstructions : M bool :=
  v <- gets serverRefreshVersion ;;
  m <- gets currentMode ;;
  i <- gets currentImageIndex ;;
  reply <- http_get_poll v
             (if DisplayMode_eqb m MODE_DASHBOARD then "dashboard" else "photo")
             i ;;
  if pr_code reply =? 200 then
    match pr_doc reply with
    | Some doc =>
        let shouldRefresh := or_default (pd_r doc) false in
        let mode := or_default (pd_m doc) "dashboard" in
        let newVersion := or_default (pd_v doc) 0 in
        let newPollSeconds := or_default (pd_n doc) 30 in
        let newIndex := or_default (pd_i doc) 0 in
        let newTotal := or_default (pd_t doc) 0 in
        modify (set_serverRefreshVersion newVersion) ;;
        modify (set_nextPollSeconds newPollSeconds) ;;
        modify (set_totalImages newTotal) ;;
        let newMode :=
          if String.eqb mode "photo" then MODE_IMAGE else MODE_DASHBOARD in
        cur <- gets currentMode ;;
        let modeChanged := negb (DisplayMode_eqb newMode cur) in
        curIdx <- gets currentImageIndex ;;
        let indexChanged := negb (newIndex =? curIdx) in
        modify (set_currentImageIndex newIndex) ;;
        if shouldRefresh || modeChanged || indexChanged then
          modify (set_currentMode newMode) ;;
          cm <- gets currentMode ;;
          (if DisplayMode_eqb cm MODE_DASHBOARD then
             ok <- fetchDashboard ;;
             if ok then drawImage else drawDashboard
           else
             t <- gets totalImages ;;
             ok <- (if 0 <? t
                    then (idx <- gets currentImageIndex ;; fetchImage idx)
                    else ret false) ;;
             if ok then drawImage
             else
               (modify (set_currentMode MODE_DASHBOARD) ;;
                ok' <- fetchDashboard ;;
                if ok' then drawImage else drawDashboard)) ;;
          ret true
        else ret false
    | None => ret false
    end
  else if pr_code reply =? 404 then ret false
  else ret false.

(** First half of [loop()]: the button.  [pin] is the level read from
    [BUTTON_PIN], [true] for HIGH; the third test of the condition is only
    evaluated when the first two hold. *)
Definition loop_button (pin : bool) : M bool :=
  lastState <- gets lastButtonState ;;
  pressed <- (if negb pin && lastState then
                (now <- millis ;;
                 lbp <- gets lastButtonPress ;;
                 ret (300 <? C32.wrap_ulong (now - lbp)))
              else ret false) ;;
  (if pressed then
     (now <- millis ;;
      modify (set_lastButtonPress now) ;;
      toggleMode ;;
      modify (set_lastPollTime 0))
   else ret tt) ;;
  modify (set_lastButtonState pin) ;;
  ret pressed.

(** [unsigned long pollIntervalMs = (unsigned long)nextPollSeconds * 1000UL;] *)
Definition pollIntervalMs (d : Device) : Z :=
  C32.wrap_ulong (C32.wrap_ulong (nextPollSeconds d) * 1000).

(** [millis() - lastPollTime > pollIntervalMs] *)
Definition poll_due (now : Z) (d : Device) : bool :=
  pollIntervalMs d <? C32.wrap_ulong (now - lastPollTime d).

(** Second half of [loop()]: the server-driven poll. *)
Definition loop_poll : M unit :=
  wifi <- gets wifiConnected ;;
  if negb wifi then ret tt
  else
    now <- millis ;;
    d <- gets (fun d => d) ;;
    if poll_due now d then
      (pollServerForInstructions ;;
       now' <- millis ;;
       modify (set_lastPollTime now'))
    else ret tt.

Definition loop (pin : bool) : M unit :=
  loop_button pin ;;
  loop_poll.

End Sketch.

(** * Notions used in the statements *)

(** ** One call of [fetchBitmap] *)

(** A call [read(imageBuffer + off, toRead)] that stays inside the array
    and returns no more than it was asked for. *)
Definition read_in_bounds (rc : ReadCall) : Prop :=
  0 <= rc_offset rc /\ 0 <= rc_toRead rc
  /\ rc_offset rc + rc_toRead rc <= expectedSize
  /\ rc_ret rc <= rc_toRead rc.

(** The loop never looks past the first tick at which the connection is
    closed or ten seconds have gone by. *)
Fixpoint live_prefix (ticks : list Tick) : list Tick :=
  match ticks with
  | [] => []
  | t :: rest => if tick_live t then t :: live_prefix rest else []
  end.

(** Number of body bytes one call of [fetchBitmap] takes from the stream:
    none unless the status is 200 and the declared size passes the test,
    and then what the streaming loop counted in [bytesRead]. *)
Definition bytes_received (resp : BitmapResponse) (buf : list byte) : Z :=
  if (br_code resp =? 200)
     && ((br_size resp =? expectedSize) || (br_size resp =? -1))
  then sr_bytesRead (stream_loop (br_stream resp) 0 buf)
  else 0.

(** Whether a call that receives [resp] while the buffer holds [buf]
    returns [true]. *)
Definition fetch_succeeds (resp : BitmapResponse) (buf : list byte) : bool :=
  bytes_received resp buf =? expectedSize.

(** What a call of [fetchBitmap] leaves in [totalImages]. *)
Definition total_after (resp : BitmapResponse) (old : Z) : Z :=
  if br_code resp =? 200 then or_default (br_total resp) old
  else if br_code resp =? 404 then 0
  else old.

(** What a call of [fetchBitmap] leaves in [imageBuffer]. *)
Definition buffer_after (resp : BitmapResponse) (buf : list byte) : list byte :=
  if (br_code resp =? 200)
     && ((br_size resp =? expectedSize) || (br_size resp =? -1))
  then sr_buffer (stream_loop (br_stream resp) 0 buf)
  else buf.

(** The globals after a call of [fetchBitmap] that received [resp]. *)
Definition after_fetch (resp : BitmapResponse) (d : Device) : Device :=
  mkDevice (wifiConnected d) (currentMode d) (currentImageIndex d)
    (total_after resp (totalImages d))
    (serverRefreshVersion d) (nextPollSeconds d) (lastPollTime d)
    (buffer_after resp (imageBuffer d))
    (hasImage d || fetch_succeeds resp (imageBuffer d))
    (lastButtonPress d) (lastButtonState d) (S (net_seq d)) (clk d).

(** The fields [fetchBitmap] never assigns. *)
Definition same_control (d d' : Device) : Prop :=
  wifiConnected d' = wifiConnected d
  /\ currentMode d' = currentMode d
  /\ currentImageIndex d' = currentImageIndex d
  /\ serverRefreshVersion d' = serverRefreshVersion d
  /\ nextPollSeconds d' = nextPollSeconds d
  /\ lastPollTime d' = lastPollTime d
  /\ lastButtonPress d' = lastButtonPress d
  /\ lastButtonState d' = lastButtonState d
  /\ clk d' = clk d.

(** The event that ends [if (fetch...) drawImage(); else drawDashboard();]
    in state [d] after the fetch. *)
Definition shown_after (ok : bool) (d : Device) : Event :=
  if ok then DrawImage (imageBuffer d) else DrawDashboard.

(** ** Runs and their events *)

Definition is_poll (e : Event) : bool :=
  match e with HttpGetPoll _ _ _ => true | _ => false end.

Definition is_fetch (e : Event) : bool :=
  match e with HttpGetBitmap _ _ => true | _ => false end.

(** Number of poll requests in a run. *)
Definition polls (es : list Event) : nat := List.length (filter is_poll es).

(** Number of bitmap requests in a run. *)
Definition fetches (es : list Event) : nat := List.length (filter is_fetch es).

(** ** Polling *)

(** The [m] parameter of the poll URL. *)
Definition mode_name (m : DisplayMode) : string :=
  if DisplayMode_eqb m MODE_DASHBOARD then "dashboard" else "photo".

(** The reply the server gives to the poll issued in state [d]. *)
Definition reply_to_poll (env : Env) (d : Device) : PollReply :=
  poll_reply env (net_seq d) (serverRefreshVersion d)
    (mode_name (currentMode d)) (currentImageIndex d).

(** The poll request issued in state [d]. *)
Definition poll_request (d : Device) : Event :=
  HttpGetPoll (serverRefreshVersion d) (mode_name (currentMode d))
    (currentImageIndex d).

(** The mode a poll document asks for ([newMode] in the source). *)
Definition doc_mode (doc : PollDoc) : DisplayMode :=
  if String.eqb (or_default (pd_m doc) "dashboard") "photo"
  then MODE_IMAGE else MODE_DASHBOARD.

(** The globals once the members of a poll document have been stored
    (up to and including [currentImageIndex = newIndex]). *)
Definition after_merge (doc : PollDoc) (d : Device) : Device :=
  set_currentImageIndex (or_default (pd_i doc) 0)
    (set_totalImages (or_default (pd_t doc) 0)
       (set_nextPollSeconds (or_default (pd_n doc) 30)
          (set_serverRefreshVersion (or_default (pd_v doc) 0)
             (bump_net d)))).

(** [shouldRefresh || modeChanged || indexChanged] *)
Definition wants_refresh (doc : PollDoc) (d : Device) : bool :=
  or_default (pd_r doc) false
  || negb (DisplayMode_eqb (doc_mode doc) (currentMode d))
  || negb (or_default (pd_i doc) 0 =? currentImageIndex d).

(** The display refresh inside [pollServerForInstructions], entered with
    the globals [d0] and the requested mode [newMode]: what it returns,
    leaves in the globals and emits. *)
Definition refresh_result (env : Env) (newMode : DisplayMode) (d0 : Device)
  : Res bool :=
  let d1 := set_currentMode newMode d0 in
  let idx := currentImageIndex d1 in
  let q := bitmap_reply env (net_seq d1) 0 "dashboard" in
  let p := bitmap_reply env (net_seq d1) idx "photo" in
  let q' := bitmap_reply env (S (net_seq d1)) 0 "dashboard" in
  if DisplayMode_eqb newMode MODE_DASHBOARD then
    mkRes true (after_fetch q d1)
      [HttpGetBitmap 0 "dashboard";
       shown_after (fetch_succeeds q (imageBuffer d1)) (after_fetch q d1)]
  else if 0 <? totalImages d1 then
    let d2 := after_fetch p d1 in
    if fetch_succeeds p (imageBuffer d1) then
      mkRes true d2 [HttpGetBitmap idx "photo"; DrawImage (imageBuffer d2)]
    else
      let d3 := set_currentMode MODE_DASHBOARD d2 in
      mkRes true (after_fetch q' d3)
        [HttpGetBitmap idx "photo"; HttpGetBitmap 0 "dashboard";
         shown_after (fetch_succeeds q' (imageBuffer d3)) (after_fetch q' d3)]
  else
    let d3 := set_currentMode MODE_DASHBOARD d1 in
    mkRes true (after_fetch q d3)
      [HttpGetBitmap 0 "dashboard";
       shown_after (fetch_succeeds q (imageBuffer d3)) (after_fetch q d3)].

(** ** Toggling *)

(** No server-side change: the reply to a bitmap request depends on the
    request only, not on when it is made. *)
Definition stable_server (env : Env) : Prop :=
  forall n n' i m, bitmap_reply env n i m = bitmap_reply env n' i m.

Definition toggle_twice (env : Env) : M unit :=
  toggleMode env ;; toggleMode env.

(** A frame of zero bytes, as the array is before the first fetch. *)
Definition blank_frame : list byte := repeat x00 5000.

Definition photo_reply (env : Env) (idx : Z) : BitmapResponse :=
  bitmap_reply env 0 idx "photo".

Definition dashboard_reply (env : Env) : BitmapResponse :=
  bitmap_reply env 0 0 "dashboard".

(** Whether the photo at [idx] can be fetched. *)
Definition photo_ok (env : Env) (idx : Z) : bool :=
  fetch_succeeds (photo_reply env idx) blank_frame.

(** What ends a dashboard request: the server's frame, or the local
    fallback screen. *)
Definition dashboard_shown (env : Env) : Event :=
  if fetch_succeeds (dashboard_reply env) blank_frame
  then DrawImage (buffer_after (dashboard_reply env) blank_frame)
  else DrawDashboard.

(** The mode one toggle leads to, with a stable server. *)
Definition toggle_mode (env : Env) (m : DisplayMode) (idx : Z) : DisplayMode :=
  if DisplayMode_eqb m MODE_DASHBOARD
  then (if photo_ok env idx then MODE_IMAGE else MODE_DASHBOARD)
  else MODE_DASHBOARD.

(** The requests and drawings one toggle makes, with a stable server. *)
Definition toggle_events (env : Env) (m : DisplayMode) (idx : Z)
  : list Event :=
  if DisplayMode_eqb m MODE_DASHBOARD then
    if photo_ok env idx then
      [HttpPostSetMode "photo"; HttpGetBitmap idx "photo";
       DrawImage (buffer_after (photo_reply env idx) blank_frame)]
    else
      [HttpPostSetMode "photo"; HttpGetBitmap idx "photo";
       HttpPostSetMode "dashboard"; HttpGetBitmap 0 "dashboard";
       dashboard_shown env]
  else
    [HttpPostSetMode "dashboard"; HttpGetBitmap 0 "dashboard";
     dashboard_shown env].

(** ** The invariant of the device state *)

(** With no images the mode is Dashboard and the index 0; with images the
    index is below their number. *)
Definition state_invariant (d : Device) : Prop :=
  (totalImages d = 0 ->
   currentMode d = MODE_DASHBOARD /\ currentImageIndex d = 0)
  /\ (0 < totalImages d -> currentImageIndex d < totalImages d).

(** The part of the invariant that relates an index to a total. *)
Definition index_fits (i t : Z) : Prop :=
  (t = 0 -> i = 0) /\ (0 < t -> i < t).

(** The total a bitmap reply announces: the [X-Image-Total] header of a
    200, or 0 by a 404; [None] when the reply leaves [totalImages] alone. *)
Definition announced_total (resp : BitmapResponse) : option Z :=
  if br_code resp =? 200 then br_total resp
  else if br_code resp =? 404 then Some 0
  else None.

(** Index [i] fits the total [resp] announces, if it announces one. *)
Definition reply_fits (resp : BitmapResponse) (i : Z) : Prop :=
  forall t, announced_total resp = Some t -> index_fits i t.

(** From request number [k] on, the replies to requests for photo [i]
    announce totals that fit [i]. *)
Definition photo_fits (env : Env) (k : nat) (i : Z) : Prop :=
  forall n, (k <= n)%nat -> reply_fits (bitmap_reply env n i "photo") i.

(** From request number [k] on, the replies to requests for the dashboard
    announce totals that fit [i]. *)
Definition dashboard_fits (env : Env) (k : nat) (i : Z) : Prop :=
  forall n, (k <= n)%nat -> reply_fits (bitmap_reply env n 0 "dashboard") i.

(** From request number [k] on, photo [i] is delivered only with a total
    other than 0 in force: the one the reply announces or, when it
    announces none, [old]. *)
Definition photo_needs_images (env : Env) (k : nat) (old i : Z) : Prop :=
  forall n buf,
    (k <= n)%nat ->
    fetch_succeeds (bitmap_reply env n i "photo") buf = true ->
    total_after (bitmap_reply env n i "photo") old <> 0.

(** From request number [k] on, no reply to a request for photo [i]
    announces a total of 0. *)
Definition photo_not_emptied (env : Env) (k : nat) (i : Z) : Prop :=
  forall n,
    (k <= n)%nat ->
    announced_total (bitmap_reply env n i "photo") <> Some 0.

(** What the invariant asks of a poll document received in state [d]: its
    index fits its total, and when it announces no image and causes no
    refresh, the device is showing the dashboard. *)
Definition doc_fits (doc : PollDoc) (d : Device) : Prop :=
  index_fits (or_default (pd_i doc) 0) (or_default (pd_t doc) 0)
  /\ (wants_refresh doc d = false -> or_default (pd_t doc) 0 = 0 ->
      currentMode d = MODE_DASHBOARD).

(** [(currentImageIndex + 1) % totalImages] *)
Definition next_index (d : Device) : Z :=
  C32.c_rem (C32.wrap_int (currentImageIndex d + 1)) (totalImages d).

(** No bitmap reply changes [totalImages]: none is a 404 and none that is
    a 200 carries an [X-Image-Total] header. *)
Definition total_kept (env : Env) : Prop :=
  forall n i m old, total_after (bitmap_reply env n i m) old = old.

(** ** The control loop *)

(** The condition of the button test in [loop()], evaluated in state [d]. *)
Definition button_pressed (env : Env) (pin : bool) (d : Device) : bool :=
  negb pin && lastButtonState d
  && (300 <? C32.wrap_ulong
               (C32.wrap_ulong (millis_at env (clk d)) - lastButtonPress d)).

(** * Concrete devices, replies and servers *)

(** A reply that delivers a whole frame of [b] in one read. *)
Definition reply_frame (b : byte) : BitmapResponse :=
  mkBitmapResponse 200 5000 None
    [mkTick true 5 5000 5000 (RdData (repeat b 5000))].

(** A reply that delivers 4990 bytes and then nothing until the read
    deadline has passed. *)
Definition reply_short : BitmapResponse :=
  mkBitmapResponse 200 5000 None
    [mkTick true 5 4990 4990 (RdData (repeat xff 4990));
     mkTick true 6000 0 0 (RdData []);
     mkTick true 10000 0 0 (RdData [])].

(** A reply that is only a status line. *)
Definition reply_status (code : Z) : BitmapResponse :=
  mkBitmapResponse code 0 None [].

(** The same reply with [X-Image-Total: t]. *)
Definition with_total (t : Z) (resp : BitmapResponse) : BitmapResponse :=
  mkBitmapResponse (br_code resp) (br_size resp) (Some t) (br_stream resp).

(** A poll that fails in the transport. *)
Definition reply_no_poll : PollReply := mkPollReply (-1) None.

(** Scenario A of the specification: nothing to refresh, poll again in a
    minute. *)
Definition doc_A : PollDoc :=
  mkPollDoc (Some false) (Some "dashboard") (Some 5) (Some 60) (Some 0) (Some 0).

(** Scenario B of the specification: refresh into photo mode, index 2 of
    five images. *)
Definition doc_B : PollDoc :=
  mkPollDoc (Some true) (Some "photo") (Some 6) (Some 30) (Some 2) (Some 5).

(** A poll document that keeps photo mode and index 0 and announces that
    no image is left. *)
Definition doc_emptied : PollDoc :=
  mkPollDoc (Some false) (Some "photo") (Some 1) (Some 30) (Some 0) (Some 0).

(** A server that always answers photo requests with [photo], dashboard
    requests with [dash] and polls with [poll]; the clock advances one
    second per reading, starting at [t0]. *)
Definition fixed_env (t0 : Z) (photo dash : BitmapResponse) (poll : PollReply)
  : Env :=
  mkEnv (fun k => t0 + 1000 * Z.of_nat k)
        (fun _ _ m => if String.eqb m "photo" then photo else dash)
        (fun _ _ _ _ => poll).

(** A server with content: an all-ones frame for photos, an all-zeros
    frame for the dashboard. *)
Definition photo_env : Env :=
  fixed_env 0 (reply_frame xff) (reply_frame x00) reply_no_poll.

(** A server without content: 404 for photos, 500 for the dashboard. *)
Definition empty_env (poll : PollReply) : Env :=
  fixed_env 0 (reply_status 404) (reply_status 500) poll.

(** A clock that reads [t] at every call. *)
Definition frozen_env (t : Z) : Env :=
  mkEnv (fun _ => t)
        (fun _ _ _ => reply_status 500)
        (fun _ _ _ _ => reply_no_poll).

(** The globals as their initialisers leave them, before WiFi is up. *)
Definition boot_device : Device :=
  mkDevice false MODE_DASHBOARD 0 0 0 30 0 blank_frame false 0 true 0 0.

(** The same with WiFi connected. *)
Definition device0 : Device :=
  mkDevice true MODE_DASHBOARD 0 0 0 30 0 blank_frame false 0 true 0 0.

(** Photo mode, five images, the first one current. *)
Definition image_device : Device :=
  set_totalImages 5 (set_currentMode MODE_IMAGE device0).

(** Photo mode, five images, the last one current. *)
Definition last_image_device : Device :=
  set_currentImageIndex 4 image_device.

(** A server with five photos that says so in every bitmap reply and asks
    for photo 2 in every poll reply (Scenario B). *)
Definition five_photos_env : Env :=
  fixed_env 0 (with_total 5 (reply_frame xff)) (with_total 5 (reply_frame x00))
    (mkPollReply 200 (Some doc_B)).

(** Scenario D of the specification: no photo, 404 for photo requests, a
    frame for the dashboard. *)
Definition no_photos_env : Env :=
  fixed_env 0 (reply_status 404) (reply_frame x00) reply_no_poll.

From Stdlib Require DecimalString.

(** * Further notions: runs, frames and repeated operations *)

Definition is_draw (e : Event) : bool :=
  match e with DrawImage _ | DrawDashboard => true | _ => false end.

(** Number of screens drawn in a run. *)
Definition draws (es : list Event) : nat := List.length (filter is_draw es).

(** The modes reported to the server in a run, in order. *)
Fixpoint set_modes (es : list Event) : list string :=
  match es with
  | [] => []
  | HttpPostSetMode m :: rest => m :: set_modes rest
  | _ :: rest => set_modes rest
  end.

(** The frames presented by [drawImage] in a run, in order. *)
Fixpoint frames (es : list Event) : list (list byte) :=
  match es with
  | [] => []
  | DrawImage f :: rest => f :: frames rest
  | _ :: rest => frames rest
  end.

(** Whether a run contains a request other than a bitmap request or a
    poll request. *)
Definition is_post (e : Event) : bool :=
  match e with HttpPostSetMode _ | HttpPostNextImage => true | _ => false end.

(** The bytes the streaming loop of [fetchBitmap] takes from the transport,
    in the order in which it takes them, when it is entered with
    [bytesRead] bytes already counted. *)
Fixpoint stream_data (ticks : list Tick) (bytesRead : Z) : list byte :=
  match ticks with
  | [] => []
  | t :: rest =>
      if tk_connected t && (bytesRead <? expectedSize)
         && (tk_elapsed t <? 10000)
      then
        if negb (Nat.eqb (tk_available t) 0) then
          let toRead :=
            Z.min (Z.of_nat (tk_available' t)) (expectedSize - bytesRead) in
          match tk_read t with
          | RdData bs =>
              let chunk := firstn (Z.to_nat toRead) bs in
              chunk ++ stream_data rest (bytesRead + Z.of_nat (List.length chunk))
          | RdFail => stream_data rest bytesRead
          end
        else stream_data rest bytesRead
      else []
  end.

(** The body bytes a reply delivers to [fetchBitmap]. *)
Definition delivered (resp : BitmapResponse) : list byte :=
  stream_data (br_stream resp) 0.

(** The body bytes one call of [fetchBitmap] reads: none unless the status
    is 200 and the declared size passes the test, and then those the
    streaming loop takes from the transport. *)
Definition body_read (resp : BitmapResponse) : list byte :=
  if (br_code resp =? 200)
     && ((br_size resp =? expectedSize) || (br_size resp =? -1))
  then delivered resp
  else [].

(** The same reply with its stream cut at the first tick at which the
    connection is closed or ten seconds have gone by. *)
Definition within_deadline (resp : BitmapResponse) : BitmapResponse :=
  mkBitmapResponse (br_code resp) (br_size resp) (br_total resp)
    (live_prefix (br_stream resp)).

(** A frame that some reply of the server delivered completely. *)
Definition complete_frame (env : Env) (f : list byte) : Prop :=
  exists n i m,
    fetch_succeeds (bitmap_reply env n i m) blank_frame = true
    /\ f = delivered (bitmap_reply env n i m)
    /\ Z.of_nat (List.length f) = expectedSize.

(** [advanceImage()] called [n] times in a row. *)
Fixpoint advance_times (env : Env) (n : nat) : M unit :=
  match n with
  | O => ret tt
  | S k => advanceImage env ;; advance_times env k
  end.

(** A poll document that asks for a refresh into photo mode and announces
    no image. *)
Definition doc_photo_none : PollDoc :=
  mkPollDoc (Some true) (Some "photo") (Some 7) (Some 30) (Some 0) (Some 0).


(** * The pixel loop of [drawImage] *)

(** [int byteIndex = (y * DISPLAY_WIDTH + x) / 8;] *)
Definition byteIndex (x y : Z) : Z := Z.quot (y * DISPLAY_WIDTH + x) 8.

(** [int bitIndex = 7 - ((y * DISPLAY_WIDTH + x) % 8);] *)
Definition bitIndex (x y : Z) : Z := 7 - Z.rem (y * DISPLAY_WIDTH + x) 8.

(** The value of a [uint8_t]. *)
Definition byte_value (b : byte) : Z := Z.of_N (Byte.to_N b).

(** [imageBuffer[i]]; an index outside the array has no meaning in the
    source and reads as 0 here. *)
Definition buffer_at (buf : list byte) (i : Z) : byte :=
  if i <? 0 then x00 else nth (Z.to_nat i) buf x00.

(** [bool isWhite = (imageBuffer[byteIndex] >> bitIndex) & 1;] *)
Definition isWhite (buf : list byte) (x y : Z) : bool :=
  negb (Z.land (Z.shiftr (byte_value (buffer_at buf (byteIndex x y)))
                  (bitIndex x y)) 1 =? 0).

(** The values a [for (int v = 0; v < n; v++)] loop runs through. *)
Definition loop_range (n : Z) : list Z := map Z.of_nat (seq 0 (Z.to_nat n)).

(** The calls [display.drawPixel(x, y, GxEPD_BLACK)] of one pass of the
    two loops of [drawImage], in order. *)
Definition drawImage_pixels (buf : list byte) : list (Z * Z) :=
  flat_map
    (fun y =>
       flat_map (fun x => if isWhite buf x y then [] else [(x, y)])
         (loop_range DISPLAY_WIDTH))
    (loop_range DISPLAY_HEIGHT).

(** * The uptime line of [drawDashboard] *)

(** [unsigned long secs = millis() / 1000; int hrs = secs / 3600;] *)
Definition uptime_hrs (ms : Z) : Z := C32.wrap_int ((ms / 1000) / 3600).

(** [int mins = (secs % 3600) / 60;] *)
Definition uptime_mins (ms : Z) : Z :=
  C32.wrap_int (((ms / 1000) mod 3600) / 60).

(** What [printf] writes for [%d]. *)
Definition fmt_d (n : Z) : string :=
  DecimalString.NilZero.string_of_int (Z.to_int n).

(** What [printf] writes for [%02d]: at least two characters, padded with
    a zero on the left. *)
Definition fmt_02d (n : Z) : string :=
  if (String.length (fmt_d n) <? 2)%nat
  then String.append "0" (fmt_d n)
  else fmt_d n.

(** [sprintf(uptimeStr, "Up: %02d:%02d", hrs, mins);] for a clock reading
    of [ms] milliseconds. *)
Definition uptimeStr (ms : Z) : string :=
  String.append "Up: "
    (String.append (fmt_02d (uptime_hrs ms))
       (String.append ":" (fmt_02d (uptime_mins ms)))).

(** * Start-up: [setup], [setupWiFi], [registerDevice],
      [fetchDeviceSettings] *)

(** The globals the start-up code uses besides those of [Device]. *)
Record Boot := mkBoot {
  dev : Device;
  imageRotateInterval : Z
}.

Definition set_dev (v : Device) (b : Boot) : Boot :=
  mkBoot v (imageRotateInterval b).

Definition set_imageRotateInterval (v : Z) (b : Boot) : Boot :=
  mkBoot (dev b) v.

Definition set_wifiConnected (v : bool) (d : Device) : Device :=
  mkDevice v (currentMode d) (currentImageIndex d) (totalImages d)
    (serverRefreshVersion d) (nextPollSeconds d) (lastPollTime d)
    (imageBuffer d) (hasImage d) (lastButtonPress d) (lastButtonState d)
    (net_seq d) (clk d).

(** The JSON document of an [image-info] reply. *)
Record SettingsDoc := mkSettingsDoc {
  sd_total : option Z;
  sd_currentIndex : option Z;
  sd_rotateMinutes : option Z
}.

(** The reply to [GET .../image-info]: status code and the outcome of
    [deserializeJson]. *)
Record SettingsReply := mkSettingsReply {
  st_code : Z;
  st_doc : option SettingsDoc
}.

(** What start-up obtains from outside, besides what [Env] gives: the
    level of [BUTTON_PIN] at boot ([true] for HIGH), the result of
    [wifiManager.autoConnect], the status of the health check and the
    reply to [image-info].  The status of the registration request is only
    logged and is left out. *)
Record BootEnv := mkBootEnv {
  core_env : Env;
  boot_pin : bool;
  auto_connect : bool;
  health_code : Z;
  settings_reply : SettingsReply
}.

(** What start-up does to the outside world. *)
Inductive BootEvent :=
| Core (e : Event)
| ResetWiFiSettings
| Restart
| InitDisplay
| DrawTestScreen
| DrawSetupScreen
| DrawWiFiFailed
| AutoConnect
| SetInsecure
| HttpGetHealth
| HttpPostRegister (displayType firmwareVersion : string)
| HttpGetImageInfo.

Record BRes (A : Type) := mkBRes {
  bvalue : A;
  bfinal : Boot;
  bemitted : list BootEvent
}.
Arguments mkBRes {A} _ _ _.
Arguments bvalue {A} _.
Arguments bfinal {A} _.
Arguments bemitted {A} _.

Definition B (A : Type) : Type := Boot -> BRes A.

Definition bret {A} (a : A) : B A := fun b => mkBRes a b [].

Definition bbind {A C} (c : B A) (k : A -> B C) : B C :=
  fun b =>
    let r1 := c b in
    let r2 := k (bvalue r1) (bfinal r1) in
    mkBRes (bvalue r2) (bfinal r2) (bemitted r1 ++ bemitted r2).

Definition bmodify (f : Boot -> Boot) : B unit := fun b => mkBRes tt (f b) [].

Definition bemit (e : BootEvent) : B unit := fun b => mkBRes tt b [e].

(** The same result with [es] emitted before it. *)
Definition bprepend {A} (es : list BootEvent) (r : BRes A) : BRes A :=
  mkBRes (bvalue r) (bfinal r) (es ++ bemitted r).

(** A function of the sketch proper, run on the globals it knows. *)
Definition lift {A} (c : M A) : B A :=
  fun b =>
    let r := c (dev b) in
    mkBRes (value r) (set_dev (final r) b) (map Core (emitted r)).

Declare Scope b_scope.
Delimit Scope b_scope with b.
Notation "x <- c1 ;; c2" := (bbind c1 (fun x => c2))
  (at level 61, c1 at next level, right associativity) : b_scope.
Notation "c1 ;; c2" := (bbind c1 (fun _ => c2))
  (at level 61, right associativity) : b_scope.

(** [imageRotateInterval = rotateMinutes * 60 * 1000UL;]: the first
    product is an [int], the second an [unsigned long]. *)
Definition rotate_interval (rotateMinutes : Z) : Z :=
  C32.wrap_ulong (C32.wrap_ulong (C32.wrap_int (rotateMinutes * 60)) * 1000).

Section Startup.

Variable benv : BootEnv.

(** [setupSecureClient()]: certificate verification is switched off. *)
Definition setupSecureClient : B unit := bemit SetInsecure.

(** [registerDevice()]; [unreachable] stands for the early [return]. *)
Definition registerDevice : B unit :=
  (bemit HttpGetHealth ;;
   lift (modify bump_net) ;;
   let testCode := health_code benv in
   unreachable <- (if testCode =? 200 then bret false
                   else if testCode <? 0 then bret true
                   else bret false) ;;
   if unreachable then bret tt
   else
     (bemit (HttpPostRegister "154_BW" "1.0.0") ;;
      lift (modify bump_net)))%b.

(** [fetchDeviceSettings()] *)
Definition fetchDeviceSettings : B unit :=
  (bemit HttpGetImageInfo ;;
   lift (modify bump_net) ;;
   let reply := settings_reply benv in
   if st_code reply =? 200 then
     match st_doc reply with
     | Some doc =>
         lift (modify (set_totalImages (or_default (sd_total doc) 0))) ;;
         lift (modify (set_currentImageIndex
                         (or_default (sd_currentIndex doc) 0))) ;;
         let rotateMinutes := or_default (sd_rotateMinutes doc) 60 in
         bmodify (set_imageRotateInterval (rotate_interval rotateMinutes))
     | None => bret tt
     end
   else bret tt)%b.

(** [setupWiFi()] *)
Definition setupWiFi : B unit :=
  (bemit DrawSetupScreen ;;
   bemit AutoConnect ;;
   if auto_connect benv then
     lift (modify (set_wifiConnected true)) ;;
     setupSecureClient ;;
     registerDevice ;;
     fetchDeviceSettings ;;
     refreshed <- lift (pollServerForInstructions (core_env benv)) ;;
     (if negb refreshed then
        lift (modify (set_currentMode MODE_DASHBOARD)) ;;
        lift drawDashboard
      else bret tt) ;;
     now <- lift (millis (core_env benv)) ;;
     lift (modify (set_lastPollTime now))
   else
     lift (modify (set_wifiConnected false)) ;;
     bemit DrawWiFiFailed)%b.

(** [setup()]; [ESP.restart()] does not return, so nothing follows it. *)
Definition setup : B unit :=
  (if negb (boot_pin benv) then
     bemit ResetWiFiSettings ;;
     bemit Restart
   else
     bemit InitDisplay ;;
     bemit DrawTestScreen ;;
     setupWiFi)%b.

End Startup.

(** The state in which [setup()] starts. *)
Definition boot_state : Boot := mkBoot boot_device 3600000.

(** The requests of a run of start-up code, those of the sketch proper
    included. *)
Definition is_request (e : BootEvent) : bool :=
  match e with
  | Core (HttpGetBitmap _ _) | Core (HttpGetPoll _ _ _)
  | Core (HttpPostSetMode _) | Core HttpPostNextImage
  | HttpGetHealth | HttpPostRegister _ _ | HttpGetImageInfo => true
  | _ => false
  end.

(** The events of the sketch proper in a run of start-up code. *)
Fixpoint core_events (es : list BootEvent) : list Event :=
  match es with
  | [] => []
  | Core e :: rest => e :: core_events rest
  | _ :: rest => core_events rest
  end.

(** The globals at the moment [setupWiFi] issues its first poll: WiFi is
    up, the device has been registered, the settings have been fetched. *)
Definition state_at_initial_poll (benv : BootEnv) (b : Boot) : Device :=
  dev (bfinal
         (fetchDeviceSettings benv
            (bfinal
               (registerDevice benv
                  (set_dev (set_wifiConnected true (dev b)) b))))).

(** The requests of [registerDevice]. *)
Definition register_events (benv : BootEnv) : list BootEvent :=
  if health_code benv <? 0 then [HttpGetHealth]
  else [HttpGetHealth; HttpPostRegister "154_BW" "1.0.0"].

(** The globals with the request counter set to [n]. *)
Definition set_net_seq (n : nat) (d : Device) : Device :=
  mkDevice (wifiConnected d) (currentMode d) (currentImageIndex d)
    (totalImages d) (serverRefreshVersion d) (nextPollSeconds d)
    (lastPollTime d) (imageBuffer d) (hasImage d) (lastButtonPress d)
    (lastButtonState d) n (clk d).

(** A start-up environment around a server [env]. *)
Definition boot_env (env : Env) (pin connect : bool) (health : Z)
    (settings : SettingsReply) : BootEnv :=
  mkBootEnv env pin connect health settings.

(** An [image-info] reply: seven images, the fourth current, rotation
    every two hours. *)
Definition settings_seven : SettingsReply :=
  mkSettingsReply 200 (Some (mkSettingsDoc (Some 7) (Some 3) (Some 120))).

(** * The states of a run *)

(** The device shows the dashboard, or it shows the photo at the current
    index and the server delivers that photo. *)
Definition settled (env : Env) (d : Device) : Prop :=
  currentMode d = MODE_DASHBOARD
  \/ (currentMode d = MODE_IMAGE
      /\ photo_ok env (currentImageIndex d) = true).

(** The states the sketch goes through: [setup()] run on the initial
    values of the globals, then any number of iterations of [loop()],
    whatever the button does in each; the two operations an iteration is
    made of, a toggle and a poll, are included on their own as well.
    [advanceImage] is not among them: the sketch never calls it. *)
Inductive reachable (benv : BootEnv) : Device -> Prop :=
| reach_setup :
    reachable benv (dev (bfinal (setup benv boot_state)))
| reach_loop pin d :
    reachable benv d -> reachable benv (final (loop (core_env benv) pin d))
| reach_toggle d :
    reachable benv d -> reachable benv (final (toggleMode (core_env benv) d))
| reach_poll d :
    reachable benv d ->
    reachable benv (final (pollServerForInstructions (core_env benv) d)).

(** * Properties *)

(** ** Machine arithmetic *)

Lemma wrap_int_id z : - 2 ^ 31 <= z < 2 ^ 31 -> C32.wrap_int z = z.
Proof.
  intros H. unfold C32.wrap_int.
  rewrite Z.mod_small by lia. lia.
Qed.

Lemma wrap_ulong_id z : 0 <= z < 2 ^ 32 -> C32.wrap_ulong z = z.
Proof. intros H. unfold C32.wrap_ulong. now rewrite Z.mod_small. Qed.

(** ** Stores into the buffer *)

Lemma expectedSize_val : expectedSize = 5000.
Proof. reflexivity. Qed.

Arguments expectedSize : simpl never.

Lemma poke_length buf off chunk :
  0 <= off ->
  (Z.to_nat off + List.length chunk <= List.length buf)%nat ->
  List.length (poke buf off chunk) = List.length buf.
Proof.
  intros Hoff Hfit. unfold poke.
  rewrite !length_app, length_firstn, length_skipn. lia.
Qed.

Lemma poke_below buf off chunk :
  (Z.to_nat off <= List.length buf)%nat ->
  firstn (Z.to_nat off) (poke buf off chunk) = firstn (Z.to_nat off) buf.
Proof.
  intros Hfit. unfold poke.
  rewrite firstn_app, length_firstn.
  replace (Z.to_nat off - Nat.min (Z.to_nat off) (List.length buf))%nat
    with 0%nat by lia.
  rewrite firstn_firstn, Nat.min_id. cbn. now rewrite app_nil_r.
Qed.

Lemma poke_above buf off chunk :
  (Z.to_nat off <= List.length buf)%nat ->
  skipn (Z.to_nat off + List.length chunk) (poke buf off chunk)
  = skipn (Z.to_nat off + List.length chunk) buf.
Proof.
  intros Hfit. unfold poke.
  rewrite skipn_app, length_firstn.
  rewrite (skipn_all2 (n := (Z.to_nat off + List.length chunk)%nat))
    by (rewrite length_firstn; lia).
  replace (Z.to_nat off + List.length chunk
           - Nat.min (Z.to_nat off) (List.length buf))%nat
    with (List.length chunk) by lia.
  rewrite skipn_app, skipn_all, Nat.sub_diag. reflexivity.
Qed.

Lemma skipn_more {A} (n m : nat) (l l' : list A) :
  (n <= m)%nat -> skipn n l = skipn n l' -> skipn m l = skipn m l'.
Proof.
  intros Hle H.
  replace m with ((m - n) + n)%nat by lia.
  rewrite <- !skipn_skipn. now rewrite H.
Qed.

Lemma firstn_less {A} (n m : nat) (l l' : list A) :
  (n <= m)%nat -> firstn m l = firstn m l' -> firstn n l = firstn n l'.
Proof.
  intros Hle H.
  replace n with (Nat.min n m) by lia.
  rewrite <- !firstn_firstn. now rewrite H.
Qed.

(** ** The streaming loop *)

Lemma stream_read_spec o buf off toRead c buf' :
  stream_read o buf off toRead = (c, buf') ->
  0 <= off -> 0 <= toRead ->
  off + toRead <= Z.of_nat (List.length buf) ->
  c <= toRead
  /\ List.length buf' = List.length buf
  /\ firstn (Z.to_nat off) buf' = firstn (Z.to_nat off) buf
  /\ (let n := if 0 <? c then off + c else off in
      skipn (Z.to_nat n) buf' = skipn (Z.to_nat n) buf).
Proof.
  intros H Hoff Hto Hfit. destruct o as [bs|]; cbn in H.
  - injection H as <- <-.
    set (chunk := firstn (Z.to_nat toRead) bs).
    assert (Hlen : (List.length chunk <= Z.to_nat toRead)%nat)
      by (subst chunk; rewrite length_firstn; lia).
    repeat split.
    + lia.
    + apply poke_length; lia.
    + apply poke_below; lia.
    + cbn. destruct (0 <? Z.of_nat (List.length chunk)) eqn:E.
      * replace (Z.to_nat (off + Z.of_nat (List.length chunk)))
          with (Z.to_nat off + List.length chunk)%nat by lia.
        apply poke_above; lia.
      * apply Z.ltb_ge in E.
        destruct chunk; [|cbn in E; lia].
        unfold poke. cbn. rewrite Nat.add_0_r.
        now rewrite firstn_skipn.
  - injection H as <- <-. cbn. repeat split; try lia.
Qed.

Lemma stream_read_ret_le o buf off toRead c buf' :
  stream_read o buf off toRead = (c, buf') -> 0 <= toRead -> c <= toRead.
Proof.
  intros H Hto. destruct o as [bs|]; cbn in H; injection H as <- _.
  - rewrite length_firstn. lia.
  - lia.
Qed.

Lemma stream_loop_inv ticks : forall bytesRead buf,
  0 <= bytesRead <= expectedSize ->
  Z.of_nat (List.length buf) = expectedSize ->
  let r := stream_loop ticks bytesRead buf in
  bytesRead <= sr_bytesRead r <= expectedSize
  /\ List.length (sr_buffer r) = List.length buf
  /\ Forall read_in_bounds (sr_reads r)
  /\ firstn (Z.to_nat bytesRead) (sr_buffer r)
     = firstn (Z.to_nat bytesRead) buf
  /\ skipn (Z.to_nat (sr_bytesRead r)) (sr_buffer r)
     = skipn (Z.to_nat (sr_bytesRead r)) buf.
Proof.
  induction ticks as [|t rest IH]; intros bytesRead buf Hbr Hlen; cbn.
  - repeat split; auto; lia.
  - destruct (tk_connected t && (bytesRead <? expectedSize)
              && (tk_elapsed t <? 10000)) eqn:Hcond; cbn.
    2: { repeat split; auto; lia. }
    apply andb_prop in Hcond as [Hcond _].
    apply andb_prop in Hcond as [_ Hlt]. apply Z.ltb_lt in Hlt.
    destruct (negb (Nat.eqb (tk_available t) 0)); [|now apply IH].
    set (toRead := Z.min (Z.of_nat (tk_available' t))
                     (expectedSize - bytesRead)).
    assert (Hto : 0 <= toRead <= expectedSize - bytesRead)
      by (subst toRead; lia).
    destruct (stream_read (tk_read t) buf bytesRead toRead) as [c buf'] eqn:Hrd.
    destruct (stream_read_spec _ _ _ _ _ _ Hrd) as (Hc & Hl & Hlow & Hhigh);
      try lia.
    set (bytesRead' := if 0 <? c then bytesRead + c else bytesRead) in *.
    assert (Hbr' : bytesRead <= bytesRead' <= expectedSize)
      by (subst bytesRead'; destruct (0 <? c) eqn:E;
          [apply Z.ltb_lt in E|]; lia).
    destruct (IH bytesRead' buf') as (Hb & Hl' & Hsafe & Hfst & Hskp);
      try lia.
    cbn. repeat split; try lia.
    + constructor; [|exact Hsafe]. repeat split; cbn; lia.
    + rewrite <- Hlow.
      apply firstn_less with (m := Z.to_nat bytesRead'); [lia|exact Hfst].
    + rewrite Hskp.
      apply skipn_more with (n := Z.to_nat bytesRead'); [lia|exact Hhigh].
Qed.

Lemma stream_loop_live ticks : forall bytesRead buf,
  stream_loop ticks bytesRead buf
  = stream_loop (live_prefix ticks) bytesRead buf.
Proof.
  induction ticks as [|t rest IH]; intros bytesRead buf; [reflexivity|].
  cbn. unfold tick_live.
  destruct (tk_connected t) eqn:Hc; cbn; [|reflexivity].
  destruct (tk_elapsed t <? 10000) eqn:He; cbn.
  - rewrite Hc, He. cbn.
    destruct (bytesRead <? expectedSize); cbn; [|reflexivity].
    destruct (negb (Nat.eqb (tk_available t) 0)); [|apply IH].
    destruct (stream_read _ _ _ _) as [c buf']. now rewrite IH.
  - now rewrite andb_false_r.
Qed.

Lemma poke_upto buf off chunk :
  (Z.to_nat off <= List.length buf)%nat ->
  firstn (Z.to_nat off + List.length chunk) (poke buf off chunk)
  = firstn (Z.to_nat off) buf ++ chunk.
Proof.
  intros Hfit. unfold poke.
  rewrite firstn_app, length_firstn.
  rewrite firstn_all2 by (rewrite length_firstn; lia).
  f_equal.
  replace (Z.to_nat off + List.length chunk
           - Nat.min (Z.to_nat off) (List.length buf))%nat
    with (List.length chunk) by lia.
  rewrite firstn_app, firstn_all, Nat.sub_diag. cbn.
  now rewrite app_nil_r.
Qed.

(** What the loop has stored when it stops: the bytes counted before it
    was entered, followed by those it took from the stream. *)
Lemma stream_loop_data ticks : forall bytesRead buf,
  0 <= bytesRead <= expectedSize ->
  Z.of_nat (List.length buf) = expectedSize ->
  let r := stream_loop ticks bytesRead buf in
  firstn (Z.to_nat (sr_bytesRead r)) (sr_buffer r)
  = firstn (Z.to_nat bytesRead) buf ++ stream_data ticks bytesRead.
Proof.
  induction ticks as [|t rest IH]; intros bytesRead buf Hb Hl;
    cbn [stream_loop stream_data sr_bytesRead sr_buffer];
    [now rewrite app_nil_r|].
  destruct (tk_connected t && (bytesRead <? expectedSize)
            && (tk_elapsed t <? 10000)) eqn:Hcond;
    cbn [sr_bytesRead sr_buffer]; [|now rewrite app_nil_r].
  apply andb_prop in Hcond as [Hcond _].
  apply andb_prop in Hcond as [_ Hlt]. apply Z.ltb_lt in Hlt.
  destruct (negb (Nat.eqb (tk_available t) 0)); [|now apply IH].
  set (toRead := Z.min (Z.of_nat (tk_available' t))
                   (expectedSize - bytesRead)).
  assert (Hto : 0 <= toRead <= expectedSize - bytesRead)
    by (subst toRead; lia).
  unfold stream_read. destruct (tk_read t) as [bs|];
    cbn [sr_bytesRead sr_buffer]; [|now apply IH].
  set (chunk := firstn (Z.to_nat toRead) bs).
  assert (Hlen : (List.length chunk <= Z.to_nat toRead)%nat)
    by (subst chunk; rewrite length_firstn; lia).
  assert (Hstep : (if 0 <? Z.of_nat (List.length chunk)
                   then bytesRead + Z.of_nat (List.length chunk)
                   else bytesRead)
                  = bytesRead + Z.of_nat (List.length chunk)).
  { destruct (0 <? Z.of_nat (List.length chunk)) eqn:E; [reflexivity|].
    apply Z.ltb_ge in E. lia. }
  rewrite Hstep.
  rewrite IH; [|lia|rewrite poke_length; lia].
  replace (Z.to_nat (bytesRead + Z.of_nat (List.length chunk)))
    with (Z.to_nat bytesRead + List.length chunk)%nat by lia.
  rewrite poke_upto by lia. now rewrite <- app_assoc.
Qed.

(** [bytesRead] counts exactly the bytes taken from the stream. *)
Lemma stream_loop_count ticks : forall bytesRead buf,
  sr_bytesRead (stream_loop ticks bytesRead buf)
  = bytesRead + Z.of_nat (List.length (stream_data ticks bytesRead)).
Proof.
  induction ticks as [|t rest IH]; intros bytesRead buf;
    cbn [stream_loop stream_data sr_bytesRead]; [cbn; lia|].
  destruct (tk_connected t && (bytesRead <? expectedSize)
            && (tk_elapsed t <? 10000));
    cbn [sr_bytesRead]; [|cbn; lia].
  destruct (negb (Nat.eqb (tk_available t) 0)); [|apply IH].
  unfold stream_read. destruct (tk_read t) as [bs|];
    cbn [sr_bytesRead]; [|apply IH].
  set (chunk := firstn _ bs).
  rewrite length_app, Nat2Z.inj_add.
  destruct (0 <? Z.of_nat (List.length chunk)) eqn:E.
  - rewrite IH. lia.
  - apply Z.ltb_ge in E.
    replace (Z.of_nat (List.length chunk)) with 0 by lia.
    rewrite Z.add_0_r, IH. lia.
Qed.

(** No byte is taken at or after the first tick at which the connection
    is closed or ten seconds have gone by. *)
Lemma stream_data_live ticks : forall bytesRead,
  stream_data ticks bytesRead = stream_data (live_prefix ticks) bytesRead.
Proof.
  induction ticks as [|t rest IH]; intros bytesRead; [reflexivity|].
  cbn [stream_data live_prefix]. unfold tick_live.
  destruct (tk_connected t) eqn:Hc; cbn [andb]; [|reflexivity].
  destruct (tk_elapsed t <? 10000) eqn:He.
  - cbn [stream_data]. rewrite Hc, He. cbn [andb].
    destruct (bytesRead <? expectedSize); cbn [andb]; [|reflexivity].
    destruct (negb (Nat.eqb (tk_available t) 0)); [|apply IH].
    destruct (tk_read t); [|apply IH]. now rewrite IH.
  - now rewrite andb_false_r.
Qed.

Lemma bytes_received_body resp buf :
  bytes_received resp buf = Z.of_nat (List.length (body_read resp)).
Proof.
  unfold bytes_received, body_read, delivered.
  destruct (_ && _); [|reflexivity].
  now rewrite stream_loop_count.
Qed.

Lemma body_read_within_deadline resp :
  body_read resp = body_read (within_deadline resp).
Proof.
  unfold body_read, within_deadline, delivered. cbn [br_code br_size br_stream].
  destruct (_ && _); [|reflexivity].
  apply stream_data_live.
Qed.

(** ** Running monadic code one statement at a time *)

Lemma res_eta {A} (r : Res A) : mkRes (value r) (final r) (emitted r) = r.
Proof. now destruct r. Qed.

Lemma prepend_nil {A} (r : Res A) : prepend [] r = r.
Proof. unfold prepend. cbn. apply res_eta. Qed.

Lemma prepend_prepend {A} es es' (r : Res A) :
  prepend es (prepend es' r) = prepend (es ++ es') r.
Proof. unfold prepend. cbn. now rewrite app_assoc. Qed.

Lemma run_bind {A B} (c : M A) (k : A -> M B) d :
  bind c k d = prepend (emitted (c d)) (k (value (c d)) (final (c d))).
Proof. reflexivity. Qed.

Lemma run_ret {A B} (a : A) (k : A -> M B) d : bind (ret a) k d = k a d.
Proof. rewrite run_bind. apply prepend_nil. Qed.

Lemma run_gets {A B} (f : Device -> A) (k : A -> M B) d :
  bind (gets f) k d = k (f d) d.
Proof. rewrite run_bind. apply prepend_nil. Qed.

Lemma run_modify {B} (f : Device -> Device) (k : unit -> M B) d :
  bind (modify f) k d = k tt (f d).
Proof. rewrite run_bind. apply prepend_nil. Qed.

Lemma run_emit {B} (e : Event) (k : unit -> M B) d :
  bind (emit e) k d = prepend [e] (k tt d).
Proof. reflexivity. Qed.

Lemma run_assoc {A B C} (c : M A) (k1 : A -> M B) (k2 : B -> M C) d :
  bind (bind c k1) k2 d = bind c (fun x => bind (k1 x) k2) d.
Proof. rewrite !run_bind. cbn. now rewrite prepend_prepend. Qed.

Lemma run_if {A B} (b : bool) (c1 c2 : M A) (k : A -> M B) d :
  bind (if b then c1 else c2) k d = if b then bind c1 k d else bind c2 k d.
Proof. now destruct b. Qed.

Lemma if_run {A} (b : bool) (c1 c2 : M A) d :
  (if b then c1 else c2) d = if b then c1 d else c2 d.
Proof. now destruct b. Qed.

Lemma prepend_mkRes {A} es (a : A) d es' :
  prepend es (mkRes a d es') = mkRes a d (es ++ es').
Proof. reflexivity. Qed.

#[local] Opaque bind.

(** One statement. *)
Ltac mstep :=
  first [ rewrite run_assoc | rewrite run_ret | rewrite run_gets
        | rewrite run_modify | rewrite run_emit ];
  cbv beta.

(** What is left when the last statement has been reached. *)
Ltac mtail :=
  unfold ret, gets, modify, emit;
  rewrite ?prepend_prepend, ?prepend_mkRes;
  cbn [app].

Lemma run_http_get_bitmap {B} env index mode (k : BitmapResponse -> M B) d :
  bind (http_get_bitmap env index mode) k d
  = prepend [HttpGetBitmap index mode]
      (k (bitmap_reply env (net_seq d) index mode) (bump_net d)).
Proof. unfold http_get_bitmap. repeat mstep. reflexivity. Qed.

(** ** [fetchBitmap] *)

Lemma fetchBitmap_eq env index mode d :
  fetchBitmap env index mode d
  = mkRes (fetch_succeeds (bitmap_reply env (net_seq d) index mode)
             (imageBuffer d))
          (after_fetch (bitmap_reply env (net_seq d) index mode) d)
          [HttpGetBitmap index mode].
Proof.
  unfold fetchBitmap. rewrite run_http_get_bitmap.
  unfold after_fetch, fetch_succeeds, buffer_after, total_after,
    bytes_received.
  destruct d as [wifi cm ci ti sv np lp ib hi lbp lbs ns ck].
  cbn [net_seq imageBuffer totalImages bump_net wifiConnected currentMode
       currentImageIndex serverRefreshVersion nextPollSeconds lastPollTime
       hasImage lastButtonPress lastButtonState clk].
  generalize (bitmap_reply env ns index mode). intros resp.
  rewrite if_run.
  destruct (br_code resp =? 200) eqn:H200; cbn [andb].
  - assert (Htot : forall B (k : unit -> M B) d0,
              bind (match br_total resp with
                    | Some t => modify (set_totalImages t)
                    | None => ret tt
                    end) k d0
              = k tt (set_totalImages
                        (or_default (br_total resp) (totalImages d0)) d0)).
    { intros B k d0. destruct (br_total resp); [now rewrite run_modify|].
      rewrite run_ret. now destruct d0. }
    rewrite Htot. cbv beta. rewrite if_run.
    destruct ((br_size resp =? expectedSize) || (br_size resp =? -1)).
    + repeat mstep. rewrite if_run.
      cbn [imageBuffer set_totalImages totalImages].
      destruct (sr_bytesRead _ =? expectedSize).
      * repeat mstep. mtail. cbn. now rewrite orb_true_r.
      * mtail. cbn. now rewrite orb_false_r.
    + mtail. cbn. now rewrite orb_false_r.
  - rewrite if_run. destruct (br_code resp =? 404).
    + repeat mstep. mtail. cbn. now rewrite orb_false_r.
    + mtail. cbn. now rewrite orb_false_r.
Qed.

Lemma fetchBitmap_effects env index mode d :
  let resp := bitmap_reply env (net_seq d) index mode in
  let r := fetchBitmap env index mode d in
  emitted r = [HttpGetBitmap index mode]
  /\ same_control d (final r)
  /\ net_seq (final r) = S (net_seq d)
  /\ totalImages (final r) = total_after resp (totalImages d)
  /\ value r = (bytes_received resp (imageBuffer d) =? expectedSize).
Proof.
  cbv zeta. rewrite fetchBitmap_eq. unfold same_control. cbn.
  repeat split; reflexivity.
Qed.

Lemma fetchBitmap_buffer env index mode d :
  let resp := bitmap_reply env (net_seq d) index mode in
  let r := fetchBitmap env index mode d in
  imageBuffer (final r)
  = (if (br_code resp =? 200)
        && ((br_size resp =? expectedSize) || (br_size resp =? -1))
     then sr_buffer (stream_loop (br_stream resp) 0 (imageBuffer d))
     else imageBuffer d)
  /\ hasImage (final r) = hasImage d || value r.
Proof.
  cbv zeta. rewrite fetchBitmap_eq. cbn. split; reflexivity.
Qed.


Lemma bytes_received_range resp buf :
  0 <= bytes_received resp buf <= expectedSize.
Proof.
  pose proof expectedSize_val as HE.
  unfold bytes_received.
  destruct (_ && _); [|lia].
  revert buf. generalize (br_stream resp). intros ticks.
  assert (G : forall bytesRead buf, 0 <= bytesRead <= expectedSize ->
            bytesRead <= sr_bytesRead (stream_loop ticks bytesRead buf)
            <= expectedSize).
  { induction ticks as [|t rest IH]; intros bytesRead buf Hb;
      cbn [stream_loop sr_bytesRead]; [lia|].
    destruct (tk_connected t && (bytesRead <? expectedSize)
              && (tk_elapsed t <? 10000)) eqn:Hcond;
      cbn [sr_bytesRead]; [|lia].
    apply andb_prop in Hcond as [Hcond _].
    apply andb_prop in Hcond as [_ Hlt]. apply Z.ltb_lt in Hlt.
    destruct (negb (Nat.eqb (tk_available t) 0)); [|now apply IH].
    destruct (stream_read _ _ _ _) as [c buf'] eqn:Hrd.
    cbn [sr_bytesRead].
    assert (Hc : c <= expectedSize - bytesRead).
    { apply stream_read_ret_le in Hrd; lia. }
    destruct (0 <? c) eqn:E; [apply Z.ltb_lt in E|].
    - specialize (IH (bytesRead + c) buf'). lia.
    - specialize (IH bytesRead buf'). lia. }
  intros buf. specialize (G 0 buf). lia.
Qed.

(** ** C10, C2, C1, C7: one call of [fetchBitmap] *)

(** C10: in the streaming loop of [fetchBitmap], started as the function
    starts it on the 5000-byte [imageBuffer], [bytesRead] stays within
    [0, expectedSize], every call [read(imageBuffer + bytesRead, toRead)]
    has [bytesRead + toRead <= expectedSize] and stores no more than
    [toRead] bytes, and the buffer keeps its length. *)
Theorem fetchBitmap_stream_in_bounds env index mode d :
  Z.of_nat (List.length (imageBuffer d)) = expectedSize ->
  let resp := bitmap_reply env (net_seq d) index mode in
  let run := stream_loop (br_stream resp) 0 (imageBuffer d) in
  expectedSize = 5000
  /\ 0 <= sr_bytesRead run <= expectedSize
  /\ Forall read_in_bounds (sr_reads run)
  /\ List.length (sr_buffer run) = List.length (imageBuffer d)
  /\ List.length (imageBuffer (final (fetchBitmap env index mode d)))
     = List.length (imageBuffer d).
Proof.
  intros Hlen resp run.
  pose proof expectedSize_val as HE.
  destruct (stream_loop_inv (br_stream resp) 0 (imageBuffer d))
    as (Hb & Hl & Hsafe & _ & _); [lia|exact Hlen|].
  fold run in Hb, Hl, Hsafe.
  repeat split; try lia; try assumption.
  destruct (fetchBitmap_buffer env index mode d) as [-> _].
  fold resp. destruct (_ && _); [exact Hl|reflexivity].
Qed.

Lemma fetchBitmap_stream_in_bounds_witness :
  Z.of_nat (List.length (imageBuffer device0)) = expectedSize
  /\ Forall read_in_bounds
       (sr_reads (stream_loop (br_stream reply_short) 0
                    (imageBuffer device0))).
Proof.
  split; [reflexivity|].
  apply (fetchBitmap_stream_in_bounds
           (fixed_env 0 reply_short reply_short reply_no_poll)
           0 "photo" device0).
  reflexivity.
Defined.

(** C2: [fetchBitmap] returns [true] exactly when the status is 200 and
    the call read exactly [expectedSize] = 5000 body bytes from the stream,
    all of them before the connection closed or ten seconds had passed.  A
    non-200 status and a declared size other than 5000 (unless it is -1,
    unknown) give [false] with no byte read; a read that ended short gives
    [false].  The bytes read are those the transport handed over, and
    [bytesRead] counts exactly them. *)
Theorem fetchBitmap_true_iff env index mode d :
  let resp := bitmap_reply env (net_seq d) index mode in
  let r := fetchBitmap env index mode d in
  let body := body_read resp in
  expectedSize = DISPLAY_WIDTH * DISPLAY_HEIGHT / 8
  /\ expectedSize = 5000
  /\ (value r = true <->
      br_code resp = 200 /\ Z.of_nat (List.length body) = expectedSize)
  /\ (br_code resp <> 200 -> body = [] /\ value r = false)
  /\ (br_size resp <> expectedSize /\ br_size resp <> -1 ->
      body = [] /\ value r = false)
  /\ (Z.of_nat (List.length body) < expectedSize -> value r = false)
  /\ Z.of_nat (List.length body) <= expectedSize
  /\ sr_bytesRead (stream_loop (br_stream resp) 0 (imageBuffer d))
     = Z.of_nat (List.length (delivered resp))
  /\ body = body_read (within_deadline resp).
Proof.
  intros resp r body.
  pose proof expectedSize_val as HE.
  destruct (fetchBitmap_effects env index mode d) as (_ & _ & _ & _ & Hv).
  fold resp r in Hv.
  rewrite (bytes_received_body resp (imageBuffer d)) in Hv. fold body in Hv.
  pose proof (bytes_received_range resp (imageBuffer d)) as Hrange.
  rewrite (bytes_received_body resp (imageBuffer d)) in Hrange.
  fold body in Hrange.
  assert (Hcode : br_code resp <> 200 -> body = []).
  { intros Hne. unfold body, body_read.
    destruct (br_code resp =? 200) eqn:E; [apply Z.eqb_eq in E; lia|].
    reflexivity. }
  assert (Hsize : br_size resp <> expectedSize /\ br_size resp <> -1 ->
                  body = []).
  { intros [H1 H2]. unfold body, body_read.
    destruct (br_size resp =? expectedSize) eqn:E1;
      [apply Z.eqb_eq in E1; lia|].
    destruct (br_size resp =? -1) eqn:E2; [apply Z.eqb_eq in E2; lia|].
    now rewrite andb_false_r. }
  split; [reflexivity|]. split; [exact HE|].
  split; [split|split; [|split; [|split; [|split; [|split]]]]].
  - intros Ht. rewrite Hv in Ht. apply Z.eqb_eq in Ht. split; [|exact Ht].
    destruct (Z.eq_dec (br_code resp) 200) as [|Hne]; [assumption|].
    rewrite (Hcode Hne) in Ht. cbn in Ht. lia.
  - intros [_ Hn]. rewrite Hv. now apply Z.eqb_eq.
  - intros Hne. split; [exact (Hcode Hne)|].
    rewrite Hv, (Hcode Hne). reflexivity.
  - intros Hs. split; [exact (Hsize Hs)|].
    rewrite Hv, (Hsize Hs). reflexivity.
  - intros Hlt. rewrite Hv. apply Z.eqb_neq. lia.
  - lia.
  - rewrite stream_loop_count. unfold delivered. lia.
  - apply body_read_within_deadline.
Qed.

(** Scenario C of the specification: 4990 of 5000 bytes arrive before the
    deadline; the call fails. *)
Example scenario_C_fails :
  value (fetchBitmap (fixed_env 0 reply_short reply_short reply_no_poll)
           0 "photo" device0) = false.
Proof. vm_compute. reflexivity. Qed.

(** C1 as stated does not hold: in Scenario C the call fails and
    [imageBuffer] has nevertheless changed, because the loop stores what it
    receives straight into [imageBuffer]. *)
Lemma fetchBitmap_short_read_changes_buffer :
  let r := fetchBitmap (fixed_env 0 reply_short reply_short reply_no_poll)
             0 "photo" device0 in
  value r = false
  /\ imageBuffer (final r) <> imageBuffer device0.
Proof.
  split; [vm_compute; reflexivity|].
  intros H. apply (f_equal (fun l => nth 0 l x00)) in H.
  vm_compute in H. discriminate H.
Qed.

(** C1, amended: a call of [fetchBitmap] that fails on its status or on the
    declared size has read no byte and leaves [imageBuffer] as it was; a
    call that fails in the streaming loop after reading [n] < 5000 bytes
    has stored them at the start of [imageBuffer], which then holds those
    [n] bytes followed by its former contents from offset [n] on, so that
    the length is unchanged; in every failing call [hasImage] keeps its
    value. *)
Theorem fetchBitmap_failure_buffer env index mode d :
  Z.of_nat (List.length (imageBuffer d)) = expectedSize ->
  let resp := bitmap_reply env (net_seq d) index mode in
  let r := fetchBitmap env index mode d in
  let body := body_read resp in
  let n := List.length body in
  value r = false ->
  (br_code resp <> 200 \/ (br_size resp <> expectedSize /\ br_size resp <> -1)
   -> body = [] /\ imageBuffer (final r) = imageBuffer d)
  /\ Z.of_nat n < expectedSize
  /\ imageBuffer (final r) = body ++ skipn n (imageBuffer d)
  /\ firstn n (imageBuffer (final r)) = body
  /\ skipn n (imageBuffer (final r)) = skipn n (imageBuffer d)
  /\ List.length (imageBuffer (final r)) = List.length (imageBuffer d)
  /\ hasImage (final r) = hasImage d.
Proof.
  intros Hlen resp r body n Hfail.
  pose proof expectedSize_val as HE.
  destruct (fetchBitmap_effects env index mode d) as (_ & _ & _ & _ & Hv).
  destruct (fetchBitmap_buffer env index mode d) as [Hbuf Hhas].
  fold resp r in Hv, Hbuf, Hhas.
  rewrite (bytes_received_body resp (imageBuffer d)) in Hv.
  pose proof (bytes_received_range resp (imageBuffer d)) as Hrange.
  rewrite (bytes_received_body resp (imageBuffer d)) in Hrange.
  fold body in Hv, Hrange. fold n in Hv, Hrange.
  rewrite Hfail in Hv. symmetry in Hv. apply Z.eqb_neq in Hv.
  assert (Hall : imageBuffer (final r) = body ++ skipn n (imageBuffer d)).
  { rewrite Hbuf. subst n body. unfold body_read, delivered.
    destruct (_ && _); [|reflexivity].
    destruct (stream_loop_inv (br_stream resp) 0 (imageBuffer d))
      as (_ & _ & _ & _ & Hskip); [lia|exact Hlen|].
    pose proof (stream_loop_data (br_stream resp) 0 (imageBuffer d)
                  ltac:(lia) Hlen) as Hfirst.
    cbv zeta in Hfirst. cbn [Z.to_nat firstn app] in Hfirst.
    rewrite stream_loop_count in Hskip, Hfirst.
    cbn [Z.add] in Hskip, Hfirst. rewrite Nat2Z.id in Hskip, Hfirst.
    rewrite <- (firstn_skipn (List.length (stream_data (br_stream resp) 0))
                  (sr_buffer (stream_loop (br_stream resp) 0 (imageBuffer d))))
      at 1.
    now rewrite Hfirst, Hskip. }
  assert (Hn : (n <= List.length (imageBuffer d))%nat) by lia.
  split; [|split; [lia|split; [exact Hall|split; [|split; [|split]]]]].
  - intros Hwhy.
    assert (Hnil : body = []).
    { unfold body, body_read.
      destruct (br_code resp =? 200) eqn:E1; [|reflexivity].
      destruct (br_size resp =? expectedSize) eqn:E2;
        [apply Z.eqb_eq in E1, E2; lia|].
      destruct (br_size resp =? -1) eqn:E3;
        [apply Z.eqb_eq in E1, E3; lia|].
      reflexivity. }
    split; [exact Hnil|].
    rewrite Hall. unfold n. rewrite Hnil. reflexivity.
  - rewrite Hall. rewrite firstn_app, Nat.sub_diag. cbn [firstn].
    rewrite app_nil_r. apply firstn_all.
  - rewrite Hall. unfold n. rewrite skipn_app, Nat.sub_diag, skipn_all.
    reflexivity.
  - rewrite Hall, length_app, length_skipn. fold n. lia.
  - rewrite Hhas, Hfail. apply orb_false_r.
Qed.

(** Scenario C: the 4990 bytes received are at the start of the buffer,
    the last ten bytes are the old ones. *)
Lemma fetchBitmap_failure_buffer_witness :
  let env := fixed_env 0 reply_short reply_short reply_no_poll in
  let r := fetchBitmap env 0 "photo" device0 in
  (Z.of_nat (List.length (imageBuffer device0)) = expectedSize
   /\ value r = false)
  /\ imageBuffer (final r) = repeat xff 4990 ++ repeat x00 10.
Proof.
  intros env r.
  assert (Hlen : Z.of_nat (List.length (imageBuffer device0)) = expectedSize)
    by reflexivity.
  assert (Hfail : value r = false) by (vm_compute; reflexivity).
  split; [split; assumption|].
  etransitivity;
    [exact (proj1 (proj2 (proj2
       (fetchBitmap_failure_buffer env 0 "photo" device0 Hlen Hfail))))|].
  vm_compute. reflexivity.
Defined.

(** C7 as stated does not hold: the result of [fetchBitmap] is a [bool],
    and a 404 gives the same [false] as a 500. *)
Lemma status_404_and_500_return_the_same :
  let on404 := fixed_env 0 (reply_status 404) (reply_status 404) reply_no_poll in
  let on500 := fixed_env 0 (reply_status 500) (reply_status 500) reply_no_poll in
  value (fetchBitmap on404 0 "photo" device0) = false
  /\ value (fetchBitmap on500 0 "photo" device0) = false
  /\ value (fetchBitmap on404 0 "photo" device0)
     = value (fetchBitmap on500 0 "photo" device0).
Proof. vm_compute. repeat split. Qed.

(** C7, amended: a call of [fetchBitmap] that receives status 404 returns
    [false] and sets [totalImages] to 0, leaving [imageBuffer], [hasImage]
    and the other globals as they were. *)
Theorem fetchBitmap_404 env index mode d :
  br_code (bitmap_reply env (net_seq d) index mode) = 404 ->
  let r := fetchBitmap env index mode d in
  value r = false
  /\ totalImages (final r) = 0
  /\ imageBuffer (final r) = imageBuffer d
  /\ hasImage (final r) = hasImage d
  /\ same_control d (final r).
Proof.
  intros H404 r.
  destruct (fetchBitmap_effects env index mode d) as (_ & Hc & _ & Ht & Hv).
  destruct (fetchBitmap_buffer env index mode d) as [Hbuf Hhas].
  fold r in Hc, Ht, Hv, Hbuf, Hhas.
  assert (Hval : value r = false).
  { rewrite Hv. unfold bytes_received. rewrite H404. reflexivity. }
  repeat split; try apply Hc.
  - exact Hval.
  - rewrite Ht. unfold total_after. rewrite H404. reflexivity.
  - rewrite Hbuf, H404. reflexivity.
  - rewrite Hhas, Hval. apply orb_false_r.
Qed.

Lemma fetchBitmap_404_witness :
  let env := fixed_env 0 (reply_status 404) (reply_frame xff) reply_no_poll in
  let d := set_totalImages 5 device0 in
  br_code (bitmap_reply env (net_seq d) 2 "photo") = 404
  /\ totalImages d = 5
  /\ totalImages (final (fetchBitmap env 2 "photo" d)) = 0.
Proof.
  intros env d.
  split; [reflexivity|]. split; [reflexivity|].
  apply (fetchBitmap_404 env 2 "photo" d). reflexivity.
Defined.

(** Any other non-200 status fails as well but leaves [totalImages] alone:
    the 404 is told apart by this effect, not by the returned value. *)
Lemma fetchBitmap_other_status env index mode d :
  br_code (bitmap_reply env (net_seq d) index mode) <> 200 ->
  br_code (bitmap_reply env (net_seq d) index mode) <> 404 ->
  let r := fetchBitmap env index mode d in
  value r = false /\ totalImages (final r) = totalImages d.
Proof.
  intros H200 H404 r.
  destruct (fetchBitmap_effects env index mode d) as (_ & _ & _ & Ht & Hv).
  fold r in Ht, Hv.
  apply Z.eqb_neq in H200, H404.
  split.
  - rewrite Hv. unfold bytes_received. rewrite H200. reflexivity.
  - rewrite Ht. unfold total_after. now rewrite H200, H404.
Qed.

(** ** What a fetch does not depend on *)

(** The number of bytes taken from the stream does not depend on what the
    buffer held. *)
Lemma stream_count_indep ticks : forall bytesRead buf buf',
  sr_bytesRead (stream_loop ticks bytesRead buf)
  = sr_bytesRead (stream_loop ticks bytesRead buf').
Proof.
  induction ticks as [|t rest IH]; intros bytesRead buf buf';
    cbn [stream_loop sr_bytesRead]; [reflexivity|].
  destruct (tk_connected t && (bytesRead <? expectedSize)
            && (tk_elapsed t <? 10000)); [|reflexivity].
  destruct (negb (Nat.eqb (tk_available t) 0)); [|apply IH].
  unfold stream_read. destruct (tk_read t) as [bs|];
    cbn [sr_bytesRead]; apply IH.
Qed.

Lemma bytes_received_indep resp buf buf' :
  bytes_received resp buf = bytes_received resp buf'.
Proof.
  unfold bytes_received. destruct (_ && _); [|reflexivity].
  apply stream_count_indep.
Qed.

Lemma fetch_succeeds_indep resp buf buf' :
  fetch_succeeds resp buf = fetch_succeeds resp buf'.
Proof.
  unfold fetch_succeeds. now rewrite (bytes_received_indep resp buf buf').
Qed.

(** Two runs of the loop over the same script, on buffers that agree on
    the bytes already received, agree on everything received at the end. *)
Lemma stream_prefix_indep ticks : forall bytesRead buf buf',
  0 <= bytesRead <= expectedSize ->
  Z.of_nat (List.length buf) = expectedSize ->
  Z.of_nat (List.length buf') = expectedSize ->
  firstn (Z.to_nat bytesRead) buf = firstn (Z.to_nat bytesRead) buf' ->
  let r := stream_loop ticks bytesRead buf in
  let r' := stream_loop ticks bytesRead buf' in
  firstn (Z.to_nat (sr_bytesRead r)) (sr_buffer r)
  = firstn (Z.to_nat (sr_bytesRead r)) (sr_buffer r').
Proof.
  induction ticks as [|t rest IH];
    intros bytesRead buf buf' Hb Hl Hl' Hpre;
    cbn [stream_loop sr_bytesRead sr_buffer]; [exact Hpre|].
  destruct (tk_connected t && (bytesRead <? expectedSize)
            && (tk_elapsed t <? 10000)) eqn:Hcond;
    cbn [sr_bytesRead sr_buffer]; [|exact Hpre].
  apply andb_prop in Hcond as [Hcond _].
  apply andb_prop in Hcond as [_ Hlt]. apply Z.ltb_lt in Hlt.
  destruct (negb (Nat.eqb (tk_available t) 0)); [|now apply IH].
  set (toRead := Z.min (Z.of_nat (tk_available' t))
                   (expectedSize - bytesRead)).
  assert (Hto : 0 <= toRead <= expectedSize - bytesRead)
    by (subst toRead; lia).
  unfold stream_read. destruct (tk_read t) as [bs|];
    cbn [sr_bytesRead sr_buffer].
  - set (chunk := firstn (Z.to_nat toRead) bs).
    assert (Hlen : (List.length chunk <= Z.to_nat toRead)%nat)
      by (subst chunk; rewrite length_firstn; lia).
    destruct (0 <? Z.of_nat (List.length chunk)) eqn:E.
    + apply IH.
      * lia.
      * rewrite poke_length; lia.
      * rewrite poke_length; lia.
      * replace (Z.to_nat (bytesRead + Z.of_nat (List.length chunk)))
          with (Z.to_nat bytesRead + List.length chunk)%nat by lia.
        rewrite !poke_upto by lia. now rewrite Hpre.
    + apply Z.ltb_ge in E.
      destruct chunk; [|cbn in E; lia].
      apply IH; try lia.
      * rewrite poke_length; cbn; lia.
      * rewrite poke_length; cbn; lia.
      * rewrite !poke_below by lia. exact Hpre.
  - now apply IH.
Qed.

(** A fetch that succeeds leaves a buffer that is made of the received
    bytes only. *)
Lemma buffer_after_indep resp buf buf' :
  Z.of_nat (List.length buf) = expectedSize ->
  Z.of_nat (List.length buf') = expectedSize ->
  fetch_succeeds resp buf = true ->
  buffer_after resp buf = buffer_after resp buf'.
Proof.
  intros Hl Hl' Hok.
  pose proof expectedSize_val as HE.
  unfold fetch_succeeds, bytes_received in Hok. unfold buffer_after.
  destruct (_ && _); [|apply Z.eqb_eq in Hok; lia].
  apply Z.eqb_eq in Hok.
  pose proof (stream_prefix_indep (br_stream resp) 0 buf buf') as H.
  specialize (H ltac:(lia) Hl Hl' eq_refl).
  cbv zeta in H. rewrite Hok in H.
  destruct (stream_loop_inv (br_stream resp) 0 buf)
    as (_ & Hlr & _); [lia|exact Hl|].
  destruct (stream_loop_inv (br_stream resp) 0 buf')
    as (_ & Hlr' & _); [lia|exact Hl'|].
  rewrite !firstn_all2 in H by lia.
  exact H.
Qed.

Lemma buffer_after_length resp buf :
  Z.of_nat (List.length buf) = expectedSize ->
  Z.of_nat (List.length (buffer_after resp buf)) = expectedSize.
Proof.
  intros Hl. pose proof expectedSize_val as HE.
  unfold buffer_after. destruct (_ && _); [|exact Hl].
  destruct (stream_loop_inv (br_stream resp) 0 buf)
    as (_ & Hlr & _); [lia|exact Hl|].
  now rewrite Hlr.
Qed.



Lemma DisplayMode_eqb_refl m : DisplayMode_eqb m m = true.
Proof. now destruct m. Qed.

Lemma DisplayMode_eqb_eq a b : DisplayMode_eqb a b = true <-> a = b.
Proof. destruct a, b; cbn; split; congruence. Qed.

(** ** Running the helpers of the sketch *)

Lemma run_fetchBitmap {B} env index mode (k : bool -> M B) d :
  bind (fetchBitmap env index mode) k d
  = prepend [HttpGetBitmap index mode]
      (k (fetch_succeeds (bitmap_reply env (net_seq d) index mode)
            (imageBuffer d))
         (after_fetch (bitmap_reply env (net_seq d) index mode) d)).
Proof. rewrite run_bind, fetchBitmap_eq. reflexivity. Qed.

Lemma run_notify {B} mode (k : unit -> M B) d :
  bind (notifyServerModeChange mode) k d
  = prepend [HttpPostSetMode mode] (k tt (bump_net d)).
Proof. unfold notifyServerModeChange. repeat mstep. reflexivity. Qed.

Lemma run_http_get_poll {B} env v m i (k : PollReply -> M B) d :
  bind (http_get_poll env v m i) k d
  = prepend [HttpGetPoll v m i]
      (k (poll_reply env (net_seq d) v m i) (bump_net d)).
Proof. unfold http_get_poll. repeat mstep. reflexivity. Qed.

Lemma run_millis {B} env (k : Z -> M B) d :
  bind (millis env) k d
  = k (C32.wrap_ulong (millis_at env (clk d))) (bump_clk d).
Proof. unfold millis. repeat mstep. reflexivity. Qed.

Lemma drawImage_eq d :
  drawImage d
  = mkRes tt d (if hasImage d then [DrawImage (imageBuffer d)] else []).
Proof.
  unfold drawImage. rewrite run_gets, if_run.
  destruct (hasImage d); [|reflexivity].
  rewrite run_gets. reflexivity.
Qed.

Lemma drawDashboard_eq d : drawDashboard d = mkRes tt d [DrawDashboard].
Proof. reflexivity. Qed.

(** [if (ok) drawImage(); else drawDashboard();] right after the fetch
    that produced [ok]. *)
Lemma draw_after_fetch resp d :
  (if fetch_succeeds resp (imageBuffer d) then drawImage else drawDashboard)
    (after_fetch resp d)
  = mkRes tt (after_fetch resp d)
      [shown_after (fetch_succeeds resp (imageBuffer d)) (after_fetch resp d)].
Proof.
  rewrite if_run, drawImage_eq, drawDashboard_eq. unfold shown_after.
  destruct (fetch_succeeds resp (imageBuffer d)) eqn:E; [|reflexivity].
  cbn [hasImage after_fetch]. rewrite E, orb_true_r. reflexivity.
Qed.

Lemma bind_then_ret {A B} (c : M A) (b : B) d :
  bind c (fun _ => ret b) d = mkRes b (final (c d)) (emitted (c d)).
Proof. rewrite run_bind. unfold prepend, ret. cbn. now rewrite app_nil_r. Qed.

(** One statement, helpers included. *)
Ltac mstep' :=
  first [ rewrite run_assoc | rewrite run_ret | rewrite run_gets
        | rewrite run_modify | rewrite run_emit | rewrite run_fetchBitmap
        | rewrite run_notify | rewrite run_http_get_poll
        | rewrite run_millis ];
  cbv beta.

(** ** [toggleMode] in closed form *)

Lemma toggleMode_from_dashboard env d :
  currentMode d = MODE_DASHBOARD ->
  let idx := currentImageIndex d in
  let p := bitmap_reply env (S (net_seq d)) idx "photo" in
  let d1 := after_fetch p (bump_net (set_currentMode MODE_IMAGE d)) in
  let q := bitmap_reply env (S (S (S (net_seq d)))) 0 "dashboard" in
  let d2 := after_fetch q (bump_net (set_currentMode MODE_DASHBOARD d1)) in
  toggleMode env d
  = if fetch_succeeds p (imageBuffer d) then
      mkRes tt d1
        [HttpPostSetMode "photo"; HttpGetBitmap idx "photo";
         DrawImage (imageBuffer d1)]
    else
      mkRes tt d2
        [HttpPostSetMode "photo"; HttpGetBitmap idx "photo";
         HttpPostSetMode "dashboard"; HttpGetBitmap 0 "dashboard";
         shown_after (fetch_succeeds q (imageBuffer d1)) d2].
Proof.
  intros Hm idx p d1 q d2.
  unfold toggleMode, fetchImage, fetchDashboard.
  rewrite run_gets, Hm. cbn [DisplayMode_eqb].
  repeat mstep'.
  cbn [currentImageIndex net_seq imageBuffer bump_net set_currentMode].
  fold idx. fold p. fold d1.
  rewrite if_run.
  destruct (fetch_succeeds p (imageBuffer d)) eqn:Hp.
  - rewrite drawImage_eq. unfold d1 at 2. cbn [hasImage after_fetch].
    cbn [imageBuffer bump_net set_currentMode].
    fold idx. fold p. rewrite Hp, orb_true_r.
    mtail. reflexivity.
  - repeat mstep'.
    cbn [net_seq imageBuffer bump_net set_currentMode].
    replace (net_seq d1) with (S (S (net_seq d))) by reflexivity.
    fold q.
    change (imageBuffer d1) with
      (imageBuffer (bump_net (set_currentMode MODE_DASHBOARD d1))) at 1.
    rewrite draw_after_fetch. fold d2. mtail.
    reflexivity.
Qed.

Lemma toggleMode_from_other env d :
  currentMode d <> MODE_DASHBOARD ->
  let q := bitmap_reply env (S (net_seq d)) 0 "dashboard" in
  let d1 := after_fetch q (bump_net (set_currentMode MODE_DASHBOARD d)) in
  toggleMode env d
  = mkRes tt d1
      [HttpPostSetMode "dashboard"; HttpGetBitmap 0 "dashboard";
       shown_after (fetch_succeeds q (imageBuffer d)) d1].
Proof.
  intros Hm q d1.
  unfold toggleMode, fetchImage, fetchDashboard.
  rewrite run_gets.
  destruct (DisplayMode_eqb (currentMode d) MODE_DASHBOARD) eqn:E;
    [apply DisplayMode_eqb_eq in E; contradiction|].
  repeat mstep'.
  cbn [net_seq bump_net set_currentMode]. fold q.
  change (imageBuffer d) with
    (imageBuffer (bump_net (set_currentMode MODE_DASHBOARD d))) at 1.
  rewrite draw_after_fetch. fold d1. mtail. reflexivity.
Qed.

(** ** [pollServerForInstructions] in closed form *)

Lemma poll_not_merged env d :
  pr_code (reply_to_poll env d) <> 200 \/ pr_doc (reply_to_poll env d) = None ->
  pollServerForInstructions env d = mkRes false (bump_net d) [poll_request d].
Proof.
  intros H. unfold reply_to_poll, mode_name in H.
  unfold pollServerForInstructions. do 3 mstep'. rewrite run_http_get_poll.
  cbv beta. rewrite if_run.
  destruct (pr_code _ =? 200) eqn:Hc.
  - destruct H as [H|H]; [apply Z.eqb_eq in Hc; contradiction|].
    rewrite H. reflexivity.
  - rewrite if_run. destruct (pr_code _ =? 404); reflexivity.
Qed.

Lemma poll_merged env d doc :
  pr_code (reply_to_poll env d) = 200 ->
  pr_doc (reply_to_poll env d) = Some doc ->
  pollServerForInstructions env d
  = if wants_refresh doc d
    then prepend [poll_request d]
           (refresh_result env (doc_mode doc) (after_merge doc d))
    else mkRes false (after_merge doc d) [poll_request d].
Proof.
  intros Hcode Hdoc. unfold reply_to_poll, mode_name in Hcode, Hdoc.
  unfold pollServerForInstructions. do 3 mstep'. rewrite run_http_get_poll.
  cbv beta. rewrite Hcode, Hdoc. cbn [Z.eqb Pos.eqb].
  repeat mstep'.
  cbn [currentMode currentImageIndex set_totalImages set_nextPollSeconds
       set_serverRefreshVersion bump_net].
  fold (doc_mode doc). fold (wants_refresh doc d).
  rewrite if_run.
  destruct (wants_refresh doc d); [|reflexivity].
  f_equal. fold (after_merge doc d).
  generalize (after_merge doc d) (doc_mode doc). intros d0 m.
  unfold refresh_result, fetchDashboard, fetchImage. cbv zeta.
  do 2 mstep'. cbn [currentMode set_currentMode]. rewrite run_if.
  destruct (DisplayMode_eqb m MODE_DASHBOARD).
  - repeat mstep'. rewrite bind_then_ret, draw_after_fetch. reflexivity.
  - repeat mstep'. rewrite run_if.
    destruct (0 <? totalImages (set_currentMode m d0)).
    + repeat mstep'. rewrite run_if.
      destruct (fetch_succeeds _ _) eqn:Hp.
      * rewrite bind_then_ret, drawImage_eq.
        cbn [hasImage after_fetch final emitted]. rewrite Hp, orb_true_r.
        reflexivity.
      * repeat mstep'.
        rewrite bind_then_ret.
        change (imageBuffer (after_fetch ?r ?s)) with
          (imageBuffer (set_currentMode MODE_DASHBOARD (after_fetch r s))).
        rewrite draw_after_fetch. reflexivity.
    + repeat mstep'. rewrite bind_then_ret.
      change (imageBuffer (set_currentMode m d0)) with
        (imageBuffer (set_currentMode MODE_DASHBOARD (set_currentMode m d0))).
      rewrite draw_after_fetch. reflexivity.
Qed.

(** ** C3, C6: [pollServerForInstructions] *)

(** C3: a poll whose reply has [r] false, the current mode and the current
    index issues no bitmap request, and still stores the reply's [v], [n]
    and [t] in [serverRefreshVersion], [nextPollSeconds] and
    [totalImages]. *)
Theorem poll_without_refresh env d doc :
  pr_code (reply_to_poll env d) = 200 ->
  pr_doc (reply_to_poll env d) = Some doc ->
  or_default (pd_r doc) false = false ->
  doc_mode doc = currentMode d ->
  or_default (pd_i doc) 0 = currentImageIndex d ->
  let r := pollServerForInstructions env d in
  fetches (emitted r) = 0%nat
  /\ emitted r = [HttpGetPoll (serverRefreshVersion d)
                    (mode_name (currentMode d)) (currentImageIndex d)]
  /\ value r = false
  /\ serverRefreshVersion (final r) = or_default (pd_v doc) 0
  /\ nextPollSeconds (final r) = or_default (pd_n doc) 30
  /\ totalImages (final r) = or_default (pd_t doc) 0
  /\ currentMode (final r) = currentMode d
  /\ currentImageIndex (final r) = currentImageIndex d
  /\ imageBuffer (final r) = imageBuffer d.
Proof.
  intros Hcode Hdoc Hr Hm Hi r. subst r.
  rewrite (poll_merged env d doc Hcode Hdoc).
  unfold wants_refresh.
  rewrite Hr, Hm, Hi, DisplayMode_eqb_refl, Z.eqb_refl.
  cbn. rewrite Hi. repeat split; reflexivity.
Qed.

(** Scenario A of the specification. *)
Lemma poll_without_refresh_witness :
  let env := fixed_env 0 (reply_status 404) (reply_frame xff)
               (mkPollReply 200 (Some doc_A)) in
  let r := pollServerForInstructions env device0 in
  fetches (emitted r) = 0%nat /\ nextPollSeconds (final r) = 60.
Proof.
  intros env r.
  pose proof (poll_without_refresh env device0 doc_A
                eq_refl eq_refl eq_refl eq_refl eq_refl) as H.
  split; [apply H|]. apply (proj1 (proj2 (proj2 (proj2 (proj2 H))))).
Defined.

(** C6: when [deserializeJson] reports an error nothing is merged:
    [serverRefreshVersion], [nextPollSeconds], [totalImages],
    [currentImageIndex], [currentMode] and the buffer keep their values,
    the function returns [false], and no bitmap request is issued. *)
Theorem poll_malformed_payload env d :
  pr_code (reply_to_poll env d) = 200 ->
  pr_doc (reply_to_poll env d) = None ->
  let r := pollServerForInstructions env d in
  value r = false
  /\ fetches (emitted r) = 0%nat
  /\ emitted r = [HttpGetPoll (serverRefreshVersion d)
                    (mode_name (currentMode d)) (currentImageIndex d)]
  /\ serverRefreshVersion (final r) = serverRefreshVersion d
  /\ nextPollSeconds (final r) = nextPollSeconds d
  /\ totalImages (final r) = totalImages d
  /\ currentImageIndex (final r) = currentImageIndex d
  /\ currentMode (final r) = currentMode d
  /\ imageBuffer (final r) = imageBuffer d
  /\ hasImage (final r) = hasImage d
  /\ final r = bump_net d.
Proof.
  intros Hcode Hdoc r. subst r.
  rewrite (poll_not_merged env d (or_intror Hdoc)).
  cbn. repeat split; reflexivity.
Qed.

Lemma poll_malformed_payload_witness :
  let env := fixed_env 0 (reply_frame xff) (reply_frame xff)
               (mkPollReply 200 None) in
  let d := set_totalImages 5 (set_currentMode MODE_IMAGE device0) in
  let r := pollServerForInstructions env d in
  pr_doc (reply_to_poll env d) = None
  /\ totalImages (final r) = 5 /\ currentMode (final r) = MODE_IMAGE.
Proof.
  intros env d r.
  pose proof (poll_malformed_payload env d eq_refl eq_refl) as H.
  split; [reflexivity|]. split.
  - apply (proj1 (proj2 (proj2 (proj2 (proj2 (proj2 H)))))).
  - apply (proj1 (proj2 (proj2 (proj2 (proj2 (proj2 (proj2 (proj2 H)))))))).
Defined.


(** ** C5: toggling towards photos *)

(** C5 as stated does not hold: with [totalImages] = 0 and a server that
    does deliver a photo, the toggle ends in photo mode; no dashboard is
    requested and no mode "dashboard" is reported. *)
Lemma toggle_with_no_images_can_show_photo :
  let r := toggleMode photo_env device0 in
  currentMode device0 = MODE_DASHBOARD
  /\ totalImages device0 = 0
  /\ currentMode (final r) = MODE_IMAGE
  /\ emitted r = [HttpPostSetMode "photo"; HttpGetBitmap 0 "photo";
                  DrawImage (repeat xff 5000)].
Proof. vm_compute. repeat split. Qed.

(** C5, amended: [toggleMode] does not read [totalImages]; a toggle from
    Dashboard falls back exactly when its photo request fails.  Then the
    mode ends as Dashboard, the server is told "dashboard" and a dashboard
    bitmap is requested; when the photo request succeeds the mode ends as
    Image and the photo is drawn. *)
Theorem toggle_falls_back_on_failed_photo env d :
  currentMode d = MODE_DASHBOARD ->
  let idx := currentImageIndex d in
  let p := bitmap_reply env (S (net_seq d)) idx "photo" in
  let r := toggleMode env d in
  (fetch_succeeds p (imageBuffer d) = false ->
   currentMode (final r) = MODE_DASHBOARD
   /\ exists shown,
        emitted r = [HttpPostSetMode "photo"; HttpGetBitmap idx "photo";
                     HttpPostSetMode "dashboard"; HttpGetBitmap 0 "dashboard";
                     shown]
        /\ (shown = DrawDashboard \/ exists frame, shown = DrawImage frame))
  /\ (fetch_succeeds p (imageBuffer d) = true ->
      currentMode (final r) = MODE_IMAGE
      /\ emitted r = [HttpPostSetMode "photo"; HttpGetBitmap idx "photo";
                      DrawImage (imageBuffer (final r))]).
Proof.
  intros Hm idx p r. subst r.
  rewrite (toggleMode_from_dashboard env d Hm). fold idx p.
  split; intros Hp; rewrite Hp; cbn [final emitted].
  - split; [reflexivity|].
    eexists. split; [reflexivity|]. unfold shown_after.
    destruct (fetch_succeeds
                (bitmap_reply env (S (S (S (net_seq d)))) 0 "dashboard") _);
      [right; eexists|left]; reflexivity.
  - split; reflexivity.
Qed.

(** Scenario D of the specification: no images, the server answers the
    photo request with 404. *)
Lemma toggle_falls_back_on_failed_photo_witness :
  let env := fixed_env 0 (reply_status 404) (reply_frame xff) reply_no_poll in
  let r := toggleMode env device0 in
  currentMode device0 = MODE_DASHBOARD
  /\ fetch_succeeds (bitmap_reply env 1 0 "photo") (imageBuffer device0) = false
  /\ currentMode (final r) = MODE_DASHBOARD.
Proof.
  intros env r.
  assert (Hm : currentMode device0 = MODE_DASHBOARD) by reflexivity.
  assert (Hp : fetch_succeeds (bitmap_reply env 1 0 "photo")
                 (imageBuffer device0) = false) by reflexivity.
  split; [exact Hm|]. split; [exact Hp|].
  exact (proj1 (proj1 (toggle_falls_back_on_failed_photo env device0 Hm) Hp)).
Defined.

(** ** C9: two toggles *)

Lemma blank_frame_length : Z.of_nat (List.length blank_frame) = expectedSize.
Proof. reflexivity. Qed.

(** After a fetch that succeeded, what is shown does not depend on what
    the buffer held before. *)
Lemma shown_after_indep resp d buf d' :
  Z.of_nat (List.length (imageBuffer d)) = expectedSize ->
  imageBuffer d' = imageBuffer d ->
  shown_after (fetch_succeeds resp buf) (after_fetch resp d')
  = (if fetch_succeeds resp blank_frame
     then DrawImage (buffer_after resp blank_frame) else DrawDashboard).
Proof.
  intros Hlen Hsame. unfold shown_after.
  rewrite (fetch_succeeds_indep resp buf blank_frame).
  destruct (fetch_succeeds resp blank_frame) eqn:Hok; [|reflexivity].
  cbn [imageBuffer after_fetch]. rewrite Hsame.
  rewrite (buffer_after_indep resp (imageBuffer d) blank_frame Hlen
             blank_frame_length)
    by (now rewrite (fetch_succeeds_indep resp _ blank_frame)).
  reflexivity.
Qed.

Section Stable.

Variable env : Env.
Hypothesis Hstable : stable_server env.

Lemma toggleMode_stable d :
  Z.of_nat (List.length (imageBuffer d)) = expectedSize ->
  let r := toggleMode env d in
  emitted r = toggle_events env (currentMode d) (currentImageIndex d)
  /\ currentMode (final r)
     = toggle_mode env (currentMode d) (currentImageIndex d)
  /\ currentImageIndex (final r) = currentImageIndex d
  /\ Z.of_nat (List.length (imageBuffer (final r))) = expectedSize.
Proof.
  intros Hlen r. subst r.
  unfold toggle_events, toggle_mode, photo_ok, dashboard_shown.
  destruct (DisplayMode_eqb (currentMode d) MODE_DASHBOARD) eqn:Hm.
  - apply DisplayMode_eqb_eq in Hm.
    rewrite (toggleMode_from_dashboard env d Hm).
    rewrite (Hstable (S (net_seq d)) 0%nat (currentImageIndex d) "photo").
    rewrite (Hstable (S (S (S (net_seq d)))) 0%nat 0 "dashboard").
    fold (photo_reply env (currentImageIndex d)). fold (dashboard_reply env).
    set (p := photo_reply env (currentImageIndex d)).
    set (q := dashboard_reply env).
    rewrite (fetch_succeeds_indep p (imageBuffer d) blank_frame).
    assert (Hl1 : Z.of_nat (List.length (buffer_after p (imageBuffer d)))
                  = expectedSize) by now apply buffer_after_length.
    destruct (fetch_succeeds p blank_frame) eqn:Hp; cbn [final emitted].
    + cbn [after_fetch imageBuffer currentMode currentImageIndex bump_net
           set_currentMode].
      rewrite (buffer_after_indep p (imageBuffer d) blank_frame Hlen
                 blank_frame_length)
        by (now rewrite (fetch_succeeds_indep p _ blank_frame)).
      repeat split. apply buffer_after_length, blank_frame_length.
    + set (d1 := after_fetch p (bump_net (set_currentMode MODE_IMAGE d))).
      rewrite (shown_after_indep q d1 (imageBuffer d1)
                 (bump_net (set_currentMode MODE_DASHBOARD d1)))
        by (exact Hl1 || reflexivity).
      repeat split.
      cbn [after_fetch imageBuffer]. now apply buffer_after_length.
  - assert (Hne : currentMode d <> MODE_DASHBOARD).
    { intros E. apply DisplayMode_eqb_eq in E. congruence. }
    rewrite (toggleMode_from_other env d Hne).
    rewrite (Hstable (S (net_seq d)) 0%nat 0 "dashboard").
    fold (dashboard_reply env). set (q := dashboard_reply env).
    cbn [final emitted].
    rewrite (shown_after_indep q d (imageBuffer d)
               (bump_net (set_currentMode MODE_DASHBOARD d)))
      by (exact Hlen || reflexivity).
    repeat split.
    cbn [after_fetch imageBuffer]. now apply buffer_after_length.
Qed.

Lemma toggle_twice_stable d :
  Z.of_nat (List.length (imageBuffer d)) = expectedSize ->
  let m := currentMode d in
  let idx := currentImageIndex d in
  let r := toggle_twice env d in
  emitted r
  = toggle_events env m idx ++ toggle_events env (toggle_mode env m idx) idx
  /\ currentMode (final r) = toggle_mode env (toggle_mode env m idx) idx
  /\ currentImageIndex (final r) = idx
  /\ Z.of_nat (List.length (imageBuffer (final r))) = expectedSize.
Proof.
  intros Hlen m idx r. subst r m idx.
  unfold toggle_twice. rewrite run_bind. cbn [value final emitted prepend].
  destruct (toggleMode_stable d Hlen) as (He1 & Hm1 & Hi1 & Hl1).
  destruct (toggleMode_stable (final (toggleMode env d)) Hl1)
    as (He2 & Hm2 & Hi2 & Hl2).
  rewrite He1, He2, Hm2, Hi2, Hm1, Hi1. repeat split. exact Hl2.
Qed.

End Stable.

(** ** [advanceImage] in closed form *)

Lemma advanceImage_eq env d :
  let t := totalImages d in
  let idx' := C32.c_rem (C32.wrap_int (currentImageIndex d + 1)) t in
  let d1 := bump_net (set_currentImageIndex idx' d) in
  let p := bitmap_reply env (S (net_seq d)) idx' "photo" in
  advanceImage env d
  = if t <=? 1 then mkRes tt d []
    else mkRes tt (after_fetch p d1)
           ([HttpPostNextImage; HttpGetBitmap idx' "photo"]
            ++ (if fetch_succeeds p (imageBuffer d)
                then [DrawImage (imageBuffer (after_fetch p d1))] else [])).
Proof.
  cbv zeta. unfold advanceImage, fetchImage. rewrite run_gets, if_run.
  destruct (totalImages d <=? 1); [reflexivity|].
  repeat mstep'.
  cbn [currentImageIndex set_currentImageIndex net_seq bump_net imageBuffer].
  rewrite if_run, drawImage_eq.
  destruct (fetch_succeeds _ _) eqn:Hp.
  - cbn [hasImage after_fetch imageBuffer bump_net set_currentImageIndex].
    rewrite Hp, orb_true_r. reflexivity.
  - reflexivity.
Qed.

(** With an index inside the range, [advanceImage] steps to the next
    image and wraps to 0 after the last. *)
Lemma advance_index_in_range idx t :
  0 <= idx < t -> t < 2 ^ 31 ->
  C32.c_rem (C32.wrap_int (idx + 1)) t = (idx + 1) mod t
  /\ 0 <= C32.c_rem (C32.wrap_int (idx + 1)) t < t.
Proof.
  intros Hidx Ht.
  rewrite wrap_int_id by lia. unfold C32.c_rem.
  rewrite Z.rem_mod_nonneg by lia.
  split; [reflexivity|]. apply Z.mod_pos_bound. lia.
Qed.

(** ** C4: the invariant of the device state *)

(** C4 as stated does not hold, for any of the three operations: a poll
    that announces zero images while the device stays in photo mode; a
    toggle whose photo request is answered 404 while the index is 2; an
    advance whose photo request is answered 404. *)
Lemma operations_can_break_invariant :
  (let env := empty_env (mkPollReply 200 (Some doc_emptied)) in
   state_invariant image_device
   /\ ~ state_invariant (final (pollServerForInstructions env image_device)))
  /\ (let d := set_currentImageIndex 2 (set_totalImages 5 device0) in
      state_invariant d
      /\ ~ state_invariant (final (toggleMode (empty_env reply_no_poll) d)))
  /\ (state_invariant image_device
      /\ ~ state_invariant
             (final (advanceImage (empty_env reply_no_poll) image_device))).
Proof.
  unfold state_invariant.
  split; [|split]; cbv zeta; (split; [cbn; split; intros; lia|]).
  - intros [H _]. vm_compute in H. destruct (H eq_refl) as [E _].
    discriminate E.
  - intros [H _]. vm_compute in H. destruct (H eq_refl) as [_ E].
    discriminate E.
  - intros [H _]. vm_compute in H. destruct (H eq_refl) as [E _].
    discriminate E.
Qed.

Lemma c_rem_below a t : 0 < t -> C32.c_rem a t < t.
Proof.
  intros Ht. unfold C32.c_rem.
  destruct (Z.le_gt_cases 0 a) as [Ha|Ha].
  - apply Z.rem_bound_pos; lia.
  - pose proof (Z.rem_nonpos a t ltac:(lia) ltac:(lia)). lia.
Qed.

Lemma total_after_announced resp old :
  total_after resp old = or_default (announced_total resp) old.
Proof.
  unfold total_after, announced_total.
  destruct (br_code resp =? 200); [reflexivity|].
  destruct (br_code resp =? 404); reflexivity.
Qed.

(** A fetch whose reply fits the index leaves a total that fits it. *)
Lemma fits_after resp i old :
  reply_fits resp i -> index_fits i old ->
  index_fits i (total_after resp old).
Proof.
  intros Hr Ho. rewrite total_after_announced.
  destruct (announced_total resp) as [t|] eqn:Ha; cbn [or_default];
    [now apply Hr|exact Ho].
Qed.

Lemma state_invariant_parts d :
  state_invariant d
  <-> (totalImages d = 0 -> currentMode d = MODE_DASHBOARD)
      /\ index_fits (currentImageIndex d) (totalImages d).
Proof. unfold state_invariant, index_fits. tauto. Qed.

(** The refresh inside a poll, entered with an index that fits the
    total. *)
Lemma refresh_keeps_invariant env m d0 :
  let i := currentImageIndex d0 in
  let k := net_seq d0 in
  index_fits i (totalImages d0) ->
  dashboard_fits env k i ->
  photo_fits env k i ->
  photo_needs_images env k (totalImages d0) i ->
  state_invariant (final (refresh_result env m d0)).
Proof.
  intros i k Hfit Hdash Hphoto Hneeds.
  apply state_invariant_parts. unfold refresh_result. cbv zeta.
  cbn [currentImageIndex net_seq set_currentMode imageBuffer]. fold i k.
  destruct (DisplayMode_eqb m MODE_DASHBOARD) eqn:Hm.
  - apply DisplayMode_eqb_eq in Hm. subst m. cbn.
    split; [reflexivity|].
    apply fits_after; [apply Hdash; subst k; lia|exact Hfit].
  - destruct (0 <? totalImages (set_currentMode m d0)).
    + destruct (fetch_succeeds _ _) eqn:Hp; cbn [final].
      * cbn. split.
        -- intros Hz. exfalso. exact (Hneeds _ _ (Nat.le_refl k) Hp Hz).
        -- apply fits_after; [apply Hphoto; subst k; lia|exact Hfit].
      * cbn. split; [reflexivity|].
        apply fits_after; [apply Hdash; subst k; lia|].
        apply fits_after; [apply Hphoto; subst k; lia|exact Hfit].
    + cbn. split; [reflexivity|].
      apply fits_after; [apply Hdash; subst k; lia|exact Hfit].
Qed.

Lemma poll_keeps_invariant env d :
  let k := net_seq d in
  state_invariant d ->
  (forall doc,
     pr_code (reply_to_poll env d) = 200 ->
     pr_doc (reply_to_poll env d) = Some doc ->
     let i := or_default (pd_i doc) 0 in
     doc_fits doc d
     /\ (wants_refresh doc d = true ->
         dashboard_fits env k i /\ photo_fits env k i
         /\ photo_needs_images env k (or_default (pd_t doc) 0) i)) ->
  state_invariant (final (pollServerForInstructions env d)).
Proof.
  intros k Hinv Hdoc.
  destruct (Z.eq_dec (pr_code (reply_to_poll env d)) 200) as [Hc|Hc];
    [|rewrite (poll_not_merged env d (or_introl Hc)); exact Hinv].
  destruct (pr_doc (reply_to_poll env d)) as [doc|] eqn:Hd;
    [|rewrite (poll_not_merged env d (or_intror Hd)); exact Hinv].
  destruct (Hdoc doc Hc eq_refl) as [[Hfit Hstay] Hserver].
  rewrite (poll_merged env d doc Hc Hd).
  destruct (wants_refresh doc d) eqn:Hw.
  - destruct (Hserver eq_refl) as (Hdash & Hphoto & Hneeds).
    cbn [final prepend].
    apply refresh_keeps_invariant; [exact Hfit| | |].
    + intros n Hn. apply Hdash. cbn in Hn. subst k. lia.
    + intros n Hn. apply Hphoto. cbn in Hn. subst k. lia.
    + intros n buf Hn. apply Hneeds. cbn in Hn. subst k. lia.
  - cbn [final]. apply state_invariant_parts. cbn.
    split; [exact (Hstay eq_refl)|exact Hfit].
Qed.

Lemma toggle_keeps_invariant env d :
  let i := currentImageIndex d in
  let k := net_seq d in
  state_invariant d ->
  dashboard_fits env k i ->
  (currentMode d = MODE_DASHBOARD ->
   photo_fits env k i /\ photo_needs_images env k (totalImages d) i) ->
  state_invariant (final (toggleMode env d)).
Proof.
  intros i k Hinv Hdash Hphoto.
  apply state_invariant_parts in Hinv. destruct Hinv as [_ Hfit].
  apply state_invariant_parts.
  destruct (DisplayMode_eqb (currentMode d) MODE_DASHBOARD) eqn:Hm.
  - apply DisplayMode_eqb_eq in Hm.
    destruct (Hphoto Hm) as [Hp Hneeds].
    rewrite (toggleMode_from_dashboard env d Hm). fold i.
    destruct (fetch_succeeds _ _) eqn:Hok; cbn.
    + split.
      * intros Hz. exfalso.
        exact (Hneeds _ _ (Nat.le_succ_diag_r k) Hok Hz).
      * apply fits_after; [apply Hp; subst k; lia|exact Hfit].
    + split; [reflexivity|].
      apply fits_after; [apply Hdash; subst k; lia|].
      apply fits_after; [apply Hp; subst k; lia|exact Hfit].
  - assert (Hne : currentMode d <> MODE_DASHBOARD).
    { intros E. apply DisplayMode_eqb_eq in E. congruence. }
    rewrite (toggleMode_from_other env d Hne). cbn.
    split; [reflexivity|].
    apply fits_after; [apply Hdash; subst k; lia|exact Hfit].
Qed.

Lemma advance_keeps_invariant env d :
  let k := net_seq d in
  state_invariant d ->
  (1 < totalImages d ->
   photo_fits env k (next_index d)
   /\ (currentMode d <> MODE_DASHBOARD ->
       photo_not_emptied env k (next_index d))) ->
  state_invariant (final (advanceImage env d)).
Proof.
  intros k Hinv Hserver. rewrite advanceImage_eq.
  destruct (totalImages d <=? 1) eqn:Ht; [exact Hinv|].
  apply Z.leb_gt in Ht. destruct (Hserver Ht) as [Hp Hkeep].
  fold (next_index d) in *. cbn [final].
  apply state_invariant_parts. cbn.
  set (p := bitmap_reply env (S (net_seq d)) (next_index d) "photo").
  rewrite total_after_announced.
  destruct (announced_total p) as [t|] eqn:Ha; cbn [or_default].
  - split; [|exact (Hp _ (Nat.le_succ_diag_r k) _ Ha)].
    intros Hz. subst t.
    destruct (currentMode d) eqn:Hm; [reflexivity| |];
      exfalso;
      apply (Hkeep ltac:(discriminate) (S (net_seq d))
               (Nat.le_succ_diag_r k));
      exact Ha.
  - split; [lia|]. split; [lia|].
    intros _. unfold next_index. apply c_rem_below. lia.
Qed.

(** C4, amended: poll reconciliation, manual toggle and [advanceImage]
    keep the invariant as long as what the server sends from then on is
    consistent with the image index in force (that of the poll document
    for a poll, the current one for a toggle, the next one for an
    advance): whenever a bitmap reply the operation can receive announces
    a total (the [X-Image-Total] header, or 0 by a 404), the index fits
    it; a photo is delivered only with a total other than 0 in force; the
    index of a poll document fits its total, and a poll document that
    announces no image without causing a refresh finds the device in
    Dashboard mode; and the next photo of an advance made outside
    Dashboard mode is not answered with a total of 0.  A 404 and the
    header are thus admitted where they agree with the index.  The
    operations do not clamp or check what they receive. *)
Theorem invariant_kept_by_consistent_server env d :
  state_invariant d ->
  let k := net_seq d in
  ((forall doc,
      pr_code (reply_to_poll env d) = 200 ->
      pr_doc (reply_to_poll env d) = Some doc ->
      let i := or_default (pd_i doc) 0 in
      doc_fits doc d
      /\ (wants_refresh doc d = true ->
          dashboard_fits env k i /\ photo_fits env k i
          /\ photo_needs_images env k (or_default (pd_t doc) 0) i)) ->
   state_invariant (final (pollServerForInstructions env d)))
  /\ (dashboard_fits env k (currentImageIndex d) ->
      (currentMode d = MODE_DASHBOARD ->
       photo_fits env k (currentImageIndex d)
       /\ photo_needs_images env k (totalImages d) (currentImageIndex d)) ->
      state_invariant (final (toggleMode env d)))
  /\ ((1 < totalImages d ->
       photo_fits env k (next_index d)
       /\ (currentMode d <> MODE_DASHBOARD ->
           photo_not_emptied env k (next_index d))) ->
      state_invariant (final (advanceImage env d))).
Proof.
  intros Hinv k. split; [|split].
  - now apply poll_keeps_invariant.
  - now apply toggle_keeps_invariant.
  - now apply advance_keeps_invariant.
Qed.

(** A server with five photos that announces the total in every bitmap
    reply, and a device showing the last of them: the poll refreshes to
    photo 2, the toggle goes to the dashboard, the advance wraps to photo
    0.  And Scenario D: no photo, the toggle's photo request is answered
    404, which sets the total to 0. *)
Lemma invariant_kept_by_consistent_server_witness :
  let env := five_photos_env in
  let d := last_image_device in
  (state_invariant d
   /\ doc_fits doc_B d
   /\ dashboard_fits env 0 2 /\ photo_fits env 0 2
   /\ photo_needs_images env 0 5 2
   /\ dashboard_fits env 0 4
   /\ photo_fits env 0 0 /\ photo_not_emptied env 0 0)
  /\ (state_invariant (final (pollServerForInstructions env d))
      /\ value (pollServerForInstructions env d) = true
      /\ currentImageIndex (final (pollServerForInstructions env d)) = 2)
  /\ (state_invariant (final (toggleMode env d))
      /\ currentMode (final (toggleMode env d)) = MODE_DASHBOARD)
  /\ (state_invariant (final (advanceImage env d))
      /\ currentImageIndex (final (advanceImage env d)) = 0
      /\ currentMode (final (advanceImage env d)) = MODE_IMAGE)
  /\ (state_invariant device0
      /\ photo_fits no_photos_env 0 0
      /\ photo_needs_images no_photos_env 0 0 0
      /\ dashboard_fits no_photos_env 0 0)
  /\ (state_invariant (final (toggleMode no_photos_env device0))
      /\ totalImages (final (toggleMode no_photos_env device0)) = 0
      /\ fetches (emitted (toggleMode no_photos_env device0)) = 2%nat).
Proof.
  intros env d.
  assert (Hinv : state_invariant d).
  { unfold state_invariant. cbn. split; [intros E; discriminate E|lia]. }
  assert (Hdoc : doc_fits doc_B d).
  { unfold doc_fits, index_fits. cbn. split; [lia|]. intros E; discriminate E. }
  assert (Hfit : forall i, 0 <= i < 5 ->
            dashboard_fits env 0 i /\ photo_fits env 0 i).
  { intros i Hi. split; intros n _ t Ha; cbn in Ha; injection Ha as <-;
      unfold index_fits; lia. }
  assert (Hneeds : photo_needs_images env 0 5 2).
  { intros n buf _ _. cbn. discriminate. }
  assert (Hkeep : photo_not_emptied env 0 0).
  { intros n _. cbn. discriminate. }
  assert (Hinv0 : state_invariant device0).
  { unfold state_invariant. cbn. split; [intros _; split; reflexivity|lia]. }
  assert (Hp0 : photo_fits no_photos_env 0 0).
  { intros n _ t Ha. cbn in Ha. injection Ha as <-. unfold index_fits. lia. }
  assert (Hn0 : photo_needs_images no_photos_env 0 0 0).
  { intros n buf _ Hok. cbn in Hok. discriminate Hok. }
  assert (Hd0 : dashboard_fits no_photos_env 0 0).
  { intros n _ t Ha. cbn in Ha. discriminate Ha. }
  destruct (invariant_kept_by_consistent_server env d Hinv)
    as (Hpoll & Htoggle & Hadvance).
  destruct (invariant_kept_by_consistent_server no_photos_env device0 Hinv0)
    as (_ & Htoggle0 & _).
  split; [|split; [|split; [|split; [|split]]]].
  - exact (conj Hinv (conj Hdoc
             (conj (proj1 (Hfit 2 ltac:(lia)))
                (conj (proj2 (Hfit 2 ltac:(lia)))
                   (conj Hneeds
                      (conj (proj1 (Hfit 4 ltac:(lia)))
                         (conj (proj2 (Hfit 0 ltac:(lia))) Hkeep))))))).
  - split; [|split; vm_compute; reflexivity].
    apply Hpoll. intros doc _ Hsome. injection Hsome as <-.
    split; [exact Hdoc|]. intros _.
    exact (conj (proj1 (Hfit 2 ltac:(lia)))
             (conj (proj2 (Hfit 2 ltac:(lia))) Hneeds)).
  - split; [|vm_compute; reflexivity].
    apply Htoggle; [exact (proj1 (Hfit 4 ltac:(lia)))|].
    intros E. discriminate E.
  - split; [|split; vm_compute; reflexivity].
    apply Hadvance. intros _.
    split; [exact (proj2 (Hfit 0 ltac:(lia)))|]. intros _. exact Hkeep.
  - exact (conj Hinv0 (conj Hp0 (conj Hn0 Hd0))).
  - split; [|split; vm_compute; reflexivity].
    apply Htoggle0; [exact Hd0|]. intros _. exact (conj Hp0 Hn0).
Defined.

(** ** C8: the control loop *)

Lemma polls_app es es' : polls (es ++ es') = (polls es + polls es')%nat.
Proof. unfold polls. now rewrite filter_app, length_app. Qed.

Lemma toggleMode_no_poll env d : polls (emitted (toggleMode env d)) = 0%nat.
Proof.
  destruct (DisplayMode_eqb (currentMode d) MODE_DASHBOARD) eqn:Hm.
  - apply DisplayMode_eqb_eq in Hm.
    rewrite (toggleMode_from_dashboard env d Hm).
    destruct (fetch_succeeds _ _); cbn [emitted]; [reflexivity|].
    unfold shown_after. destruct (fetch_succeeds _ _); reflexivity.
  - assert (Hne : currentMode d <> MODE_DASHBOARD).
    { intros E. apply DisplayMode_eqb_eq in E. congruence. }
    rewrite (toggleMode_from_other env d Hne). cbn [emitted].
    unfold shown_after. destruct (fetch_succeeds _ _); reflexivity.
Qed.

Lemma toggleMode_frame env d :
  wifiConnected (final (toggleMode env d)) = wifiConnected d
  /\ nextPollSeconds (final (toggleMode env d)) = nextPollSeconds d
  /\ clk (final (toggleMode env d)) = clk d.
Proof.
  destruct (DisplayMode_eqb (currentMode d) MODE_DASHBOARD) eqn:Hm.
  - apply DisplayMode_eqb_eq in Hm.
    rewrite (toggleMode_from_dashboard env d Hm).
    destruct (fetch_succeeds _ _); cbn; repeat split.
  - assert (Hne : currentMode d <> MODE_DASHBOARD).
    { intros E. apply DisplayMode_eqb_eq in E. congruence. }
    rewrite (toggleMode_from_other env d Hne). cbn. repeat split.
Qed.

Lemma refresh_no_poll env m d0 :
  polls (emitted (refresh_result env m d0)) = 0%nat.
Proof.
  unfold refresh_result, shown_after. cbv zeta.
  repeat (match goal with
          | |- context [if ?c then _ else _] => destruct c
          end); reflexivity.
Qed.

Lemma poll_polls_once env d :
  polls (emitted (pollServerForInstructions env d)) = 1%nat.
Proof.
  destruct (Z.eq_dec (pr_code (reply_to_poll env d)) 200) as [Hc|Hc];
    [|now rewrite (poll_not_merged env d (or_introl Hc))].
  destruct (pr_doc (reply_to_poll env d)) as [doc|] eqn:Hd;
    [|now rewrite (poll_not_merged env d (or_intror Hd))].
  rewrite (poll_merged env d doc Hc Hd).
  destruct (wants_refresh doc d); [|reflexivity].
  cbn [emitted prepend]. rewrite polls_app, refresh_no_poll. reflexivity.
Qed.

Lemma loop_button_eq env pin d :
  let d0 := set_lastButtonPress (C32.wrap_ulong (millis_at env (S (clk d))))
              (bump_clk (bump_clk d)) in
  let t := toggleMode env d0 in
  loop_button env pin d
  = if button_pressed env pin d then
      mkRes true (set_lastButtonState pin (set_lastPollTime 0 (final t)))
        (emitted t)
    else
      mkRes false
        (set_lastButtonState pin
           (if negb pin && lastButtonState d then bump_clk d else d))
        [].
Proof.
  cbv zeta. unfold loop_button, button_pressed.
  rewrite run_gets, run_if.
  destruct (negb pin && lastButtonState d); cbn [andb].
  - repeat mstep'. cbn [lastButtonPress bump_clk clk].
    rewrite run_if.
    destruct (300 <? _).
    + repeat mstep'. cbn [clk bump_clk].
      rewrite run_bind. cbv beta. repeat mstep'. mtail.
      unfold prepend. cbn [value final emitted]. now rewrite app_nil_r.
    + repeat mstep'. mtail. reflexivity.
  - repeat mstep'. mtail. reflexivity.
Qed.

Lemma wrap_ulong_range z : 0 <= C32.wrap_ulong z < 2 ^ 32.
Proof. unfold C32.wrap_ulong. apply Z.mod_pos_bound. lia. Qed.

(** The default poll interval: the initialiser of [nextPollSeconds]. *)
Example default_poll_interval :
  nextPollSeconds boot_device = 30 /\ pollIntervalMs boot_device = 30000.
Proof. split; reflexivity. Qed.

(** C8 as stated does not hold: without WiFi no poll is issued, however
    long ago the last one was. *)
Lemma loop_without_wifi_never_polls :
  let env := frozen_env 100000 in
  let now := C32.wrap_ulong (millis_at env (clk boot_device)) in
  now - lastPollTime boot_device > nextPollSeconds boot_device * 1000
  /\ poll_due now boot_device = true
  /\ polls (emitted (loop env true boot_device)) = 0%nat.
Proof. vm_compute. repeat split. Qed.

(** C8, amended: [nextPollSeconds] starts at 30, and an iteration of
    [loop()] issues a poll exactly when WiFi is connected and, in
    [unsigned long] arithmetic, [millis() - lastPollTime >
    nextPollSeconds * 1000] at the test that follows the button handling;
    it never issues more than one, and none while WiFi is down.  In an
    iteration whose button handling does not toggle the mode,
    [lastPollTime] and [nextPollSeconds] at that test are those with which
    the iteration began. *)
Theorem loop_polls_when_connected_and_due env pin d :
  let b := loop_button env pin d in
  let d1 := final b in
  let now := C32.wrap_ulong (millis_at env (clk d1)) in
  nextPollSeconds boot_device = 30
  /\ polls (emitted (loop env pin d))
     = (if wifiConnected d1 && poll_due now d1 then 1 else 0)%nat
  /\ wifiConnected d1 = wifiConnected d
  /\ poll_due now d1
     = (C32.wrap_ulong (C32.wrap_ulong (nextPollSeconds d1) * 1000)
        <? C32.wrap_ulong (now - lastPollTime d1))
  /\ (polls (emitted (loop env pin d)) <= 1)%nat
  /\ (wifiConnected d = false -> polls (emitted (loop env pin d)) = 0%nat)
  /\ value b = button_pressed env pin d
  /\ (value b = false ->
      lastPollTime d1 = lastPollTime d
      /\ nextPollSeconds d1 = nextPollSeconds d
      /\ polls (emitted (loop env pin d))
         = (if wifiConnected d && poll_due now d then 1 else 0)%nat).
Proof.
  intros b d1 now.
  assert (Hb : polls (emitted b) = 0%nat
               /\ wifiConnected d1 = wifiConnected d
               /\ value b = button_pressed env pin d
               /\ (value b = false ->
                   lastPollTime d1 = lastPollTime d
                   /\ nextPollSeconds d1 = nextPollSeconds d)).
  { subst d1 b. rewrite loop_button_eq.
    destruct (button_pressed env pin d); cbn [value final emitted].
    - split; [apply toggleMode_no_poll|].
      split; [cbn; now rewrite (proj1 (toggleMode_frame env _))|].
      repeat split; discriminate.
    - split; [reflexivity|].
      destruct (negb pin && lastButtonState d); cbn;
        repeat split; discriminate. }
  destruct Hb as (Hp & Hw & Hv & Hn).
  assert (Hpolls : polls (emitted (loop env pin d))
                   = (if wifiConnected d1 && poll_due now d1
                      then 1 else 0)%nat).
  { unfold loop. rewrite run_bind. cbv beta. fold b. fold d1.
    cbn [emitted prepend]. rewrite polls_app, Hp. cbn [Nat.add].
    unfold loop_poll. rewrite run_gets, if_run.
    destruct (wifiConnected d1); cbn [negb andb]; [|reflexivity].
    rewrite run_millis, run_gets, if_run. fold now.
    change (poll_due now (bump_clk d1)) with (poll_due now d1).
    destruct (poll_due now d1); [|reflexivity].
    rewrite run_bind. cbn [emitted prepend].
    rewrite polls_app, poll_polls_once.
    rewrite run_millis. reflexivity. }
  split; [reflexivity|]. split; [exact Hpolls|]. split; [exact Hw|].
  split; [reflexivity|]. split; [|split; [|split; [exact Hv|]]].
  - rewrite Hpolls. destruct (wifiConnected d1 && poll_due now d1); lia.
  - intros Hoff. rewrite Hpolls, Hw, Hoff. reflexivity.
  - intros Hf. destruct (Hn Hf) as [Hl Hs].
    split; [exact Hl|]. split; [exact Hs|].
    rewrite Hpolls, Hw. unfold poll_due, pollIntervalMs.
    now rewrite Hl, Hs.
Qed.

(** A press ten seconds after boot, with the default interval of thirty
    seconds: the mode is toggled, [lastPollTime] is reset, and the
    iteration issues no poll. *)
Example toggle_soon_after_boot_no_poll :
  let env := frozen_env 10000 in
  value (loop_button env false device0) = true
  /\ lastPollTime (final (loop_button env false device0)) = 0
  /\ polls (emitted (loop env false device0)) = 0%nat.
Proof. vm_compute. repeat split. Qed.

(** The same press one minute after boot is followed by a poll in the
    same iteration. *)
Example toggle_later_polls_at_once :
  let env := frozen_env 60000 in
  value (loop_button env false device0) = true
  /\ polls (emitted (loop env false device0)) = 1%nat.
Proof. vm_compute. repeat split. Qed.

(** Scenario B of the specification. *)
Example scenario_B :
  let env := fixed_env 0 (reply_frame xff) (reply_frame x00)
               (mkPollReply 200 (Some doc_B)) in
  let r := pollServerForInstructions env device0 in
  value r = true
  /\ currentMode (final r) = MODE_IMAGE
  /\ currentImageIndex (final r) = 2
  /\ totalImages (final r) = 5
  /\ emitted r = [HttpGetPoll 0 "dashboard" 0; HttpGetBitmap 2 "photo";
                  DrawImage (repeat xff 5000)].
Proof. vm_compute. repeat split. Qed.

(** * Further properties of the sketch *)

(** ** The bytes a fetch stores *)

Lemma buffer_after_delivered resp buf :
  Z.of_nat (List.length buf) = expectedSize ->
  fetch_succeeds resp buf = true ->
  buffer_after resp buf = delivered resp
  /\ Z.of_nat (List.length (delivered resp)) = expectedSize.
Proof.
  intros Hl Hok. pose proof expectedSize_val as HE.
  unfold fetch_succeeds, bytes_received in Hok.
  unfold buffer_after, delivered.
  destruct (_ && _); [|apply Z.eqb_eq in Hok; lia].
  apply Z.eqb_eq in Hok.
  pose proof (stream_loop_data (br_stream resp) 0 buf ltac:(lia) Hl) as H.
  cbv zeta in H. rewrite Hok in H. cbn [Z.to_nat firstn app] in H.
  destruct (stream_loop_inv (br_stream resp) 0 buf)
    as (_ & Hlr & _); [lia|exact Hl|].
  rewrite firstn_all2 in H by lia.
  rewrite <- H. split; [reflexivity|]. now rewrite Hlr.
Qed.

(** X1: a call of [fetchBitmap] that returns [true] leaves in
    [imageBuffer] exactly the bytes it took from the stream, in the order
    in which they arrived, 5000 of them, whatever the buffer held before;
    and [hasImage] is set. *)
Theorem successful_fetch_stores_delivered_bytes env index mode d :
  Z.of_nat (List.length (imageBuffer d)) = expectedSize ->
  let resp := bitmap_reply env (net_seq d) index mode in
  let r := fetchBitmap env index mode d in
  value r = true ->
  imageBuffer (final r) = delivered resp
  /\ Z.of_nat (List.length (delivered resp)) = expectedSize
  /\ hasImage (final r) = true.
Proof.
  intros Hl resp r Hok. subst r. rewrite fetchBitmap_eq in *.
  cbn [value final imageBuffer hasImage after_fetch] in *. fold resp in Hok |- *.
  destruct (buffer_after_delivered resp (imageBuffer d) Hl Hok) as [Hb Hd].
  rewrite Hb, Hok, orb_true_r. repeat split. exact Hd.
Qed.

(** Two chunks of 2500 bytes, the first all ones, the second all zeros. *)
Lemma successful_fetch_stores_delivered_bytes_witness :
  let resp := mkBitmapResponse 200 (-1) None
                [mkTick true 1 2500 2500 (RdData (repeat xff 2500));
                 mkTick true 2 0 0 RdFail;
                 mkTick true 3 5000 5000 (RdData (repeat x00 5000))] in
  let env := fixed_env 0 resp resp reply_no_poll in
  let r := fetchBitmap env 0 "photo" device0 in
  (Z.of_nat (List.length (imageBuffer device0)) = expectedSize
   /\ value r = true)
  /\ imageBuffer (final r) = repeat xff 2500 ++ repeat x00 2500.
Proof.
  intros resp env r.
  assert (Hl : Z.of_nat (List.length (imageBuffer device0)) = expectedSize)
    by reflexivity.
  assert (Hok : value r = true) by (vm_compute; reflexivity).
  split; [split; assumption|].
  etransitivity;
    [exact (proj1 (successful_fetch_stores_delivered_bytes
                     env 0 "photo" device0 Hl Hok))|].
  vm_compute. reflexivity.
Defined.

(** ** Frames that are drawn *)

Lemma frames_app es es' : frames (es ++ es') = frames es ++ frames es'.
Proof.
  induction es as [|e es IH]; [reflexivity|].
  destruct e; cbn; now rewrite IH.
Qed.

Lemma complete_frame_of_fetch env n i m buf :
  Z.of_nat (List.length buf) = expectedSize ->
  fetch_succeeds (bitmap_reply env n i m) buf = true ->
  complete_frame env (buffer_after (bitmap_reply env n i m) buf).
Proof.
  intros Hl Hok.
  destruct (buffer_after_delivered _ _ Hl Hok) as [Hb Hd].
  exists n, i, m. rewrite Hb. repeat split; [|exact Hd].
  now rewrite (fetch_succeeds_indep _ blank_frame buf).
Qed.

Lemma shown_after_complete env n i m d :
  Z.of_nat (List.length (imageBuffer d)) = expectedSize ->
  Forall (complete_frame env)
    (frames [shown_after (fetch_succeeds (bitmap_reply env n i m)
                            (imageBuffer d))
               (after_fetch (bitmap_reply env n i m) d)]).
Proof.
  intros Hl. unfold shown_after.
  destruct (fetch_succeeds _ _) eqn:Hok; cbn [frames]; [|constructor].
  constructor; [|constructor].
  cbn [imageBuffer after_fetch]. now apply complete_frame_of_fetch.
Qed.

Lemma toggleMode_frames_complete env d :
  Z.of_nat (List.length (imageBuffer d)) = expectedSize ->
  Forall (complete_frame env) (frames (emitted (toggleMode env d)))
  /\ Z.of_nat (List.length (imageBuffer (final (toggleMode env d))))
     = expectedSize.
Proof.
  intros Hl.
  destruct (DisplayMode_eqb (currentMode d) MODE_DASHBOARD) eqn:Hm.
  - apply DisplayMode_eqb_eq in Hm.
    rewrite (toggleMode_from_dashboard env d Hm).
    destruct (fetch_succeeds _ (imageBuffer d)) eqn:Hp; cbn [final emitted].
    + split; [|cbn; now apply buffer_after_length].
      cbn [frames]. constructor; [|constructor].
      cbn [imageBuffer after_fetch bump_net set_currentMode].
      now apply complete_frame_of_fetch.
    + split; [|cbn; now apply buffer_after_length, buffer_after_length].
      cbn [frames].
      apply (shown_after_complete env (S (S (S (net_seq d)))) 0 "dashboard"
               (bump_net (set_currentMode MODE_DASHBOARD
                  (after_fetch
                     (bitmap_reply env (S (net_seq d)) (currentImageIndex d)
                        "photo")
                     (bump_net (set_currentMode MODE_IMAGE d)))))).
      cbn. now apply buffer_after_length.
  - assert (Hne : currentMode d <> MODE_DASHBOARD).
    { intros E. apply DisplayMode_eqb_eq in E. congruence. }
    rewrite (toggleMode_from_other env d Hne). cbn [final emitted].
    split; [|cbn; now apply buffer_after_length].
    cbn [frames].
    apply (shown_after_complete env (S (net_seq d)) 0 "dashboard"
             (bump_net (set_currentMode MODE_DASHBOARD d))).
    exact Hl.
Qed.

Lemma refresh_frames_complete env m d0 :
  Z.of_nat (List.length (imageBuffer d0)) = expectedSize ->
  Forall (complete_frame env) (frames (emitted (refresh_result env m d0)))
  /\ Z.of_nat (List.length (imageBuffer (final (refresh_result env m d0))))
     = expectedSize.
Proof.
  intros Hl. unfold refresh_result. cbv zeta.
  destruct (DisplayMode_eqb m MODE_DASHBOARD).
  - cbn [final emitted frames].
    split; [|cbn; now apply buffer_after_length].
    apply (shown_after_complete env _ 0 "dashboard" (set_currentMode m d0)).
    exact Hl.
  - destruct (0 <? totalImages (set_currentMode m d0)).
    + destruct (fetch_succeeds _ _) eqn:Hp; cbn [final emitted frames].
      * split; [|cbn; now apply buffer_after_length].
        constructor; [|constructor].
        cbn [imageBuffer after_fetch]. now apply complete_frame_of_fetch.
      * split; [|cbn; now apply buffer_after_length, buffer_after_length].
        apply (shown_after_complete env _ 0 "dashboard"
                 (set_currentMode MODE_DASHBOARD
                    (after_fetch
                       (bitmap_reply env (net_seq (set_currentMode m d0))
                          (currentImageIndex (set_currentMode m d0)) "photo")
                       (set_currentMode m d0)))).
        cbn. now apply buffer_after_length.
    + cbn [final emitted frames].
      split; [|cbn; now apply buffer_after_length].
      apply (shown_after_complete env _ 0 "dashboard"
               (set_currentMode MODE_DASHBOARD (set_currentMode m d0))).
      exact Hl.
Qed.

Lemma poll_frames_complete env d :
  Z.of_nat (List.length (imageBuffer d)) = expectedSize ->
  Forall (complete_frame env)
    (frames (emitted (pollServerForInstructions env d)))
  /\ Z.of_nat (List.length
                 (imageBuffer (final (pollServerForInstructions env d))))
     = expectedSize.
Proof.
  intros Hl.
  destruct (Z.eq_dec (pr_code (reply_to_poll env d)) 200) as [Hc|Hc];
    [|rewrite (poll_not_merged env d (or_introl Hc)); split;
      [constructor|exact Hl]].
  destruct (pr_doc (reply_to_poll env d)) as [doc|] eqn:Hd;
    [|rewrite (poll_not_merged env d (or_intror Hd)); split;
      [constructor|exact Hl]].
  rewrite (poll_merged env d doc Hc Hd).
  destruct (wants_refresh doc d); [|split; [constructor|exact Hl]].
  cbn [final emitted prepend app frames poll_request].
  apply refresh_frames_complete. exact Hl.
Qed.

Lemma advance_frames_complete env d :
  Z.of_nat (List.length (imageBuffer d)) = expectedSize ->
  Forall (complete_frame env) (frames (emitted (advanceImage env d)))
  /\ Z.of_nat (List.length (imageBuffer (final (advanceImage env d))))
     = expectedSize.
Proof.
  intros Hl. rewrite advanceImage_eq.
  destruct (totalImages d <=? 1); [split; [constructor|exact Hl]|].
  cbn [final emitted app frames].
  split; [|cbn; now apply buffer_after_length].
  destruct (fetch_succeeds _ _) eqn:Hp; cbn [frames]; [|constructor].
  constructor; [|constructor].
  cbn [imageBuffer after_fetch bump_net set_currentImageIndex].
  now apply complete_frame_of_fetch.
Qed.

(** X2: no torn frame is ever presented.  Every frame that [toggleMode],
    [pollServerForInstructions] or [advanceImage] hands to [drawImage] is
    the complete 5000-byte body of a reply whose fetch succeeded; the bytes
    a failed fetch left in [imageBuffer] are never drawn by them. *)
Theorem drawn_frames_are_complete env d :
  Z.of_nat (List.length (imageBuffer d)) = expectedSize ->
  Forall (complete_frame env) (frames (emitted (toggleMode env d)))
  /\ Forall (complete_frame env)
       (frames (emitted (pollServerForInstructions env d)))
  /\ Forall (complete_frame env) (frames (emitted (advanceImage env d))).
Proof.
  intros Hl. split; [|split].
  - now apply toggleMode_frames_complete.
  - now apply poll_frames_complete.
  - now apply advance_frames_complete.
Qed.

(** A toggle whose photo request ends short and whose dashboard request
    succeeds: the only frame drawn is the dashboard's. *)
Lemma drawn_frames_are_complete_witness :
  let env := fixed_env 0 reply_short (reply_frame x0f) reply_no_poll in
  Z.of_nat (List.length (imageBuffer device0)) = expectedSize
  /\ frames (emitted (toggleMode env device0)) = [repeat x0f 5000]
  /\ Forall (complete_frame env) (frames (emitted (toggleMode env device0))).
Proof.
  intros env.
  assert (Hl : Z.of_nat (List.length (imageBuffer device0)) = expectedSize)
    by reflexivity.
  split; [exact Hl|]. split; [vm_compute; reflexivity|].
  exact (proj1 (drawn_frames_are_complete env device0 Hl)).
Defined.

(** ** More on [pollServerForInstructions] *)

(** X3: a poll answered with any status other than 200 (404, 500, a
    transport error) changes none of the globals, requests no bitmap, draws
    nothing and returns [false]. *)
Theorem poll_other_status env d :
  pr_code (reply_to_poll env d) <> 200 ->
  let r := pollServerForInstructions env d in
  value r = false
  /\ emitted r = [poll_request d]
  /\ final r = bump_net d
  /\ currentMode (final r) = currentMode d
  /\ currentImageIndex (final r) = currentImageIndex d
  /\ totalImages (final r) = totalImages d
  /\ serverRefreshVersion (final r) = serverRefreshVersion d
  /\ nextPollSeconds (final r) = nextPollSeconds d
  /\ imageBuffer (final r) = imageBuffer d.
Proof.
  intros Hc r. subst r.
  rewrite (poll_not_merged env d (or_introl Hc)). cbn.
  repeat split; reflexivity.
Qed.

Lemma poll_other_status_witness :
  let env := fixed_env 0 (reply_frame xff) (reply_frame xff)
               (mkPollReply 404 (Some doc_B)) in
  let r := pollServerForInstructions env device0 in
  pr_code (reply_to_poll env device0) <> 200
  /\ value r = false /\ emitted r = [HttpGetPoll 0 "dashboard" 0].
Proof.
  intros env r.
  assert (Hc : pr_code (reply_to_poll env device0) <> 200)
    by (cbn; discriminate).
  split; [exact Hc|].
  destruct (poll_other_status env device0 Hc) as (Hv & He & _).
  split; [exact Hv|exact He].
Defined.

Lemma refresh_result_fields env m d0 :
  let r := refresh_result env m d0 in
  value r = true
  /\ serverRefreshVersion (final r) = serverRefreshVersion d0
  /\ nextPollSeconds (final r) = nextPollSeconds d0
  /\ currentImageIndex (final r) = currentImageIndex d0
  /\ lastPollTime (final r) = lastPollTime d0
  /\ wifiConnected (final r) = wifiConnected d0
  /\ lastButtonState (final r) = lastButtonState d0
  /\ lastButtonPress (final r) = lastButtonPress d0
  /\ clk (final r) = clk d0
  /\ (hasImage d0 = true -> hasImage (final r) = true).
Proof.
  unfold refresh_result. cbv zeta.
  repeat (match goal with
          | |- context [if ?c then _ else _] => destruct c eqn:?
          end);
    cbn; repeat split; try reflexivity; intros ->; reflexivity.
Qed.

(** X4: whenever the reply is a 200 with a well-formed document, the poll
    stores the document's [v], [n] and [i] in [serverRefreshVersion],
    [nextPollSeconds] and [currentImageIndex], whether or not a refresh
    follows and whatever the bitmap requests of the refresh do; it returns
    [true] exactly when [r] is set or the mode or the index differ. *)
Theorem poll_adopts_document env d doc :
  pr_code (reply_to_poll env d) = 200 ->
  pr_doc (reply_to_poll env d) = Some doc ->
  let r := pollServerForInstructions env d in
  serverRefreshVersion (final r) = or_default (pd_v doc) 0
  /\ nextPollSeconds (final r) = or_default (pd_n doc) 30
  /\ currentImageIndex (final r) = or_default (pd_i doc) 0
  /\ value r
     = (or_default (pd_r doc) false
        || negb (DisplayMode_eqb (doc_mode doc) (currentMode d))
        || negb (or_default (pd_i doc) 0 =? currentImageIndex d)).
Proof.
  intros Hc Hd r. subst r.
  rewrite (poll_merged env d doc Hc Hd).
  fold (wants_refresh doc d).
  destruct (wants_refresh doc d); [|cbn; repeat split; reflexivity].
  cbn [final value prepend].
  destruct (refresh_result_fields env (doc_mode doc) (after_merge doc d))
    as (Hv & H1 & H2 & H3 & _).
  rewrite Hv, H1, H2, H3. cbn. repeat split; reflexivity.
Qed.

Lemma poll_adopts_document_witness :
  let env := fixed_env 0 (reply_status 404) (reply_status 500)
               (mkPollReply 200 (Some doc_B)) in
  let r := pollServerForInstructions env device0 in
  pr_doc (reply_to_poll env device0) = Some doc_B
  /\ serverRefreshVersion (final r) = 6
  /\ currentImageIndex (final r) = 2
  /\ value r = true.
Proof.
  intros env r.
  destruct (poll_adopts_document env device0 doc_B eq_refl eq_refl)
    as (Hv & _ & Hi & Hr).
  split; [reflexivity|]. split; [exact Hv|]. split; [exact Hi|exact Hr].
Defined.

Lemma shown_after_is_draw ok d :
  is_draw (shown_after ok d) = true
  /\ is_poll (shown_after ok d) = false
  /\ is_fetch (shown_after ok d) = false
  /\ is_post (shown_after ok d) = false.
Proof. destruct ok; repeat split. Qed.

Lemma refresh_result_shape env m d0 :
  let es := emitted (refresh_result env m d0) in
  filter is_post es = []
  /\ draws es = 1%nat
  /\ (1 <= fetches es <= 2)%nat.
Proof.
  unfold refresh_result, draws, fetches, shown_after. cbv zeta.
  repeat (match goal with
          | |- context [if ?c then _ else _] => destruct c eqn:?
          end);
    cbn; repeat split; lia.
Qed.

Lemma poll_counts env d :
  let r := pollServerForInstructions env d in
  filter is_post (emitted r) = []
  /\ (if value r
      then (1 <= fetches (emitted r) <= 2)%nat /\ draws (emitted r) = 1%nat
      else fetches (emitted r) = 0%nat /\ draws (emitted r) = 0%nat).
Proof.
  cbv zeta.
  destruct (Z.eq_dec (pr_code (reply_to_poll env d)) 200) as [Hc|Hc];
    [|rewrite (poll_not_merged env d (or_introl Hc)); cbn; auto].
  destruct (pr_doc (reply_to_poll env d)) as [doc|] eqn:Hd;
    [|rewrite (poll_not_merged env d (or_intror Hd)); cbn; auto].
  rewrite (poll_merged env d doc Hc Hd).
  destruct (wants_refresh doc d); [|cbn; auto].
  destruct (refresh_result_shape env (doc_mode doc) (after_merge doc d))
    as (Hp & Hdr & Hf).
  destruct (refresh_result_fields env (doc_mode doc) (after_merge doc d))
    as (Hv & _).
  cbn [emitted value prepend app filter is_post poll_request].
  rewrite Hv. split; [exact Hp|].
  unfold fetches, draws in *. cbn [filter is_fetch is_draw]. auto.
Qed.

Lemma poll_first_event env d :
  hd_error (emitted (pollServerForInstructions env d)) = Some (poll_request d).
Proof.
  destruct (Z.eq_dec (pr_code (reply_to_poll env d)) 200) as [Hc|Hc];
    [|now rewrite (poll_not_merged env d (or_introl Hc))].
  destruct (pr_doc (reply_to_poll env d)) as [doc|] eqn:Hd;
    [|now rewrite (poll_not_merged env d (or_intror Hd))].
  rewrite (poll_merged env d doc Hc Hd).
  destruct (wants_refresh doc d); reflexivity.
Qed.

(** X5: a poll sends one poll request and nothing else to the server but
    bitmap requests: it never reports a mode and never asks for the next
    image, not even when it falls back from photos to the dashboard.  It
    returns [true] exactly when it refreshed the display, and then it made
    one or two bitmap requests and drew exactly one screen; otherwise it
    made none and drew nothing. *)
Theorem poll_shape env d :
  let r := pollServerForInstructions env d in
  hd_error (emitted r) = Some (poll_request d)
  /\ polls (emitted r) = 1%nat
  /\ filter is_post (emitted r) = []
  /\ (if value r
      then (1 <= fetches (emitted r) <= 2)%nat /\ draws (emitted r) = 1%nat
      else fetches (emitted r) = 0%nat /\ draws (emitted r) = 0%nat).
Proof.
  intros r. split; [apply poll_first_event|].
  split; [apply poll_polls_once|]. apply poll_counts.
Qed.

(** X6: when the document asks for photo mode but announces no image
    ([t] <= 0), the refresh requests no photo at all: it goes straight to
    the dashboard and the mode ends as Dashboard. *)
Theorem poll_photo_without_images env d doc :
  pr_code (reply_to_poll env d) = 200 ->
  pr_doc (reply_to_poll env d) = Some doc ->
  doc_mode doc = MODE_IMAGE ->
  or_default (pd_t doc) 0 <= 0 ->
  value (pollServerForInstructions env d) = true ->
  let r := pollServerForInstructions env d in
  currentMode (final r) = MODE_DASHBOARD
  /\ fetches (emitted r) = 1%nat
  /\ exists shown,
       emitted r = [poll_request d; HttpGetBitmap 0 "dashboard"; shown]
       /\ is_draw shown = true.
Proof.
  intros Hc Hd Hm Ht Hv r. subst r. revert Hv.
  rewrite (poll_merged env d doc Hc Hd).
  destruct (wants_refresh doc d); [intros _|discriminate].
  unfold refresh_result. cbv zeta. rewrite Hm. cbn [DisplayMode_eqb].
  replace (0 <? totalImages (set_currentMode MODE_IMAGE (after_merge doc d)))
    with false by (symmetry; apply Z.ltb_ge; exact Ht).
  cbn [final emitted prepend app]. split; [reflexivity|].
  split.
  - unfold fetches. cbn [filter is_fetch poll_request].
    rewrite (proj1 (proj2 (proj2 (shown_after_is_draw _ _)))). reflexivity.
  - eexists. split; [reflexivity|]. apply shown_after_is_draw.
Qed.

Lemma poll_photo_without_images_witness :
  let env := fixed_env 0 (reply_frame xff) (reply_frame x00)
               (mkPollReply 200 (Some doc_photo_none)) in
  let r := pollServerForInstructions env device0 in
  (doc_mode doc_photo_none = MODE_IMAGE
   /\ or_default (pd_t doc_photo_none) 0 <= 0 /\ value r = true)
  /\ currentMode (final r) = MODE_DASHBOARD.
Proof.
  intros env r.
  assert (Ht : or_default (pd_t doc_photo_none) 0 <= 0) by (cbn; lia).
  assert (Hv : value r = true) by (vm_compute; reflexivity).
  split; [exact (conj eq_refl (conj Ht Hv))|].
  exact (proj1 (poll_photo_without_images env device0 doc_photo_none
                  eq_refl eq_refl eq_refl Ht Hv)).
Defined.

(** X7: a poll that refreshed the display leaves the device in Image mode
    only if it fetched the photo at the new index successfully: then
    [hasImage] is set and the run is the poll request, the photo request
    and the drawing of the buffer.  A failed photo fetch never leaves
    Image mode behind. *)
Theorem poll_image_mode_means_photo_fetched env d :
  let r := pollServerForInstructions env d in
  value r = true ->
  currentMode (final r) = MODE_IMAGE ->
  hasImage (final r) = true
  /\ emitted r = [poll_request d;
                  HttpGetBitmap (currentImageIndex (final r)) "photo";
                  DrawImage (imageBuffer (final r))].
Proof.
  intros r Hv Hm. subst r. revert Hv Hm.
  destruct (Z.eq_dec (pr_code (reply_to_poll env d)) 200) as [Hc|Hc];
    [|rewrite (poll_not_merged env d (or_introl Hc)); discriminate].
  destruct (pr_doc (reply_to_poll env d)) as [doc|] eqn:Hd;
    [|rewrite (poll_not_merged env d (or_intror Hd)); discriminate].
  rewrite (poll_merged env d doc Hc Hd).
  destruct (wants_refresh doc d); [intros _|discriminate].
  unfold refresh_result. cbv zeta.
  destruct (DisplayMode_eqb (doc_mode doc) MODE_DASHBOARD) eqn:Edash.
  - apply DisplayMode_eqb_eq in Edash. cbn. rewrite Edash. discriminate.
  - destruct (0 <? _); [|cbn; discriminate].
    destruct (fetch_succeeds _ _) eqn:Hp; [|cbn; discriminate].
    intros _. cbn [final emitted prepend app hasImage after_fetch].
    rewrite Hp, orb_true_r. split; reflexivity.
Qed.

Lemma poll_image_mode_means_photo_fetched_witness :
  let env := fixed_env 0 (reply_frame xff) (reply_frame x00)
               (mkPollReply 200 (Some doc_B)) in
  let r := pollServerForInstructions env device0 in
  (value r = true /\ currentMode (final r) = MODE_IMAGE)
  /\ hasImage (final r) = true.
Proof.
  intros env r.
  assert (Hv : value r = true) by (vm_compute; reflexivity).
  assert (Hm : currentMode (final r) = MODE_IMAGE) by (vm_compute; reflexivity).
  split; [exact (conj Hv Hm)|].
  exact (proj1 (poll_image_mode_means_photo_fetched env device0 Hv Hm)).
Defined.

(** ** More on [toggleMode] *)

(** X8: every toggle draws exactly one screen and makes one or two bitmap
    requests and no poll.  The last mode it reports to the server is the
    mode it ends in, and it reports at most two.  It changes neither the
    image index nor the poll schedule.  Away from Dashboard (photo mode)
    it always ends in Dashboard, with a single bitmap request. *)
Theorem toggle_shape env d :
  let r := toggleMode env d in
  draws (emitted r) = 1%nat
  /\ (1 <= fetches (emitted r) <= 2)%nat
  /\ polls (emitted r) = 0%nat
  /\ (exists earlier,
        set_modes (emitted r) = earlier ++ [mode_name (currentMode (final r))]
        /\ (List.length earlier <= 1)%nat)
  /\ currentImageIndex (final r) = currentImageIndex d
  /\ serverRefreshVersion (final r) = serverRefreshVersion d
  /\ nextPollSeconds (final r) = nextPollSeconds d
  /\ lastPollTime (final r) = lastPollTime d
  /\ (currentMode d <> MODE_DASHBOARD ->
      currentMode (final r) = MODE_DASHBOARD
      /\ fetches (emitted r) = 1%nat).
Proof.
  intros r. subst r.
  destruct (DisplayMode_eqb (currentMode d) MODE_DASHBOARD) eqn:Hm.
  - apply DisplayMode_eqb_eq in Hm.
    rewrite (toggleMode_from_dashboard env d Hm).
    destruct (fetch_succeeds _ (imageBuffer d)); cbn [final emitted].
    + unfold draws, fetches, polls. cbn.
      repeat split; try lia; try congruence.
      exists []. split; [reflexivity|cbn; lia].
    + unfold draws, fetches, polls, shown_after.
      destruct (fetch_succeeds _ _); cbn;
        (repeat split; try lia; try congruence;
         exists ["photo"]; split; [reflexivity|cbn; lia]).
  - assert (Hne : currentMode d <> MODE_DASHBOARD).
    { intros E. apply DisplayMode_eqb_eq in E. congruence. }
    rewrite (toggleMode_from_other env d Hne). cbn [final emitted].
    unfold draws, fetches, polls, shown_after.
    destruct (fetch_succeeds _ _); cbn;
      (repeat split; try lia; try congruence;
       exists []; split; [reflexivity|cbn; lia]).
Qed.

(** ** More on [advanceImage] *)

Lemma advanceImage_index env d :
  1 < totalImages d < 2 ^ 31 ->
  0 <= currentImageIndex d < totalImages d ->
  currentImageIndex (final (advanceImage env d))
  = (currentImageIndex d + 1) mod totalImages d
  /\ 0 <= (currentImageIndex d + 1) mod totalImages d < totalImages d
  /\ currentMode (final (advanceImage env d)) = currentMode d.
Proof.
  intros Ht Hi.
  destruct (advance_index_in_range (currentImageIndex d) (totalImages d)
              Hi ltac:(lia)) as [Hrem Hrange].
  rewrite Hrem in Hrange. rewrite advanceImage_eq.
  replace (totalImages d <=? 1) with false by (symmetry; apply Z.leb_gt; lia).
  rewrite Hrem. cbn. repeat split; apply Hrange.
Qed.

(** X9: with more than one image and the index in range, [advanceImage]
    moves the index to the next image, wrapping to 0 after the last; it
    tells the server first and then requests the photo at the new index.
    The index has moved even when that fetch fails, in which case nothing
    is drawn.  The mode is not touched. *)
Theorem advance_step env d :
  1 < totalImages d < 2 ^ 31 ->
  0 <= currentImageIndex d < totalImages d ->
  let r := advanceImage env d in
  let idx' := (currentImageIndex d + 1) mod totalImages d in
  currentImageIndex (final r) = idx'
  /\ 0 <= idx' < totalImages d
  /\ (currentImageIndex d + 1 = totalImages d -> idx' = 0)
  /\ currentMode (final r) = currentMode d
  /\ exists drawn,
       emitted r = HttpPostNextImage :: HttpGetBitmap idx' "photo" :: drawn
       /\ (drawn = [] \/ drawn = [DrawImage (imageBuffer (final r))])
       /\ (value (fetchImage env idx' (bump_net d)) = false -> drawn = []).
Proof.
  intros Ht Hi r idx'. subst r.
  destruct (advance_index_in_range (currentImageIndex d) (totalImages d)
              Hi ltac:(lia)) as [Hrem Hrange].
  rewrite Hrem in Hrange. fold idx' in Hrange.
  rewrite advanceImage_eq.
  replace (totalImages d <=? 1) with false by (symmetry; apply Z.leb_gt; lia).
  rewrite Hrem. fold idx'.
  cbn [final emitted currentImageIndex currentMode after_fetch bump_net
       set_currentImageIndex app].
  split; [reflexivity|]. split; [exact Hrange|].
  split; [intros E; subst idx'; rewrite E; apply Z.mod_same; lia|].
  split; [reflexivity|].
  unfold fetchImage. rewrite fetchBitmap_eq.
  cbn [value net_seq imageBuffer bump_net].
  destruct (fetch_succeeds _ _); eexists; split; try reflexivity.
  - split; [right; reflexivity|discriminate].
  - split; [left; reflexivity|reflexivity].
Qed.

(** The last of five images is current; the photo cannot be fetched. *)
Lemma advance_step_witness :
  let d := set_currentImageIndex 4 image_device in
  let r := advanceImage (empty_env reply_no_poll) d in
  (1 < totalImages d < 2 ^ 31 /\ 0 <= currentImageIndex d < totalImages d)
  /\ currentImageIndex (final r) = 0.
Proof.
  intros d r.
  assert (Ht : 1 < totalImages d < 2 ^ 31) by (cbn; lia).
  assert (Hi : 0 <= currentImageIndex d < totalImages d) by (cbn; lia).
  split; [exact (conj Ht Hi)|].
  exact (proj1 (advance_step (empty_env reply_no_poll) d Ht Hi)).
Defined.

Lemma advance_times_index env :
  total_kept env ->
  forall n d,
    1 < totalImages d < 2 ^ 31 ->
    0 <= currentImageIndex d < totalImages d ->
    let r := advance_times env n d in
    totalImages (final r) = totalImages d
    /\ currentImageIndex (final r)
       = (currentImageIndex d + Z.of_nat n) mod totalImages d
    /\ currentMode (final r) = currentMode d.
Proof.
  intros Hkept. induction n as [|k IH]; intros d Ht Hi; cbn [advance_times].
  - cbn. rewrite Z.add_0_r, Z.mod_small by lia. repeat split.
  - rewrite run_bind. cbv beta. cbn [final prepend].
    destruct (advanceImage_index env d Ht Hi) as (Hidx & Hrange & Hmode).
    assert (Htot : totalImages (final (advanceImage env d)) = totalImages d).
    { rewrite advanceImage_eq.
      destruct (totalImages d <=? 1); [reflexivity|].
      cbn. now rewrite Hkept. }
    destruct (IH (final (advanceImage env d))) as (H1 & H2 & H3).
    + rewrite Htot. exact Ht.
    + rewrite Htot, Hidx. exact Hrange.
    + rewrite H1, H2, H3, Htot, Hidx, Hmode.
      repeat split.
      rewrite Zplus_mod_idemp_l. f_equal. lia.
Qed.

(** X10: with a server whose bitmap replies leave [totalImages] alone,
    [n] calls of [advanceImage] move the index [n] places round the cycle
    of images; as many calls as there are images bring it back to where it
    was. *)
Theorem advance_cycle env n d :
  total_kept env ->
  1 < totalImages d < 2 ^ 31 ->
  0 <= currentImageIndex d < totalImages d ->
  currentImageIndex (final (advance_times env n d))
  = (currentImageIndex d + Z.of_nat n) mod totalImages d
  /\ (Z.of_nat n = totalImages d ->
      currentImageIndex (final (advance_times env n d))
      = currentImageIndex d)
  /\ totalImages (final (advance_times env n d)) = totalImages d.
Proof.
  intros Hkept Ht Hi.
  destruct (advance_times_index env Hkept n d Ht Hi) as (H1 & H2 & _).
  split; [exact H2|]. split; [|exact H1].
  intros Hn. rewrite H2, Hn.
  rewrite <- Zplus_mod_idemp_r, Z.mod_same, Z.add_0_r by lia.
  apply Z.mod_small. exact Hi.
Qed.

Lemma advance_cycle_witness :
  let d := set_currentImageIndex 3 image_device in
  (total_kept photo_env
   /\ 1 < totalImages d < 2 ^ 31
   /\ 0 <= currentImageIndex d < totalImages d)
  /\ currentImageIndex (final (advance_times photo_env 5 d)) = 3.
Proof.
  intros d.
  assert (Hkept : total_kept photo_env).
  { intros n i m old. unfold photo_env, fixed_env. cbn [bitmap_reply].
    destruct (String.eqb m "photo"); reflexivity. }
  assert (Ht : 1 < totalImages d < 2 ^ 31) by (cbn; lia).
  assert (Hi : 0 <= currentImageIndex d < totalImages d) by (cbn; lia).
  split; [exact (conj Hkept (conj Ht Hi))|].
  exact (proj1 (proj2 (advance_cycle photo_env 5 d Hkept Ht Hi)) eq_refl).
Defined.

(** X11: with no image or a single one, [advanceImage] does nothing,
    however often it is called: no request, no drawing, no change of the
    globals. *)
Theorem advance_without_choice env n d :
  totalImages d <= 1 ->
  advance_times env n d = mkRes tt d [].
Proof.
  intros Ht. induction n as [|k IH]; cbn [advance_times]; [reflexivity|].
  rewrite run_bind. cbv beta. rewrite advanceImage_eq.
  replace (totalImages d <=? 1) with true by (symmetry; apply Z.leb_le; lia).
  cbn [value final emitted]. rewrite IH. reflexivity.
Qed.

Lemma advance_without_choice_witness :
  totalImages device0 <= 1
  /\ emitted (advance_times photo_env 3 device0) = [].
Proof.
  assert (Ht : totalImages device0 <= 1) by (cbn; lia).
  split; [exact Ht|].
  now rewrite (advance_without_choice photo_env 3 device0 Ht).
Defined.

(** ** More on [loop] *)

Lemma poll_frame env d :
  let r := pollServerForInstructions env d in
  wifiConnected (final r) = wifiConnected d
  /\ lastButtonState (final r) = lastButtonState d
  /\ lastButtonPress (final r) = lastButtonPress d
  /\ lastPollTime (final r) = lastPollTime d
  /\ clk (final r) = clk d
  /\ (hasImage d = true -> hasImage (final r) = true).
Proof.
  cbv zeta.
  destruct (Z.eq_dec (pr_code (reply_to_poll env d)) 200) as [Hc|Hc];
    [|rewrite (poll_not_merged env d (or_introl Hc)); cbn; repeat split; auto].
  destruct (pr_doc (reply_to_poll env d)) as [doc|] eqn:Hd;
    [|rewrite (poll_not_merged env d (or_intror Hd)); cbn; repeat split; auto].
  rewrite (poll_merged env d doc Hc Hd).
  destruct (wants_refresh doc d); [|cbn; repeat split; auto].
  cbn [final prepend].
  destruct (refresh_result_fields env (doc_mode doc) (after_merge doc d))
    as (_ & _ & _ & _ & H1 & H2 & H3 & H4 & H5 & H6).
  rewrite H1, H2, H3, H4, H5. cbn. repeat split. exact H6.
Qed.

Lemma loop_poll_eq env d :
  let now := C32.wrap_ulong (millis_at env (clk d)) in
  let p := pollServerForInstructions env (bump_clk d) in
  loop_poll env d
  = if negb (wifiConnected d) then mkRes tt d []
    else if poll_due now d then
      mkRes tt
        (set_lastPollTime (C32.wrap_ulong (millis_at env (S (clk d))))
           (bump_clk (final p)))
        (emitted p)
    else mkRes tt (bump_clk d) [].
Proof.
  cbv zeta. unfold loop_poll. rewrite run_gets, if_run.
  destruct (wifiConnected d); cbn [negb]; [|reflexivity].
  rewrite run_millis, run_gets, if_run.
  change (poll_due ?n (bump_clk d)) with (poll_due n d).
  destruct (poll_due _ d); [|reflexivity].
  rewrite run_bind. cbv beta. rewrite run_millis.
  unfold modify, prepend. cbn [value final emitted].
  rewrite (proj1 (proj2 (proj2 (proj2 (proj2 (poll_frame env (bump_clk d))))))).
  cbn [clk bump_clk]. now rewrite !app_nil_r.
Qed.

Lemma toggleMode_fields env d :
  let r := toggleMode env d in
  wifiConnected (final r) = wifiConnected d
  /\ lastButtonState (final r) = lastButtonState d
  /\ lastButtonPress (final r) = lastButtonPress d
  /\ clk (final r) = clk d
  /\ (hasImage d = true -> hasImage (final r) = true).
Proof.
  cbv zeta.
  destruct (DisplayMode_eqb (currentMode d) MODE_DASHBOARD) eqn:Hm.
  - apply DisplayMode_eqb_eq in Hm.
    rewrite (toggleMode_from_dashboard env d Hm).
    destruct (fetch_succeeds _ _); cbn; repeat split; intros ->; reflexivity.
  - assert (Hne : currentMode d <> MODE_DASHBOARD).
    { intros E. apply DisplayMode_eqb_eq in E. congruence. }
    rewrite (toggleMode_from_other env d Hne). cbn.
    repeat split; intros ->; reflexivity.
Qed.

Lemma toggleMode_counts env d :
  let es := emitted (toggleMode env d) in
  draws es = 1%nat
  /\ (1 <= fetches es <= 2)%nat
  /\ set_modes es <> [].
Proof.
  cbv zeta.
  destruct (DisplayMode_eqb (currentMode d) MODE_DASHBOARD) eqn:Hm.
  - apply DisplayMode_eqb_eq in Hm.
    rewrite (toggleMode_from_dashboard env d Hm).
    unfold draws, fetches, shown_after.
    repeat (match goal with
            | |- context [if ?c then _ else _] => destruct c eqn:?
            end);
      cbn; repeat split; try lia; discriminate.
  - assert (Hne : currentMode d <> MODE_DASHBOARD).
    { intros E. apply DisplayMode_eqb_eq in E. congruence. }
    rewrite (toggleMode_from_other env d Hne).
    unfold draws, fetches, shown_after.
    destruct (fetch_succeeds _ _); cbn; repeat split; try lia; discriminate.
Qed.

Lemma loop_final_button_state env pin d :
  lastButtonState (final (loop env pin d)) = pin.
Proof.
  unfold loop. rewrite run_bind. cbv beta. cbn [final prepend].
  assert (Hb : lastButtonState (final (loop_button env pin d)) = pin).
  { rewrite loop_button_eq. destruct (button_pressed env pin d); reflexivity. }
  rewrite loop_poll_eq.
  destruct (negb (wifiConnected _)); [exact Hb|].
  destruct (poll_due _ _); cbn; [|exact Hb].
  rewrite (proj1 (proj2 (poll_frame env _))). exact Hb.
Qed.

(** X12: the button acts on a falling edge only.  A toggle happens only
    when the pin reads LOW and read HIGH in the previous iteration; every
    iteration records the level it read; so after an iteration that read
    LOW the next iteration never toggles, however long the button is held
    and whatever the clock says. *)
Theorem button_acts_on_falling_edge env pin d :
  lastButtonState (final (loop env pin d)) = pin
  /\ (value (loop_button env pin d) = true ->
      pin = false /\ lastButtonState d = true)
  /\ (forall pin',
        value (loop_button env pin' (final (loop env false d))) = false
        /\ emitted (loop_button env pin' (final (loop env false d))) = []).
Proof.
  split; [apply loop_final_button_state|]. split.
  - rewrite loop_button_eq. unfold button_pressed.
    destruct pin, (lastButtonState d); cbn; try discriminate. auto.
  - intros pin'. rewrite loop_button_eq. unfold button_pressed.
    rewrite loop_final_button_state, andb_false_r. cbn. auto.
Qed.

(** X13: the button is debounced against the time of the last accepted
    press, in [unsigned long] arithmetic.  A falling edge no more than
    300 ms after it is dropped: nothing is requested or drawn, the mode
    stays, and since the level is recorded the press is not taken up later
    while the button stays down.  A falling edge more than 300 ms after it
    toggles the mode, records a fresh clock reading as the time of the
    press and resets [lastPollTime] to 0. *)
Theorem button_debounce env d :
  lastButtonState d = true ->
  let now := C32.wrap_ulong (millis_at env (clk d)) in
  let r := loop_button env false d in
  (C32.wrap_ulong (now - lastButtonPress d) <= 300 ->
   value r = false /\ emitted r = []
   /\ currentMode (final r) = currentMode d
   /\ lastButtonPress (final r) = lastButtonPress d
   /\ lastButtonState (final r) = false)
  /\ (300 < C32.wrap_ulong (now - lastButtonPress d) ->
      value r = true
      /\ lastButtonPress (final r)
         = C32.wrap_ulong (millis_at env (S (clk d)))
      /\ lastPollTime (final r) = 0
      /\ draws (emitted r) = 1%nat).
Proof.
  intros Hlast now r. subst r. rewrite loop_button_eq.
  unfold button_pressed. rewrite Hlast. cbn [negb andb]. fold now.
  split; intros Hcmp.
  - replace (300 <? _) with false by (symmetry; apply Z.ltb_ge; exact Hcmp).
    cbn. repeat split.
  - replace (300 <? _) with true by (symmetry; apply Z.ltb_lt; exact Hcmp).
    cbn [value final emitted].
    split; [reflexivity|]. split.
    + cbn. rewrite (proj1 (proj2 (proj2 (toggleMode_fields env _)))).
      reflexivity.
    + split; [reflexivity|]. apply toggleMode_counts.
Qed.

(** Eleven seconds after boot a press is taken; with the last press only
    0.2 s back on the clock a press is dropped. *)
Lemma button_debounce_witness :
  lastButtonState device0 = true
  /\ value (loop_button (frozen_env 11000) false device0) = true
  /\ value (loop_button (frozen_env 11000) false
              (set_lastButtonPress 10800 device0)) = false.
Proof.
  split; [reflexivity|]. split.
  - apply (proj2 (button_debounce (frozen_env 11000) device0 eq_refl)).
    vm_compute. reflexivity.
  - apply (proj1 (button_debounce (frozen_env 11000)
                    (set_lastButtonPress 10800 device0) eq_refl)).
    vm_compute. discriminate.
Defined.

(** X14: the button is served before the WiFi test.  With WiFi down a
    press still toggles the mode: [loop] sends the mode report and the
    bitmap requests of the toggle and draws one screen, and it issues no
    poll. *)
Theorem button_served_without_wifi env d :
  wifiConnected d = false ->
  button_pressed env false d = true ->
  let r := loop env false d in
  polls (emitted r) = 0%nat
  /\ (1 <= fetches (emitted r) <= 2)%nat
  /\ set_modes (emitted r) <> []
  /\ draws (emitted r) = 1%nat
  /\ wifiConnected (final r) = false.
Proof.
  intros Hw Hb r. subst r.
  unfold loop. rewrite run_bind. cbv beta.
  rewrite loop_button_eq, Hb. cbn [value final emitted prepend].
  rewrite loop_poll_eq.
  cbn [wifiConnected set_lastButtonState set_lastPollTime].
  rewrite (proj1 (toggleMode_fields env _)).
  cbn [wifiConnected set_lastButtonPress bump_clk]. rewrite Hw.
  cbn [negb final emitted]. rewrite app_nil_r.
  destruct (toggleMode_counts env
              (set_lastButtonPress (C32.wrap_ulong (millis_at env (S (clk d))))
                 (bump_clk (bump_clk d)))) as (Hd & Hf & Hs).
  split; [apply toggleMode_no_poll|].
  split; [exact Hf|]. split; [exact Hs|]. split; [exact Hd|].
  cbn. rewrite (proj1 (toggleMode_fields env _)). cbn. exact Hw.
Qed.

Lemma button_served_without_wifi_witness :
  let env := frozen_env 11000 in
  (wifiConnected boot_device = false
   /\ button_pressed env false boot_device = true)
  /\ draws (emitted (loop env false boot_device)) = 1%nat.
Proof.
  intros env.
  assert (Hb : button_pressed env false boot_device = true)
    by (vm_compute; reflexivity).
  split; [exact (conj eq_refl Hb)|].
  apply (button_served_without_wifi env boot_device eq_refl Hb).
Defined.

Lemma loop_idle_eq env d :
  loop env true d = loop_poll env (set_lastButtonState true d).
Proof.
  unfold loop. rewrite run_bind. cbv beta.
  rewrite loop_button_eq. unfold button_pressed. cbn [negb andb].
  cbn [value final emitted]. apply prepend_nil.
Qed.

(** X15: the poll interval is measured from the end of a poll.  When an
    iteration polls, [lastPollTime] becomes the clock reading taken after
    the poll and its refresh have returned; the next iteration (button
    untouched) polls exactly when the clock has moved on from that
    reading by more than the interval the poll has just stored. *)
Theorem loop_measures_interval_from_end_of_poll env d :
  wifiConnected d = true ->
  poll_due (C32.wrap_ulong (millis_at env (clk d))) d = true ->
  let r1 := loop env true d in
  let t1 := C32.wrap_ulong (millis_at env (S (clk d))) in
  let t2 := C32.wrap_ulong (millis_at env (S (S (clk d)))) in
  polls (emitted r1) = 1%nat
  /\ lastPollTime (final r1) = t1
  /\ polls (emitted (loop env true (final r1)))
     = (if pollIntervalMs (final r1) <? C32.wrap_ulong (t2 - t1)
        then 1%nat else 0%nat).
Proof.
  intros Hw Hdue r1 t1 t2. subst r1.
  rewrite !loop_idle_eq. rewrite (loop_poll_eq env (set_lastButtonState true d)).
  cbn [wifiConnected clk set_lastButtonState]. rewrite Hw. cbn [negb].
  change (poll_due ?n (set_lastButtonState true d)) with (poll_due n d).
  rewrite Hdue. cbn [final emitted].
  set (p := pollServerForInstructions env
              (bump_clk (set_lastButtonState true d))).
  destruct (poll_frame env (bump_clk (set_lastButtonState true d)))
    as (Hpw & _ & _ & _ & Hpc & _).
  fold p in Hpw, Hpc. cbn in Hpw, Hpc.
  split; [apply poll_polls_once|]. split; [reflexivity|].
  rewrite loop_poll_eq.
  cbn [wifiConnected clk set_lastButtonState set_lastPollTime bump_clk].
  rewrite Hpw, Hw, Hpc. cbn [negb]. fold t1 t2.
  unfold poll_due at 1.
  cbn [lastPollTime set_lastButtonState set_lastPollTime].
  change (pollIntervalMs (set_lastButtonState true
            (set_lastPollTime t1 (bump_clk (final p)))))
    with (pollIntervalMs (set_lastPollTime t1 (bump_clk (final p)))).
  destruct (_ <? _); cbn [emitted]; [apply poll_polls_once|reflexivity].
Qed.

(** A clock that advances one second per reading, from 100 s on: the
    first iteration polls, the second (one second later) does not. *)
Lemma loop_measures_interval_from_end_of_poll_witness :
  let env := fixed_env 100000 (reply_status 404) (reply_status 500)
               (mkPollReply 200 (Some doc_A)) in
  (wifiConnected device0 = true
   /\ poll_due (C32.wrap_ulong (millis_at env (clk device0))) device0 = true)
  /\ lastPollTime (final (loop env true device0)) = 101000
  /\ polls (emitted (loop env true (final (loop env true device0)))) = 0%nat.
Proof.
  intros env.
  assert (Hdue : poll_due (C32.wrap_ulong (millis_at env (clk device0)))
                   device0 = true) by (vm_compute; reflexivity).
  split; [exact (conj eq_refl Hdue)|].
  destruct (loop_measures_interval_from_end_of_poll env device0 eq_refl Hdue)
    as (_ & Ht & Hp).
  split; [rewrite Ht; vm_compute; reflexivity|].
  rewrite Hp. vm_compute. reflexivity.
Defined.

(** ** [hasImage] and [totalImages] *)

Lemma advance_fields env d :
  hasImage d = true -> hasImage (final (advanceImage env d)) = true.
Proof.
  intros H. rewrite advanceImage_eq.
  destruct (totalImages d <=? 1); [exact H|]. cbn. now rewrite H.
Qed.

(** X16: [hasImage] is set by a call of [fetchBitmap] that returns
    [true] and by nothing else, and nothing clears it: once a frame has
    been received it stays set through every later fetch, toggle, poll,
    advance and loop iteration, failed or not. *)
Theorem hasImage_is_never_cleared env d index mode pin :
  hasImage (final (fetchBitmap env index mode d))
  = hasImage d || value (fetchBitmap env index mode d)
  /\ (hasImage d = true ->
      hasImage (final (toggleMode env d)) = true
      /\ hasImage (final (pollServerForInstructions env d)) = true
      /\ hasImage (final (advanceImage env d)) = true
      /\ hasImage (final (loop env pin d)) = true).
Proof.
  split; [rewrite fetchBitmap_eq; reflexivity|].
  intros H.
  split; [now apply toggleMode_fields|].
  split; [now apply poll_frame|].
  split; [now apply advance_fields|].
  unfold loop. rewrite run_bind. cbv beta. cbn [final prepend].
  assert (Hb : hasImage (final (loop_button env pin d)) = true).
  { rewrite loop_button_eq. destruct (button_pressed env pin d).
    - cbn. now apply toggleMode_fields.
    - destruct (negb pin && lastButtonState d); exact H. }
  rewrite loop_poll_eq.
  destruct (negb (wifiConnected _)); [exact Hb|].
  destruct (poll_due _ _); cbn; [|exact Hb].
  now apply poll_frame.
Qed.

(** X17: the [X-Image-Total] header of a 200 reply is stored in
    [totalImages] before the body is looked at: it is kept even when the
    declared size is wrong or the body ends short and the call returns
    [false]. *)
Theorem header_total_kept_on_failed_body env index mode d t :
  br_code (bitmap_reply env (net_seq d) index mode) = 200 ->
  br_total (bitmap_reply env (net_seq d) index mode) = Some t ->
  totalImages (final (fetchBitmap env index mode d)) = t.
Proof.
  intros Hc Ht. rewrite fetchBitmap_eq.
  cbn [final totalImages after_fetch]. unfold total_after.
  rewrite Hc, Ht. reflexivity.
Qed.

(** A 200 reply that declares 6000 bytes and announces nine images. *)
Lemma header_total_kept_on_failed_body_witness :
  let resp := mkBitmapResponse 200 6000 (Some 9) [] in
  let env := fixed_env 0 resp resp reply_no_poll in
  let r := fetchBitmap env 0 "photo" device0 in
  br_code (bitmap_reply env (net_seq device0) 0 "photo") = 200
  /\ value r = false
  /\ totalImages device0 = 0
  /\ totalImages (final r) = 9.
Proof.
  intros resp env r.
  split; [reflexivity|]. split; [vm_compute; reflexivity|].
  split; [reflexivity|].
  exact (header_total_kept_on_failed_body env 0 "photo" device0 9
           eq_refl eq_refl).
Defined.

(** ** The pixel loop of [drawImage] *)

Lemma in_loop_range n z : In z (loop_range n) <-> 0 <= z < n.
Proof.
  unfold loop_range. rewrite in_map_iff. split.
  - intros (k & <- & Hk). apply in_seq in Hk. lia.
  - intros Hz. exists (Z.to_nat z). split; [lia|]. apply in_seq. lia.
Qed.

Lemma loop_range_NoDup n : NoDup (loop_range n).
Proof.
  unfold loop_range. apply NoDup_map_NoDup_ForallPairs; [|apply seq_NoDup].
  intros a b _ _ H. lia.
Qed.

Lemma pixel_offset x y :
  0 <= x < DISPLAY_WIDTH -> 0 <= y < DISPLAY_HEIGHT ->
  byteIndex x y = 25 * y + x / 8 /\ bitIndex x y = 7 - x mod 8.
Proof.
  unfold byteIndex, bitIndex, DISPLAY_WIDTH, DISPLAY_HEIGHT. intros Hx Hy.
  rewrite Z.quot_div_nonneg, Z.rem_mod_nonneg by lia.
  replace (y * 200 + x) with (x + 25 * y * 8) by lia.
  rewrite Z.div_add, Z_mod_plus_full by lia. lia.
Qed.

Lemma pixel_bounds x y :
  0 <= x < DISPLAY_WIDTH -> 0 <= y < DISPLAY_HEIGHT ->
  0 <= byteIndex x y < expectedSize
  /\ 0 <= bitIndex x y <= 7
  /\ byteIndex x y = 25 * y + x / 8
  /\ bitIndex x y = 7 - x mod 8.
Proof.
  intros Hx Hy. destruct (pixel_offset x y Hx Hy) as [Hb Hi].
  rewrite Hb, Hi. rewrite expectedSize_val.
  unfold DISPLAY_WIDTH, DISPLAY_HEIGHT in *.
  pose proof (Z.mod_pos_bound x 8 ltac:(lia)).
  pose proof (Z.div_pos x 8 ltac:(lia) ltac:(lia)).
  assert (x / 8 < 25) by (apply Z.div_lt_upper_bound; lia).
  repeat split; lia.
Qed.

(** X18: for every pixel of the 200 x 200 display, the byte the pixel
    loop of [drawImage] reads lies inside the 5000-byte [imageBuffer] and
    the shift count lies between 0 and 7.  Rows are 25 whole bytes, and
    within a byte the leftmost pixel is the most significant bit. *)
Theorem pixel_addressing_in_bounds x y :
  0 <= x < DISPLAY_WIDTH -> 0 <= y < DISPLAY_HEIGHT ->
  0 <= byteIndex x y < expectedSize
  /\ 0 <= bitIndex x y <= 7
  /\ byteIndex x y = 25 * y + x / 8
  /\ bitIndex x y = 7 - x mod 8.
Proof. exact (pixel_bounds x y). Qed.

(** The last pixel of the display. *)
Lemma pixel_addressing_in_bounds_witness :
  (0 <= 199 < DISPLAY_WIDTH /\ 0 <= 199 < DISPLAY_HEIGHT)
  /\ byteIndex 199 199 = 4999 /\ bitIndex 199 199 = 0.
Proof.
  assert (Hx : 0 <= 199 < DISPLAY_WIDTH) by (unfold DISPLAY_WIDTH; lia).
  assert (Hy : 0 <= 199 < DISPLAY_HEIGHT) by (unfold DISPLAY_HEIGHT; lia).
  split; [exact (conj Hx Hy)|].
  destruct (pixel_addressing_in_bounds 199 199 Hx Hy) as (_ & _ & Hb & Hi).
  rewrite Hb, Hi. split; reflexivity.
Defined.

(** X19: the pixel loop uses every bit of the buffer for exactly one
    pixel: two pixels of the display that read the same bit of the same
    byte are the same pixel, and every bit of every one of the 5000 bytes
    is read by some pixel. *)
Theorem pixels_and_bits_correspond :
  (forall x y x' y',
      0 <= x < DISPLAY_WIDTH -> 0 <= y < DISPLAY_HEIGHT ->
      0 <= x' < DISPLAY_WIDTH -> 0 <= y' < DISPLAY_HEIGHT ->
      byteIndex x y = byteIndex x' y' -> bitIndex x y = bitIndex x' y' ->
      x = x' /\ y = y')
  /\ (forall k j,
        0 <= k < expectedSize -> 0 <= j <= 7 ->
        exists x y,
          0 <= x < DISPLAY_WIDTH /\ 0 <= y < DISPLAY_HEIGHT
          /\ byteIndex x y = k /\ bitIndex x y = j).
Proof.
  split.
  - intros x y x' y' Hx Hy Hx' Hy' Hb Hi.
    destruct (pixel_offset x y Hx Hy) as [E1 E2].
    destruct (pixel_offset x' y' Hx' Hy') as [E1' E2'].
    rewrite E1, E1' in Hb. rewrite E2, E2' in Hi.
    unfold DISPLAY_WIDTH, DISPLAY_HEIGHT in *.
    pose proof (Z.div_mod x 8 ltac:(lia)).
    pose proof (Z.div_mod x' 8 ltac:(lia)).
    pose proof (Z.mod_pos_bound x 8 ltac:(lia)).
    pose proof (Z.mod_pos_bound x' 8 ltac:(lia)).
    assert (0 <= x / 8 < 25)
      by (split; [apply Z.div_pos|apply Z.div_lt_upper_bound]; lia).
    assert (0 <= x' / 8 < 25)
      by (split; [apply Z.div_pos|apply Z.div_lt_upper_bound]; lia).
    lia.
  - intros k j Hk Hj. rewrite expectedSize_val in Hk.
    pose proof (Z.div_mod k 25 ltac:(lia)).
    pose proof (Z.mod_pos_bound k 25 ltac:(lia)).
    assert (0 <= k / 25 < 200)
      by (split; [apply Z.div_pos|apply Z.div_lt_upper_bound]; lia).
    exists (8 * (k mod 25) + (7 - j)), (k / 25).
    assert (Hx : 0 <= 8 * (k mod 25) + (7 - j) < DISPLAY_WIDTH)
      by (unfold DISPLAY_WIDTH; lia).
    assert (Hy : 0 <= k / 25 < DISPLAY_HEIGHT)
      by (unfold DISPLAY_HEIGHT; lia).
    split; [exact Hx|]. split; [exact Hy|].
    destruct (pixel_offset _ _ Hx Hy) as [E1 E2]. rewrite E1, E2.
    replace (8 * (k mod 25) + (7 - j)) with ((7 - j) + (k mod 25) * 8) by lia.
    rewrite Z.div_add, Z_mod_plus_full by lia.
    rewrite (Z.div_small (7 - j) 8), (Z.mod_small (7 - j) 8) by lia. lia.
Qed.

Lemma isWhite_testbit buf x y :
  0 <= bitIndex x y ->
  isWhite buf x y
  = Z.testbit (byte_value (buffer_at buf (byteIndex x y))) (bitIndex x y).
Proof.
  intros Hi. unfold isWhite.
  set (v := byte_value _). set (i := bitIndex x y) in *.
  change 1 with (Z.ones 1). rewrite Z.land_ones by lia.
  change (2 ^ 1) with 2. rewrite <- Z.bit0_mod.
  rewrite Z.shiftr_spec by lia. cbn [Z.add].
  destruct (Z.testbit v i); reflexivity.
Qed.

Lemma NoDup_flat_map_disjoint {A B} (f : A -> list B) l :
  NoDup l ->
  (forall a, NoDup (f a)) ->
  (forall a b x, In x (f a) -> In x (f b) -> a = b) ->
  NoDup (flat_map f l).
Proof.
  intros Hl Hf Hdis. induction Hl as [|a l Ha Hl IH]; cbn; [constructor|].
  apply NoDup_app; [apply Hf|exact IH|].
  intros x Hx Hin. apply in_flat_map in Hin as (b & Hb & Hxb).
  rewrite (Hdis a b x Hx Hxb) in Ha. contradiction.
Qed.

(** X20: what [drawImage] paints.  One pass of its loops paints a pixel
    black exactly when the pixel is on the display and its bit in the
    buffer is 0 (bit [7 - x mod 8] of byte [25 y + x / 8]); bits that are 1
    are left white; no pixel is painted twice. *)
Theorem drawImage_paints_zero_bits buf :
  (forall x y,
      In (x, y) (drawImage_pixels buf) <->
      0 <= x < DISPLAY_WIDTH /\ 0 <= y < DISPLAY_HEIGHT
      /\ Z.testbit (byte_value (buffer_at buf (25 * y + x / 8)))
           (7 - x mod 8) = false)
  /\ NoDup (drawImage_pixels buf).
Proof.
  split.
  - intros x y. unfold drawImage_pixels. rewrite in_flat_map. split.
    + intros (y0 & Hy0 & Hin). apply in_flat_map in Hin as (x0 & Hx0 & Hin).
      apply in_loop_range in Hy0, Hx0.
      destruct (isWhite buf x0 y0) eqn:Hw; [contradiction|].
      destruct Hin as [E|[]]. injection E as <- <-.
      destruct (pixel_bounds x0 y0 Hx0 Hy0)
        as (_ & Hi & Eb & Ei).
      rewrite isWhite_testbit in Hw by lia. rewrite Eb, Ei in Hw.
      repeat split; try apply Hx0; try apply Hy0. exact Hw.
    + intros (Hx & Hy & Hbit). exists y. split; [now apply in_loop_range|].
      apply in_flat_map. exists x. split; [now apply in_loop_range|].
      destruct (pixel_bounds x y Hx Hy) as (_ & Hi & Eb & Ei).
      rewrite isWhite_testbit by lia. rewrite Eb, Ei, Hbit. now left.
  - unfold drawImage_pixels.
    apply NoDup_flat_map_disjoint; [apply loop_range_NoDup| |].
    + intros y. apply NoDup_flat_map_disjoint; [apply loop_range_NoDup| |].
      * intros x. destruct (isWhite buf x y); constructor;
          [intros []|constructor].
      * intros a b p Ha Hb.
        destruct (isWhite buf a y); [contradiction|].
        destruct (isWhite buf b y); [contradiction|].
        destruct Ha as [<-|[]]. destruct Hb as [E|[]]. congruence.
    + intros a b p Ha Hb.
      apply in_flat_map in Ha as (xa & _ & Ha).
      apply in_flat_map in Hb as (xb & _ & Hb).
      destruct (isWhite buf xa a); [contradiction|].
      destruct (isWhite buf xb b); [contradiction|].
      destruct Ha as [<-|[]]. destruct Hb as [E|[]]. congruence.
Qed.

(** ** The uptime line of [drawDashboard] *)

Lemma string_length_append s t :
  String.length (String.append s t) = (String.length s + String.length t)%nat.
Proof. induction s as [|c s IH]; cbn; [reflexivity|now rewrite IH]. Qed.

Lemma fmt_02d_hours_width n :
  0 <= n <= 1193 -> (2 <= String.length (fmt_02d n) <= 4)%nat.
Proof.
  intros Hn.
  assert (Hall : forallb (fun k => let w := String.length (fmt_02d (Z.of_nat k))
                                   in Nat.leb 2 w && Nat.leb w 4)
                   (seq 0 1194) = true) by (vm_compute; reflexivity).
  rewrite forallb_forall in Hall.
  specialize (Hall (Z.to_nat n)). rewrite Z2Nat.id in Hall by lia.
  cbv zeta in Hall.
  apply andb_prop in Hall as [H1 H2]; [|apply in_seq; lia].
  apply Nat.leb_le in H1, H2. lia.
Qed.

Lemma fmt_02d_minutes_width n :
  0 <= n <= 59 -> String.length (fmt_02d n) = 2%nat.
Proof.
  intros Hn.
  assert (Hall : forallb (fun k => Nat.eqb
                                     (String.length (fmt_02d (Z.of_nat k))) 2)
                   (seq 0 60) = true) by (vm_compute; reflexivity).
  rewrite forallb_forall in Hall.
  specialize (Hall (Z.to_nat n)). rewrite Z2Nat.id in Hall by lia.
  apply Nat.eqb_eq, Hall, in_seq. lia.
Qed.

(** X21: the uptime line fits its buffer.  For every reading of the
    32-bit millisecond clock the hours are at most 1193 and the minutes at
    most 59, together they are the whole minutes of the reading, and the
    text written into [char uptimeStr[20]] is 9 to 11 characters long, so
    that text and terminator take at most 12 of the 20 bytes. *)
Theorem uptime_line_fits ms :
  0 <= ms < 2 ^ 32 ->
  0 <= uptime_hrs ms <= 1193
  /\ 0 <= uptime_mins ms <= 59
  /\ uptime_hrs ms * 60 + uptime_mins ms = ms / 60000
  /\ (9 <= String.length (uptimeStr ms) <= 11)%nat
  /\ (String.length (uptimeStr ms) + 1 <= 20)%nat.
Proof.
  intros Hms.
  set (secs := ms / 1000).
  assert (Hsecs : 0 <= secs <= 4294967).
  { subst secs. split; [apply Z.div_pos; lia|].
    apply Z.lt_succ_r, Z.div_lt_upper_bound; lia. }
  assert (Hh : 0 <= secs / 3600 <= 1193).
  { split; [apply Z.div_pos; lia|].
    apply Z.lt_succ_r, Z.div_lt_upper_bound; lia. }
  pose proof (Z.mod_pos_bound secs 3600 ltac:(lia)) as Hm.
  assert (Hmin : 0 <= (secs mod 3600) / 60 <= 59).
  { split; [apply Z.div_pos; lia|].
    apply Z.lt_succ_r, Z.div_lt_upper_bound; lia. }
  assert (Eh : uptime_hrs ms = secs / 3600).
  { unfold uptime_hrs. fold secs. apply wrap_int_id. lia. }
  assert (Em : uptime_mins ms = (secs mod 3600) / 60).
  { unfold uptime_mins. fold secs. apply wrap_int_id. lia. }
  assert (Hlen : String.length (uptimeStr ms)
                 = (4 + (String.length (fmt_02d (uptime_hrs ms))
                         + (1 + String.length (fmt_02d (uptime_mins ms)))))%nat).
  { unfold uptimeStr. now rewrite !string_length_append. }
  pose proof (fmt_02d_hours_width (uptime_hrs ms) ltac:(lia)) as Wh.
  pose proof (fmt_02d_minutes_width (uptime_mins ms) ltac:(lia)) as Wm.
  rewrite Eh, Em in *.
  split; [exact Hh|]. split; [exact Hmin|]. split; [|lia].
  replace (ms / 60000) with (secs / 60)
    by (subst secs; rewrite Z.div_div by lia; reflexivity).
  pose proof (Z.div_mod secs 3600 ltac:(lia)) as D1.
  pose proof (Z.div_mod (secs mod 3600) 60 ltac:(lia)) as D2.
  pose proof (Z.mod_pos_bound (secs mod 3600) 60 ltac:(lia)) as D3.
  apply Z.div_unique with (r := (secs mod 3600) mod 60); lia.
Qed.

(** One hour, one minute and five seconds after boot. *)
Lemma uptime_line_fits_witness :
  0 <= 3665000 < 2 ^ 32
  /\ uptimeStr 3665000 = "Up: 01:01"
  /\ (String.length (uptimeStr 3665000) + 1 <= 20)%nat.
Proof.
  assert (H : 0 <= 3665000 < 2 ^ 32) by lia.
  split; [exact H|]. split; [vm_compute; reflexivity|].
  apply (uptime_line_fits 3665000 H).
Defined.

(** ** Start-up *)

Lemma bres_eta {A} (r : BRes A) :
  mkBRes (bvalue r) (bfinal r) (bemitted r) = r.
Proof. now destruct r. Qed.

Lemma brun_bind {A C} (c : B A) (k : A -> B C) b :
  bbind c k b = bprepend (bemitted (c b)) (k (bvalue (c b)) (bfinal (c b))).
Proof. reflexivity. Qed.

Lemma bprepend_nil {A} (r : BRes A) : bprepend [] r = r.
Proof. unfold bprepend. cbn. apply bres_eta. Qed.

Lemma bprepend_bprepend {A} es es' (r : BRes A) :
  bprepend es (bprepend es' r) = bprepend (es ++ es') r.
Proof. unfold bprepend. cbn. now rewrite app_assoc. Qed.

Lemma bprepend_mkBRes {A} es (a : A) b es' :
  bprepend es (mkBRes a b es') = mkBRes a b (es ++ es').
Proof. reflexivity. Qed.

Lemma brun_ret {A C} (a : A) (k : A -> B C) b : bbind (bret a) k b = k a b.
Proof. rewrite brun_bind. apply bprepend_nil. Qed.

Lemma brun_modify {C} (f : Boot -> Boot) (k : unit -> B C) b :
  bbind (bmodify f) k b = k tt (f b).
Proof. rewrite brun_bind. apply bprepend_nil. Qed.

Lemma brun_emit {C} (e : BootEvent) (k : unit -> B C) b :
  bbind (bemit e) k b = bprepend [e] (k tt b).
Proof. reflexivity. Qed.

Lemma brun_lift_modify {C} (f : Device -> Device) (k : unit -> B C) b :
  bbind (lift (modify f)) k b = k tt (set_dev (f (dev b)) b).
Proof. rewrite brun_bind. apply bprepend_nil. Qed.

Lemma brun_lift {A C} (c : M A) (k : A -> B C) b :
  bbind (lift c) k b
  = bprepend (map Core (emitted (c (dev b))))
      (k (value (c (dev b))) (set_dev (final (c (dev b))) b)).
Proof. reflexivity. Qed.

Lemma brun_assoc {A C D} (c : B A) (k1 : A -> B C) (k2 : C -> B D) b :
  bbind (bbind c k1) k2 b = bbind c (fun x => bbind (k1 x) k2) b.
Proof. rewrite !brun_bind. cbn. now rewrite bprepend_bprepend. Qed.

Lemma brun_if {A C} (c : bool) (c1 c2 : B A) (k : A -> B C) b :
  bbind (if c then c1 else c2) k b
  = if c then bbind c1 k b else bbind c2 k b.
Proof. now destruct c. Qed.

Lemma bif_run {A} (c : bool) (c1 c2 : B A) b :
  (if c then c1 else c2) b = if c then c1 b else c2 b.
Proof. now destruct c. Qed.

#[local] Opaque bbind.

Ltac bstep :=
  first [ rewrite brun_assoc | rewrite brun_ret | rewrite brun_modify
        | rewrite brun_emit | rewrite brun_lift_modify ];
  cbv beta.

(** Whether [registerDevice] gives up after the health check. *)
Lemma registerDevice_eq benv b :
  registerDevice benv b
  = if health_code benv <? 0 then
      mkBRes tt (set_dev (bump_net (dev b)) b) [HttpGetHealth]
    else
      mkBRes tt (set_dev (bump_net (bump_net (dev b))) b)
        [HttpGetHealth; HttpPostRegister "154_BW" "1.0.0"].
Proof.
  unfold registerDevice. do 2 bstep. cbv zeta. rewrite brun_if.
  destruct (health_code benv =? 200) eqn:E200.
  - apply Z.eqb_eq in E200. rewrite E200. cbn [Z.ltb Z.compare].
    bstep. rewrite brun_emit. reflexivity.
  - rewrite brun_if. destruct (health_code benv <? 0).
    + bstep. reflexivity.
    + bstep. rewrite brun_emit. reflexivity.
Qed.

Lemma fetchDeviceSettings_eq benv b :
  fetchDeviceSettings benv b
  = match st_code (settings_reply benv) =? 200,
          st_doc (settings_reply benv) with
    | true, Some doc =>
        mkBRes tt
          (mkBoot
             (set_currentImageIndex (or_default (sd_currentIndex doc) 0)
                (set_totalImages (or_default (sd_total doc) 0)
                   (bump_net (dev b))))
             (rotate_interval (or_default (sd_rotateMinutes doc) 60)))
          [HttpGetImageInfo]
    | _, _ => mkBRes tt (set_dev (bump_net (dev b)) b) [HttpGetImageInfo]
    end.
Proof.
  unfold fetchDeviceSettings. do 2 bstep. cbv zeta. rewrite bif_run.
  destruct (st_code (settings_reply benv) =? 200); [|reflexivity].
  destruct (st_doc (settings_reply benv)) as [doc|]; [|reflexivity].
  do 2 bstep. reflexivity.
Qed.

Lemma millis_eq env d :
  millis env d = mkRes (C32.wrap_ulong (millis_at env (clk d))) (bump_clk d) [].
Proof. unfold millis. rewrite run_gets, run_modify. reflexivity. Qed.

Lemma setupWiFi_offline benv b :
  auto_connect benv = false ->
  setupWiFi benv b
  = mkBRes tt (set_dev (set_wifiConnected false (dev b)) b)
      [DrawSetupScreen; AutoConnect; DrawWiFiFailed].
Proof.
  intros Ha. unfold setupWiFi. rewrite !brun_emit, Ha. cbv beta.
  rewrite brun_lift_modify. reflexivity.
Qed.

Lemma setupWiFi_online benv b :
  auto_connect benv = true ->
  let b1 := set_dev (set_wifiConnected true (dev b)) b in
  let r2 := registerDevice benv b1 in
  let r3 := fetchDeviceSettings benv (bfinal r2) in
  let p := pollServerForInstructions (core_env benv) (dev (bfinal r3)) in
  let d4 := if value p then final p
            else set_currentMode MODE_DASHBOARD (final p) in
  setupWiFi benv b
  = mkBRes tt
      (set_dev
         (set_lastPollTime
            (C32.wrap_ulong (millis_at (core_env benv) (clk d4)))
            (bump_clk d4))
         (bfinal r3))
      ([DrawSetupScreen; AutoConnect; SetInsecure]
       ++ bemitted r2 ++ bemitted r3 ++ map Core (emitted p)
       ++ (if value p then [] else [Core DrawDashboard])).
Proof.
  intros Ha b1 r2 r3 p d4.
  unfold setupWiFi, setupSecureClient. rewrite !brun_emit, Ha. cbv beta.
  rewrite brun_lift_modify, brun_emit. fold b1.
  rewrite (brun_bind (registerDevice benv)). cbv beta. fold r2.
  rewrite (brun_bind (fetchDeviceSettings benv)). cbv beta. fold r3.
  rewrite brun_lift. fold p.
  rewrite brun_if. subst d4.
  destruct (value p); cbn [negb].
  - rewrite brun_ret, brun_lift, millis_eq. cbn [value final emitted map].
    unfold lift, modify, bprepend. cbn. reflexivity.
  - rewrite brun_assoc, brun_lift_modify.
    rewrite (brun_lift drawDashboard). rewrite drawDashboard_eq.
    cbn [value final emitted map].
    rewrite brun_lift, millis_eq. cbn [value final emitted map].
    unfold lift, modify, bprepend. cbn. reflexivity.
Qed.

(** X22: [registerDevice] first checks the server's health and sends the
    registration unless that check failed in the transport (a negative
    code); any answer of the server, a 500 as well as a 200, is followed
    by the registration.  The display type sent is "154_BW", the firmware
    version "1.0.0".  No global of the sketch is changed. *)
Theorem registerDevice_registers_unless_unreachable benv b :
  let r := registerDevice benv b in
  bemitted r
  = HttpGetHealth
    :: (if health_code benv <? 0 then []
        else [HttpPostRegister "154_BW" "1.0.0"])
  /\ imageRotateInterval (bfinal r) = imageRotateInterval b
  /\ dev (bfinal r)
     = set_net_seq
         ((if health_code benv <? 0 then 1 else 2) + net_seq (dev b))
         (dev b).
Proof.
  cbv zeta. rewrite registerDevice_eq.
  destruct (health_code benv <? 0); cbn; repeat split.
Qed.

(** X23: [fetchDeviceSettings] changes nothing when the status is not 200
    or the payload does not parse.  Otherwise it stores the document's
    [total] and [currentIndex], 0 for a missing member, and the rotation
    interval computed from [rotateMinutes], 60 when missing; the mode, the
    poll schedule and the buffer are never touched. *)
Theorem fetchDeviceSettings_effects benv b :
  let r := fetchDeviceSettings benv b in
  let d' := dev (bfinal r) in
  bemitted r = [HttpGetImageInfo]
  /\ currentMode d' = currentMode (dev b)
  /\ nextPollSeconds d' = nextPollSeconds (dev b)
  /\ serverRefreshVersion d' = serverRefreshVersion (dev b)
  /\ imageBuffer d' = imageBuffer (dev b)
  /\ (st_code (settings_reply benv) <> 200
      \/ st_doc (settings_reply benv) = None ->
      totalImages d' = totalImages (dev b)
      /\ currentImageIndex d' = currentImageIndex (dev b)
      /\ imageRotateInterval (bfinal r) = imageRotateInterval b)
  /\ (forall doc,
        st_code (settings_reply benv) = 200 ->
        st_doc (settings_reply benv) = Some doc ->
        totalImages d' = or_default (sd_total doc) 0
        /\ currentImageIndex d' = or_default (sd_currentIndex doc) 0
        /\ imageRotateInterval (bfinal r)
           = rotate_interval (or_default (sd_rotateMinutes doc) 60)).
Proof.
  cbv zeta. rewrite fetchDeviceSettings_eq.
  destruct (st_code (settings_reply benv) =? 200) eqn:Hc;
    [apply Z.eqb_eq in Hc|apply Z.eqb_neq in Hc];
    destruct (st_doc (settings_reply benv)) as [doc|] eqn:Hd;
    cbn [bemitted bfinal dev set_dev imageRotateInterval currentMode
         nextPollSeconds serverRefreshVersion imageBuffer totalImages
         currentImageIndex set_currentImageIndex set_totalImages bump_net];
    (split; [reflexivity|]); (split; [reflexivity|]);
    (split; [reflexivity|]); (split; [reflexivity|]);
    (split; [reflexivity|]); split.
  - intros [H|H]; [contradiction|discriminate].
  - intros doc' _ H. injection H as <-. repeat split.
  - intros _. repeat split.
  - intros doc' _ H. discriminate.
  - intros _. repeat split.
  - intros doc' H. contradiction.
  - intros _. repeat split.
  - intros doc' H. contradiction.
Qed.

(** X24: the rotation interval is [rotateMinutes * 60000] milliseconds as
    long as that fits 32 bits, that is up to 71582 minutes (49 days); the
    default of 60 minutes gives the 3600000 ms of the initialiser.  One
    minute more and the product wraps round to 12704 ms. *)
Theorem rotate_interval_exact m :
  0 <= m <= 71582 ->
  rotate_interval m = m * 60000
  /\ rotate_interval m < 2 ^ 32
  /\ rotate_interval 60 = imageRotateInterval boot_state
  /\ rotate_interval 71583 = 12704.
Proof.
  intros Hm. unfold rotate_interval.
  rewrite wrap_int_id by lia.
  rewrite (wrap_ulong_id (m * 60)) by lia.
  rewrite wrap_ulong_id by lia.
  repeat split; try lia; reflexivity.
Qed.

Lemma rotate_interval_exact_witness :
  0 <= 120 <= 71582 /\ rotate_interval 120 = 7200000.
Proof.
  assert (H : 0 <= 120 <= 71582) by lia.
  split; [exact H|]. exact (proj1 (rotate_interval_exact 120 H)).
Defined.

Lemma setup_eq benv b :
  boot_pin benv = true ->
  setup benv b = bprepend [InitDisplay; DrawTestScreen] (setupWiFi benv b).
Proof.
  intros Hp. unfold setup. rewrite Hp. cbn [negb].
  rewrite !brun_emit. cbv beta. now rewrite bprepend_bprepend.
Qed.

Lemma loop_idle_offline env d :
  wifiConnected d = false ->
  loop env true d = mkRes tt (set_lastButtonState true d) [].
Proof.
  intros Hw. rewrite loop_idle_eq, loop_poll_eq.
  cbn [wifiConnected set_lastButtonState]. rewrite Hw. reflexivity.
Qed.

(** X25: when [autoConnect] fails, [setup] ends with WiFi marked as down
    and without a single request having been sent: the screens drawn are
    the test screen, the setup screen and the failure screen.  From then
    on an iteration of [loop] with the button up does nothing at all. *)
Theorem setup_without_wifi benv b :
  boot_pin benv = true ->
  auto_connect benv = false ->
  let r := setup benv b in
  bemitted r = [InitDisplay; DrawTestScreen; DrawSetupScreen; AutoConnect;
                DrawWiFiFailed]
  /\ filter is_request (bemitted r) = []
  /\ wifiConnected (dev (bfinal r)) = false
  /\ forall env,
       emitted (loop env true (dev (bfinal r))) = []
       /\ wifiConnected (final (loop env true (dev (bfinal r)))) = false.
Proof.
  intros Hp Ha r. subst r.
  rewrite (setup_eq benv b Hp), (setupWiFi_offline benv b Ha).
  cbn [bprepend bvalue bfinal bemitted app dev set_dev filter is_request].
  repeat split; rewrite loop_idle_offline by reflexivity; reflexivity.
Qed.

Lemma setup_without_wifi_witness :
  let benv := boot_env photo_env true false 200 settings_seven in
  (boot_pin benv = true /\ auto_connect benv = false)
  /\ wifiConnected (dev (bfinal (setup benv boot_state))) = false.
Proof.
  intros benv. split; [split; reflexivity|].
  apply (setup_without_wifi benv boot_state eq_refl eq_refl).
Defined.

Lemma core_events_app es es' :
  core_events (es ++ es') = core_events es ++ core_events es'.
Proof.
  induction es as [|e es IH]; [reflexivity|].
  destruct e; cbn; now rewrite IH.
Qed.

Lemma core_events_map es : core_events (map Core es) = es.
Proof. induction es as [|e es IH]; cbn; [reflexivity|now rewrite IH]. Qed.

Lemma draws_app es es' : draws (es ++ es') = (draws es + draws es')%nat.
Proof. unfold draws. now rewrite filter_app, length_app. Qed.

Lemma fetches_app es es' : fetches (es ++ es') = (fetches es + fetches es')%nat.
Proof. unfold fetches. now rewrite filter_app, length_app. Qed.

Lemma register_events_eq benv b :
  bemitted (registerDevice benv b) = register_events benv
  /\ core_events (register_events benv) = []
  /\ hd_error (register_events benv) = Some HttpGetHealth.
Proof.
  rewrite registerDevice_eq. unfold register_events.
  destruct (health_code benv <? 0); repeat split.
Qed.

Lemma state_at_initial_poll_fields benv b :
  let d3 := state_at_initial_poll benv b in
  wifiConnected d3 = true
  /\ clk d3 = clk (dev b)
  /\ currentMode d3 = currentMode (dev b)
  /\ bemitted (fetchDeviceSettings benv
                 (bfinal (registerDevice benv
                            (set_dev (set_wifiConnected true (dev b)) b))))
     = [HttpGetImageInfo].
Proof.
  cbv zeta. unfold state_at_initial_poll.
  rewrite fetchDeviceSettings_eq, registerDevice_eq.
  destruct (health_code benv <? 0);
    destruct (st_code (settings_reply benv) =? 200);
    destruct (st_doc (settings_reply benv)); cbn; repeat split.
Qed.

Lemma setup_online_eq benv b :
  boot_pin benv = true ->
  auto_connect benv = true ->
  let d3 := state_at_initial_poll benv b in
  let p := pollServerForInstructions (core_env benv) d3 in
  let d4 := if value p then final p
            else set_currentMode MODE_DASHBOARD (final p) in
  bemitted (setup benv b)
  = [InitDisplay; DrawTestScreen; DrawSetupScreen; AutoConnect; SetInsecure]
    ++ register_events benv ++ [HttpGetImageInfo] ++ map Core (emitted p)
    ++ (if value p then [] else [Core DrawDashboard])
  /\ dev (bfinal (setup benv b))
     = set_lastPollTime
         (C32.wrap_ulong (millis_at (core_env benv) (clk (dev b))))
         (bump_clk d4).
Proof.
  intros Hp Ha d3 p d4.
  rewrite (setup_eq benv b Hp), (setupWiFi_online benv b Ha).
  destruct (state_at_initial_poll_fields benv b) as (_ & Hclk & _ & He).
  fold d3 in Hclk.
  cbn [bprepend bvalue bfinal bemitted dev set_dev].
  rewrite (proj1 (register_events_eq benv _)), He.
  fold (state_at_initial_poll benv b). fold d3. fold p. fold d4.
  split; [reflexivity|].
  assert (Hc4 : clk d4 = clk (dev b)).
  { subst d4. destruct (poll_frame (core_env benv) d3)
      as (_ & _ & _ & _ & Hc & _). fold p in Hc.
    destruct (value p); cbn; rewrite Hc; exact Hclk. }
  now rewrite Hc4.
Qed.

(** X26: [setup] sends requests only when the BOOT button is up and
    [autoConnect] succeeds, and then the first one is the health check.
    With the button held at power-up it clears the WiFi settings and
    restarts: the display is not initialised, nothing is requested, no
    global changes. *)
Theorem setup_requests_only_when_online benv b :
  let r := setup benv b in
  (filter is_request (bemitted r) = [] <->
   boot_pin benv = false \/ auto_connect benv = false)
  /\ (boot_pin benv = true -> auto_connect benv = true ->
      hd_error (filter is_request (bemitted r)) = Some HttpGetHealth)
  /\ (boot_pin benv = false ->
      r = mkBRes tt b [ResetWiFiSettings; Restart]).
Proof.
  intros r. subst r.
  assert (Hheld : boot_pin benv = false ->
                  setup benv b = mkBRes tt b [ResetWiFiSettings; Restart]).
  { intros Hp. unfold setup. rewrite Hp. cbn [negb].
    rewrite brun_emit. reflexivity. }
  assert (Hon : boot_pin benv = true -> auto_connect benv = true ->
                hd_error (filter is_request (bemitted (setup benv b)))
                = Some HttpGetHealth).
  { intros Hp Ha.
    rewrite (proj1 (setup_online_eq benv b Hp Ha)).
    cbn [app filter is_request]. unfold register_events.
    destruct (health_code benv <? 0); reflexivity. }
  split; [|split; [exact Hon|exact Hheld]].
  destruct (boot_pin benv) eqn:Hp.
  - destruct (auto_connect benv) eqn:Ha.
    + split.
      * intros E. rewrite E in Hon. specialize (Hon eq_refl eq_refl).
        discriminate Hon.
      * intros [E|E]; discriminate E.
    + split; [auto|]. intros _.
      rewrite (setup_eq benv b Hp), (setupWiFi_offline benv b Ha).
      reflexivity.
  - split; [auto|]. intros _. now rewrite (Hheld eq_refl).
Qed.

(** X27: with the button up and WiFi connected, [setup] runs the health
    check and the registration, then fetches the settings, then polls;
    the display is drawn exactly once after the setup screen, by the
    refresh of the poll or else as the local dashboard.  At the end WiFi
    is marked as up and [lastPollTime] is the clock reading taken after
    all of this. *)
Theorem setup_with_wifi benv b :
  boot_pin benv = true ->
  auto_connect benv = true ->
  let r := setup benv b in
  let p := pollServerForInstructions (core_env benv)
             (state_at_initial_poll benv b) in
  bemitted r
  = [InitDisplay; DrawTestScreen; DrawSetupScreen; AutoConnect; SetInsecure]
    ++ register_events benv ++ [HttpGetImageInfo] ++ map Core (emitted p)
    ++ (if value p then [] else [Core DrawDashboard])
  /\ wifiConnected (dev (bfinal r)) = true
  /\ lastPollTime (dev (bfinal r))
     = C32.wrap_ulong (millis_at (core_env benv) (clk (dev b)))
  /\ draws (core_events (bemitted r)) = 1%nat
  /\ polls (core_events (bemitted r)) = 1%nat.
Proof.
  intros Hp Ha r p. subst r.
  destruct (setup_online_eq benv b Hp Ha) as [He Hd]. fold p in He, Hd.
  destruct (state_at_initial_poll_fields benv b) as (Hw & _).
  destruct (poll_frame (core_env benv) (state_at_initial_poll benv b))
    as (Hpw & _). fold p in Hpw.
  destruct (poll_counts (core_env benv) (state_at_initial_poll benv b))
    as (_ & Hcnt). fold p in Hcnt.
  pose proof (poll_polls_once (core_env benv)
                (state_at_initial_poll benv b)) as Hpolls.
  fold p in Hpolls.
  split; [exact He|]. rewrite Hd, He.
  split; [destruct (value p); cbn; rewrite Hpw; exact Hw|].
  split; [reflexivity|].
  rewrite !core_events_app, core_events_map.
  rewrite (proj1 (proj2 (register_events_eq benv b))).
  cbn [core_events app].
  rewrite draws_app, polls_app, Hpolls.
  destruct (value p); cbn [core_events];
    destruct Hcnt as [_ Hdr]; rewrite Hdr; split; reflexivity.
Qed.

Lemma setup_with_wifi_witness :
  let benv := boot_env
                (fixed_env 5000 (reply_frame xff) (reply_frame x00)
                   (mkPollReply 200 (Some doc_B)))
                true true 200 settings_seven in
  (boot_pin benv = true /\ auto_connect benv = true)
  /\ lastPollTime (dev (bfinal (setup benv boot_state))) = 5000
  /\ core_events (bemitted (setup benv boot_state))
     = [HttpGetPoll 0 "dashboard" 3; HttpGetBitmap 2 "photo";
        DrawImage (repeat xff 5000)].
Proof.
  intros benv. split; [split; reflexivity|].
  destruct (setup_with_wifi benv boot_state eq_refl eq_refl)
    as (_ & _ & Ht & _).
  split; [rewrite Ht; reflexivity|]. vm_compute. reflexivity.
Defined.

Lemma poll_adopted_fields env d doc :
  pr_code (reply_to_poll env d) = 200 ->
  pr_doc (reply_to_poll env d) = Some doc ->
  let r := pollServerForInstructions env d in
  serverRefreshVersion (final r) = or_default (pd_v doc) 0
  /\ nextPollSeconds (final r) = or_default (pd_n doc) 30
  /\ currentImageIndex (final r) = or_default (pd_i doc) 0.
Proof.
  intros Hc Hd r. subst r.
  rewrite (poll_merged env d doc Hc Hd).
  destruct (wants_refresh doc d); [|cbn; repeat split; reflexivity].
  cbn [final prepend].
  destruct (refresh_result_fields env (doc_mode doc) (after_merge doc d))
    as (_ & H1 & H2 & H3 & _).
  rewrite H1, H2, H3. cbn. repeat split; reflexivity.
Qed.

(** X28: the poll has the last word at start-up.  When the first poll is
    answered with a well-formed document, the image index, the poll
    interval and the refresh version with which [setup] ends are those of
    the poll document, whatever [image-info] announced just before. *)
Theorem setup_poll_overrides_settings benv b doc :
  boot_pin benv = true ->
  auto_connect benv = true ->
  pr_code (reply_to_poll (core_env benv) (state_at_initial_poll benv b))
  = 200 ->
  pr_doc (reply_to_poll (core_env benv) (state_at_initial_poll benv b))
  = Some doc ->
  let d' := dev (bfinal (setup benv b)) in
  currentImageIndex d' = or_default (pd_i doc) 0
  /\ nextPollSeconds d' = or_default (pd_n doc) 30
  /\ serverRefreshVersion d' = or_default (pd_v doc) 0.
Proof.
  intros Hp Ha Hc Hd d'. subst d'.
  rewrite (proj2 (setup_online_eq benv b Hp Ha)).
  destruct (poll_adopted_fields (core_env benv)
              (state_at_initial_poll benv b) doc Hc Hd) as (Hv & Hn & Hi).
  destruct (value _); cbn; rewrite Hv, Hn, Hi; repeat split.
Qed.

(** [image-info] says index 3 of seven, the poll says index 2 of five. *)
Lemma setup_poll_overrides_settings_witness :
  let benv := boot_env
                (fixed_env 5000 (reply_frame xff) (reply_frame x00)
                   (mkPollReply 200 (Some doc_B)))
                true true 200 settings_seven in
  (boot_pin benv = true /\ auto_connect benv = true
   /\ currentImageIndex (state_at_initial_poll benv boot_state) = 3)
  /\ currentImageIndex (dev (bfinal (setup benv boot_state))) = 2.
Proof.
  intros benv. split; [repeat split|].
  exact (proj1 (setup_poll_overrides_settings benv boot_state doc_B
                  eq_refl eq_refl eq_refl eq_refl)).
Defined.

(** X29: when the first poll returns [false], [setup] puts the device in
    Dashboard mode and draws the local dashboard as its last screen,
    without any bitmap request.  The poll returns [false] not only when it
    fails but also when the server answers that nothing needs refreshing,
    so a device that boots in step with the server shows the local
    dashboard, not the server's. *)
Theorem setup_falls_back_to_local_dashboard benv b :
  boot_pin benv = true ->
  auto_connect benv = true ->
  value (pollServerForInstructions (core_env benv)
           (state_at_initial_poll benv b)) = false ->
  let r := setup benv b in
  currentMode (dev (bfinal r)) = MODE_DASHBOARD
  /\ fetches (core_events (bemitted r)) = 0%nat
  /\ exists front, bemitted r = front ++ [Core DrawDashboard].
Proof.
  intros Hp Ha Hv r. subst r.
  destruct (setup_online_eq benv b Hp Ha) as [He Hd].
  destruct (poll_counts (core_env benv) (state_at_initial_poll benv b))
    as (_ & Hcnt).
  rewrite Hv in He, Hd, Hcnt. destruct Hcnt as [Hf _].
  rewrite Hd, He. split; [reflexivity|]. split.
  - rewrite !core_events_app, core_events_map.
    rewrite (proj1 (proj2 (register_events_eq benv b))).
    cbn [core_events app]. rewrite fetches_app, Hf. reflexivity.
  - eexists. rewrite !app_assoc. reflexivity.
Qed.

(** The server answers the first poll with Scenario A: dashboard, index
    0, nothing to refresh. *)
Lemma setup_falls_back_to_local_dashboard_witness :
  let benv := boot_env
                (fixed_env 5000 (reply_frame xff) (reply_frame x00)
                   (mkPollReply 200 (Some doc_A)))
                true true 200 (mkSettingsReply 404 None) in
  (boot_pin benv = true /\ auto_connect benv = true
   /\ value (pollServerForInstructions (core_env benv)
               (state_at_initial_poll benv boot_state)) = false)
  /\ core_events (bemitted (setup benv boot_state))
     = [HttpGetPoll 0 "dashboard" 0; DrawDashboard]
  /\ currentMode (dev (bfinal (setup benv boot_state))) = MODE_DASHBOARD.
Proof.
  intros benv.
  assert (Hv : value (pollServerForInstructions (core_env benv)
                        (state_at_initial_poll benv boot_state)) = false)
    by (vm_compute; reflexivity).
  split; [exact (conj eq_refl (conj eq_refl Hv))|].
  split; [vm_compute; reflexivity|].
  exact (proj1 (setup_falls_back_to_local_dashboard benv boot_state
                  eq_refl eq_refl Hv)).
Defined.

(** * Two toggles from a state of a run *)

Lemma settled_ext env d d' :
  currentMode d' = currentMode d ->
  currentImageIndex d' = currentImageIndex d ->
  settled env d -> settled env d'.
Proof. unfold settled. intros -> ->. exact (fun H => H). Qed.

Lemma doc_mode_cases doc :
  doc_mode doc = MODE_DASHBOARD \/ doc_mode doc = MODE_IMAGE.
Proof. unfold doc_mode. destruct (String.eqb _ _); auto. Qed.

(** With a stable server, two toggles from a settled state. *)
Lemma round_trip_settled env d :
  stable_server env ->
  Z.of_nat (List.length (imageBuffer d)) = expectedSize ->
  settled env d ->
  let m := currentMode d in
  let idx := currentImageIndex d in
  let a := toggle_twice env d in
  let b := toggle_twice env (final a) in
  currentMode (final a) = m
  /\ currentImageIndex (final a) = idx
  /\ emitted a
     = toggle_events env m idx ++ toggle_events env (toggle_mode env m idx) idx
  /\ emitted b = emitted a
  /\ currentMode (final b) = m.
Proof.
  intros Hst Hlen Hstart m idx a b.
  destruct (toggle_twice_stable env Hst d Hlen) as (Hea & Hma & Hia & Hla).
  fold a m idx in Hea, Hma, Hia, Hla.
  destruct (toggle_twice_stable env Hst (final a) Hla)
    as (Heb & Hmb & Hib & _).
  fold b in Heb, Hmb, Hib.
  assert (Hback : toggle_mode env (toggle_mode env m idx) idx = m).
  { unfold toggle_mode. subst m idx.
    destruct Hstart as [-> | [-> Hok]]; cbn [DisplayMode_eqb].
    - destruct (photo_ok env (currentImageIndex d)); reflexivity.
    - now rewrite Hok. }
  rewrite Hback in Hma.
  rewrite Hma, Hia in Heb, Hmb.
  rewrite Hback in Hmb.
  repeat split; congruence.
Qed.

Section StableRuns.

Variable env : Env.
Hypothesis Hstable : stable_server env.

Lemma photo_ok_fetch n idx buf :
  fetch_succeeds (bitmap_reply env n idx "photo") buf = photo_ok env idx.
Proof.
  unfold photo_ok, photo_reply.
  rewrite (Hstable n 0%nat idx "photo").
  apply fetch_succeeds_indep.
Qed.

(** A toggle always ends settled. *)
Lemma toggle_settled d :
  Z.of_nat (List.length (imageBuffer d)) = expectedSize ->
  settled env (final (toggleMode env d))
  /\ Z.of_nat (List.length (imageBuffer (final (toggleMode env d))))
     = expectedSize.
Proof.
  intros Hlen.
  destruct (toggleMode_stable env Hstable d Hlen) as (_ & Hm & Hi & Hl).
  split; [|exact Hl].
  unfold settled. rewrite Hm, Hi. unfold toggle_mode.
  destruct (DisplayMode_eqb (currentMode d) MODE_DASHBOARD); [|now left].
  destruct (photo_ok env (currentImageIndex d)) eqn:Hok;
    [right; now split|now left].
Qed.

(** So does the refresh inside a poll. *)
Lemma refresh_settled m d0 :
  m = MODE_DASHBOARD \/ m = MODE_IMAGE ->
  settled env (final (refresh_result env m d0)).
Proof.
  intros Hm. unfold refresh_result. cbv zeta.
  destruct (DisplayMode_eqb m MODE_DASHBOARD) eqn:E.
  - left. apply DisplayMode_eqb_eq in E. now subst m.
  - destruct Hm as [->| ->]; [discriminate E|].
    destruct (0 <? _); [|now left].
    destruct (fetch_succeeds _ _) eqn:Hp; [|now left].
    right. split; [reflexivity|].
    rewrite photo_ok_fetch in Hp. exact Hp.
Qed.

Lemma poll_settled d :
  Z.of_nat (List.length (imageBuffer d)) = expectedSize ->
  let r := pollServerForInstructions env d in
  (value r = true -> settled env (final r))
  /\ (value r = false ->
      currentMode (final r) = currentMode d
      /\ currentImageIndex (final r) = currentImageIndex d)
  /\ Z.of_nat (List.length (imageBuffer (final r))) = expectedSize.
Proof.
  intros Hlen r.
  split; [|split; [|exact (proj2 (poll_frames_complete env d Hlen))]];
    subst r.
  - destruct (Z.eq_dec (pr_code (reply_to_poll env d)) 200) as [Hc|Hc];
      [|rewrite (poll_not_merged env d (or_introl Hc)); discriminate].
    destruct (pr_doc (reply_to_poll env d)) as [doc|] eqn:Hd;
      [|rewrite (poll_not_merged env d (or_intror Hd)); discriminate].
    rewrite (poll_merged env d doc Hc Hd).
    destruct (wants_refresh doc d); [|discriminate].
    intros _. cbn [final prepend].
    apply refresh_settled, doc_mode_cases.
  - destruct (Z.eq_dec (pr_code (reply_to_poll env d)) 200) as [Hc|Hc];
      [|rewrite (poll_not_merged env d (or_introl Hc)); now split].
    destruct (pr_doc (reply_to_poll env d)) as [doc|] eqn:Hd;
      [|rewrite (poll_not_merged env d (or_intror Hd)); now split].
    rewrite (poll_merged env d doc Hc Hd).
    destruct (wants_refresh doc d) eqn:Hw.
    + cbn [value prepend].
      rewrite (proj1 (refresh_result_fields env (doc_mode doc)
                        (after_merge doc d))).
      discriminate.
    + intros _. cbn. split; [reflexivity|].
      unfold wants_refresh in Hw.
      apply orb_false_elim in Hw as [_ Hw].
      apply negb_false_iff, Z.eqb_eq in Hw. exact Hw.
Qed.

(** A poll keeps a settled state settled. *)
Lemma poll_keeps_settled d :
  Z.of_nat (List.length (imageBuffer d)) = expectedSize ->
  settled env d ->
  settled env (final (pollServerForInstructions env d))
  /\ Z.of_nat (List.length
                 (imageBuffer (final (pollServerForInstructions env d))))
     = expectedSize.
Proof.
  intros Hlen Hs.
  destruct (poll_settled d Hlen) as (Ht & Hf & Hl).
  split; [|exact Hl].
  destruct (value (pollServerForInstructions env d)) eqn:Hv;
    [exact (Ht eq_refl)|].
  destruct (Hf eq_refl) as [Hm Hi].
  exact (settled_ext env d _ Hm Hi Hs).
Qed.

(** And so does an iteration of [loop()]. *)
Lemma loop_keeps_settled pin d :
  Z.of_nat (List.length (imageBuffer d)) = expectedSize ->
  settled env d ->
  settled env (final (loop env pin d))
  /\ Z.of_nat (List.length (imageBuffer (final (loop env pin d))))
     = expectedSize.
Proof.
  intros Hlen Hs.
  assert (Hb : settled env (final (loop_button env pin d))
               /\ Z.of_nat (List.length
                              (imageBuffer (final (loop_button env pin d))))
                  = expectedSize).
  { rewrite loop_button_eq.
    destruct (button_pressed env pin d); cbn [final].
    - match goal with
      | |- context [toggleMode env ?d0] =>
          destruct (toggle_settled d0 Hlen) as [Ht Hl]
      end.
      split; [|exact Hl].
      eapply settled_ext; [| |exact Ht]; reflexivity.
    - destruct (negb pin && lastButtonState d); (split; [|exact Hlen]);
        (eapply settled_ext; [| |exact Hs]; reflexivity). }
  destruct Hb as [Hs1 Hl1].
  unfold loop. rewrite run_bind. cbn [final prepend].
  set (d1 := final (loop_button env pin d)) in *.
  rewrite loop_poll_eq.
  destruct (negb (wifiConnected d1)); cbn [final]; [now split|].
  destruct (poll_due _ d1); cbn [final].
  - assert (Hl1' : Z.of_nat (List.length (imageBuffer (bump_clk d1)))
                   = expectedSize) by exact Hl1.
    assert (Hs1' : settled env (bump_clk d1))
      by (eapply settled_ext; [| |exact Hs1]; reflexivity).
    destruct (poll_keeps_settled (bump_clk d1) Hl1' Hs1') as [Hs2 Hl2].
    split; [|exact Hl2].
    eapply settled_ext; [| |exact Hs2]; reflexivity.
  - split; [|exact Hl1].
    eapply settled_ext; [| |exact Hs1]; reflexivity.
Qed.

End StableRuns.

(** [setup()] ends settled: in Dashboard mode, unless its poll put a photo
    on the display. *)
Lemma setup_settled benv :
  stable_server (core_env benv) ->
  let d := dev (bfinal (setup benv boot_state)) in
  settled (core_env benv) d
  /\ Z.of_nat (List.length (imageBuffer d)) = expectedSize.
Proof.
  intros Hst d. subst d.
  destruct (boot_pin benv) eqn:Hp.
  - destruct (auto_connect benv) eqn:Ha.
    + rewrite (proj2 (setup_online_eq benv boot_state Hp Ha)).
      set (d3 := state_at_initial_poll benv boot_state).
      assert (Hl3 : Z.of_nat (List.length (imageBuffer d3)) = expectedSize).
      { subst d3. unfold state_at_initial_poll.
        rewrite fetchDeviceSettings_eq, registerDevice_eq.
        destruct (health_code benv <? 0);
          destruct (st_code (settings_reply benv) =? 200);
          destruct (st_doc (settings_reply benv)); reflexivity. }
      destruct (poll_settled (core_env benv) Hst d3 Hl3) as (Ht & _ & Hl).
      destruct (value (pollServerForInstructions (core_env benv) d3)).
      * split; [|exact Hl].
        eapply settled_ext; [| |exact (Ht eq_refl)]; reflexivity.
      * split; [now left|exact Hl].
    + rewrite (setup_eq benv boot_state Hp),
        (setupWiFi_offline benv boot_state Ha).
      split; [now left|reflexivity].
  - unfold setup. rewrite Hp. cbn [negb]. rewrite brun_emit.
    split; [now left|reflexivity].
Qed.

(** Every state of a run against a stable server is settled. *)
Lemma reachable_settled benv d :
  stable_server (core_env benv) ->
  reachable benv d ->
  settled (core_env benv) d
  /\ Z.of_nat (List.length (imageBuffer d)) = expectedSize.
Proof.
  intros Hst Hr. induction Hr as [|pin d _ [Hs Hl]|d _ [Hs Hl]|d _ [Hs Hl]].
  - now apply setup_settled.
  - now apply loop_keeps_settled.
  - now apply toggle_settled.
  - now apply poll_keeps_settled.
Qed.

(** C9: with a stable server (the reply to a bitmap request depends on the
    request only), in every state the sketch reaches by [setup()] followed
    by iterations of [loop()], toggles and polls, two toggles with no poll
    in between bring the mode back to what it was and leave the image
    index alone; they make the requests and drawings that one toggle from
    that mode followed by one toggle from the mode it leads to imply, and
    a further pair of toggles makes the same requests and drawings
    again. *)
Theorem two_toggles_round_trip benv d :
  stable_server (core_env benv) ->
  reachable benv d ->
  let env := core_env benv in
  let m := currentMode d in
  let idx := currentImageIndex d in
  let a := toggle_twice env d in
  let b := toggle_twice env (final a) in
  currentMode (final a) = m
  /\ currentImageIndex (final a) = idx
  /\ emitted a
     = toggle_events env m idx ++ toggle_events env (toggle_mode env m idx) idx
  /\ emitted b = emitted a
  /\ currentMode (final b) = m.
Proof.
  intros Hst Hr.
  destruct (reachable_settled benv d Hst Hr) as [Hs Hl].
  exact (round_trip_settled (core_env benv) d Hst Hl Hs).
Qed.

(** Start-up against a server with content (the first poll fails, so the
    local dashboard is shown), then one press of the button: the device
    shows photo 3; two further presses bring it back to that photo. *)
Lemma two_toggles_round_trip_witness :
  let benv := boot_env photo_env true true 200 settings_seven in
  let d := final (toggleMode photo_env
                    (dev (bfinal (setup benv boot_state)))) in
  (stable_server (core_env benv) /\ reachable benv d)
  /\ currentMode d = MODE_IMAGE
  /\ currentImageIndex d = 3
  /\ currentMode (final (toggle_twice photo_env d)) = MODE_IMAGE
  /\ currentImageIndex (final (toggle_twice photo_env d)) = 3.
Proof.
  intros benv d.
  assert (Hst : stable_server (core_env benv))
    by (intros n n' i m; reflexivity).
  assert (Hr : reachable benv d)
    by exact (reach_toggle benv _ (reach_setup benv)).
  assert (Hm : currentMode d = MODE_IMAGE) by (vm_compute; reflexivity).
  assert (Hi : currentImageIndex d = 3) by (vm_compute; reflexivity).
  destruct (two_toggles_round_trip benv d Hst Hr) as (Ha & Hb & _).
  split; [exact (conj Hst Hr)|].
  split; [exact Hm|]. split; [exact Hi|].
  split; [exact (eq_trans Ha Hm)|exact (eq_trans Hb Hi)].
Defined.
